(** * AirlineDB: the query/update layer over the four-table flight schema

    A shallow embedding of [airline_database.py] (schema and sample data)
    and [database_queries.py] (filtered look-ups and guarded updates), with
    the [sqlite3] driver modelled by explicit state passing: a committed
    database, the connections opened so far with their pending transaction,
    the lines printed and the lines still to be read from the operator. *)

From Stdlib Require Import ZArith List String Ascii Bool Lia.
From Stdlib Require Import Sorted Permutation DecimalString.
Import ListNotations.

Local Open Scope string_scope.
Local Open Scope Z_scope.
Local Open Scope list_scope.

(** ** Python arguments and SQLite values *)

Module Value.

(** The integers the driver binds: SQLite's signed 64-bit INTEGER. *)
Definition in_int64 (z : Z) : bool :=
  (- 2 ^ 63 <=? z) && (z <? 2 ^ 63).

Record int64 : Type := Int64 { int64_val : Z; int64_ok : in_int64 int64_val = true }.

(** What a caller passes for a text parameter: [None], a [str], an [int]
    or a [bytes] object. These are the arguments the driver can bind. An
    [int] outside 64 bits, or an object of another type, makes
    [cursor.execute] raise when it binds it; such arguments are not
    represented, and what is proved of every [pyval] is proved of the
    arguments that can be bound. *)
Inductive pyval : Type :=
| PyNone
| PyStr (s : string)
| PyInt (i : int64)
| PyBytes (b : string).

(** [if v:] *)
Definition truthy (v : pyval) : bool :=
  match v with
  | PyNone => false
  | PyStr s => negb (s =? "")%string
  | PyInt i => negb (int64_val i =? 0)
  | PyBytes b => negb (b =? "")%string
  end.

(** [v is None] *)
Definition is_None (v : pyval) : bool :=
  match v with PyNone => true | _ => false end.

(** Storage classes of SQLite (REAL is not used by this schema). *)
Inductive sqlval : Type :=
| SqlNull
| SqlInt (z : Z)
| SqlText (s : string)
| SqlBlob (b : string).

(** Parameter binding of the driver. *)
Definition bind (v : pyval) : sqlval :=
  match v with
  | PyNone => SqlNull
  | PyStr s => SqlText s
  | PyInt i => SqlInt (int64_val i)
  | PyBytes b => SqlBlob b
  end.

(** Decimal rendering of an integer, as TEXT affinity produces it. *)
Definition text_of_Z (z : Z) : string := NilZero.string_of_int (Z.to_int z).

(** TEXT affinity applied to an operand: numbers become text, text and
    blobs stay as they are. *)
Definition text_affinity (v : sqlval) : sqlval :=
  match v with
  | SqlInt z => SqlText (text_of_Z z)
  | _ => v
  end.

(** [a = b] in SQL: NULL when an operand is NULL ([None] here), and values
    of different storage classes are never equal. *)
Definition sql_eq (a b : sqlval) : option bool :=
  match a, b with
  | SqlNull, _ | _, SqlNull => None
  | SqlInt x, SqlInt y => Some (x =? y)
  | SqlText x, SqlText y => Some (x =? y)%string
  | SqlBlob x, SqlBlob y => Some (x =? y)%string
  | _, _ => Some false
  end.

(** SQLite's sort order: NULL first, then numbers, then text, then blobs;
    text and blobs compare byte by byte. *)
Definition sql_le (a b : sqlval) : bool :=
  match a, b with
  | SqlNull, _ => true
  | _, SqlNull => false
  | SqlInt x, SqlInt y => x <=? y
  | SqlInt _, _ => true
  | _, SqlInt _ => false
  | SqlText x, SqlText y => (x <=? y)%string
  | SqlText _, SqlBlob _ => true
  | SqlBlob _, SqlText _ => false
  | SqlBlob x, SqlBlob y => (x <=? y)%string
  end.

(** A WHERE clause keeps a row only when its condition is true. *)
Definition is_true (t : option bool) : bool :=
  match t with Some true => true | _ => false end.

(** [column = ?] for a TEXT column: the parameter has no affinity of its
    own and takes the column's. *)
Definition text_column_eq (column parameter : sqlval) : bool :=
  is_true (sql_eq column (text_affinity parameter)).

Definition of_text (s : string) : sqlval := SqlText s.

Definition of_opt_text (o : option string) : sqlval :=
  match o with Some s => SqlText s | None => SqlNull end.

(** A value written to a TEXT column of a STRICT table: integers are
    converted, a blob is refused. [None] is the refusal. *)
Definition strict_text (v : sqlval) : option (option string) :=
  match v with
  | SqlNull => Some None
  | SqlText s => Some (Some s)
  | SqlInt z => Some (Some (text_of_Z z))
  | SqlBlob _ => None
  end.

(** The same for a TEXT NOT NULL column. *)
Definition strict_text_not_null (v : sqlval) : option string :=
  match strict_text v with
  | Some (Some s) => Some s
  | _ => None
  end.

(** Case mapping of [str.lower] and [str.upper] on ASCII text, and of
    [bytes.upper] on every value: the letters a to z and A to Z are mapped,
    every other character is kept. On a [str] with other characters Python
    maps by Unicode; that is not represented, and what is said of the
    upper-cased text of a [str] is said of ASCII text ([is_ascii]). *)
Definition lower_ascii (c : ascii) : ascii :=
  let n := nat_of_ascii c in
  if (65 <=? n)%nat && (n <=? 90)%nat then ascii_of_nat (n + 32) else c.

Definition upper_ascii (c : ascii) : ascii :=
  let n := nat_of_ascii c in
  if (97 <=? n)%nat && (n <=? 122)%nat then ascii_of_nat (n - 32) else c.

Fixpoint lower (s : string) : string :=
  match s with
  | EmptyString => EmptyString
  | String c r => String (lower_ascii c) (lower r)
  end.

Fixpoint upper (s : string) : string :=
  match s with
  | EmptyString => EmptyString
  | String c r => String (upper_ascii c) (upper r)
  end.

End Value.
Import Value.

(** A fetched row is a Python tuple of column values. *)
Definition tuple : Type := list sqlval.

(** ** The schema of [create_database_tables] *)

Record destination : Type := Destination {
  dd_destination_code : string;
  dd_airport_name : string;
  dd_city : string;
  dd_country : string
}.

Record pilot : Type := Pilot {
  dp_pilot_ID : string;
  dp_first_name : string;
  dp_last_name : string;
  dp_licence_number : string;
  dp_licence_expiry : string;
  dp_night_flag : Z
}.

Record flight : Type := Flight {
  df_flight_ID : Z;
  df_flight_number : string;
  df_departure_destination_code : string;
  df_arrival_destination_code : string;
  df_scheduled_departure_time : string;
  df_scheduled_arrival_time : string
}.

Record schedule : Type := Schedule {
  fs_schedule_ID : Z;
  fs_departure_date : string;
  fs_actual_departure_time : option string;
  fs_actual_arrival_time : option string;
  fs_flight_ID : Z;
  fs_pilot_ID : option string;
  fs_status : string
}.

(** The database file: each table in the order a scan visits its rows,
    which is the order of insertion for [d_destination] and [d_pilot] and
    the order of the key for [d_flight] and [f_schedule], whose key is an
    INTEGER PRIMARY KEY. *)
Record database : Type := Database {
  d_destination : list destination;
  d_pilot : list pilot;
  d_flight : list flight;
  f_schedule : list schedule
}.

Definition empty_database : database := Database [] [] [] [].

(** ** Joins *)

Section Joins.
Context {A B : Type}.
Variable on : A -> B -> bool.

(** [l LEFT JOIN r ON on]: a row of [l] without a partner is kept once,
    with a NULL right side. *)
Definition left_join (l : list A) (r : list B) : list (A * option B) :=
  flat_map (fun a =>
              match filter (on a) r with
              | [] => [(a, None)]
              | ms => map (fun b => (a, Some b)) ms
              end) l.

(** [l JOIN r ON on] *)
Definition inner_join (l : list A) (r : list B) : list (A * B) :=
  flat_map (fun a => map (pair a) (filter (on a) r)) l.
End Joins.


(** ** Optional filters

    Each fetch function grows two tuples side by side: [where_criteria]
    (one [column = ?] per filter that passes [if v:]) and [fields] (the
    value to bind to it). *)

Section Criteria.
Context {column : Type}.

Definition criteria : Type := (list column * list pyval)%type.

Definition no_criteria : criteria := ([], []).

(** [if v: where_criteria += (c,); fields += (v,)] *)
Definition add_criterion (c : column) (v : pyval) (acc : criteria) : criteria :=
  if truthy v then (fst acc ++ [c], snd acc ++ [v]) else acc.

(** The rows a composed WHERE clause keeps: every [column = ?] must be true
    for the value bound at its position. With no criterion there is no
    WHERE clause and every row is kept. *)
Definition where_holds {row : Type} (value : row -> column -> sqlval)
    (acc : criteria) (r : row) : bool :=
  forallb (fun cv => text_column_eq (value r (fst cv)) (bind (snd cv)))
          (combine (fst acc) (snd acc)).
End Criteria.

(** ** [fetch_flights]: the query *)

Definition flight_row : Type :=
  (flight * option schedule * option destination * option destination
   * option pilot)%type.

Definition row_df (r : flight_row) : flight := fst (fst (fst (fst r))).
Definition row_fs (r : flight_row) : option schedule := snd (fst (fst (fst r))).
Definition row_dd1 (r : flight_row) : option destination := snd (fst (fst r)).
Definition row_dd2 (r : flight_row) : option destination := snd (fst r).
Definition row_dp (r : flight_row) : option pilot := snd r.

(** [fs.pilot_ID = dp.pilot_ID], false on a NULL left side. *)
Definition pilot_of (fs : option schedule) (dp : pilot) : bool :=
  match fs with
  | Some s => match fs_pilot_ID s with
              | Some p => (p =? dp_pilot_ID dp)%string
              | None => false
              end
  | None => false
  end.

(** The FROM clause of [flight_query]: four LEFT JOINs from [d_flight]. *)
Definition flight_join (db : database) : list flight_row :=
  left_join (fun r dp => pilot_of (snd (fst (fst r))) dp)
    (left_join (fun r dd2 =>
                  (df_arrival_destination_code (fst (fst r))
                   =? dd_destination_code dd2)%string)
       (left_join (fun r dd1 =>
                     (df_departure_destination_code (fst r)
                      =? dd_destination_code dd1)%string)
          (left_join (fun df fs => df_flight_ID df =? fs_flight_ID fs)
             (d_flight db) (f_schedule db))
          (d_destination db))
       (d_destination db))
    (d_pilot db).

Inductive flight_column : Type :=
| Df_flight_number
| Dd1_city
| Dd2_city
| Fs_departure_date
| Fs_status.

Definition flight_column_value (r : flight_row) (c : flight_column) : sqlval :=
  match c with
  | Df_flight_number => of_text (df_flight_number (row_df r))
  | Dd1_city => of_opt_text (option_map dd_city (row_dd1 r))
  | Dd2_city => of_opt_text (option_map dd_city (row_dd2 r))
  | Fs_departure_date => of_opt_text (option_map fs_departure_date (row_fs r))
  | Fs_status => of_opt_text (option_map fs_status (row_fs r))
  end.

(** The SELECT list of [flight_query]. *)
Definition flight_select (r : flight_row) : tuple :=
  [ of_text (df_flight_number (row_df r));
    of_opt_text (option_map dd_airport_name (row_dd1 r));
    of_opt_text (option_map dd_airport_name (row_dd2 r));
    of_text (df_scheduled_departure_time (row_df r));
    of_text (df_scheduled_arrival_time (row_df r));
    of_opt_text (option_map fs_departure_date (row_fs r));
    of_opt_text (option_map dp_pilot_ID (row_dp r));
    of_opt_text (option_map fs_status (row_fs r)) ].

(** The sort key of [ORDER BY fs.departure_date]: NULL for a flight without
    a schedule row. *)
Definition departure_key (r : flight_row) : sqlval :=
  of_opt_text (option_map fs_departure_date (row_fs r)).

(** [ORDER BY fs.departure_date DESC], as an insertion sort that keeps rows
    of equal key in their join order. *)
Fixpoint insert_desc (r : flight_row) (l : list flight_row) : list flight_row :=
  match l with
  | [] => [r]
  | h :: t =>
      if sql_le (departure_key h) (departure_key r) then r :: h :: t
      else h :: insert_desc r t
  end.

Definition order_by_departure_date_desc (l : list flight_row) : list flight_row :=
  fold_right insert_desc [] l.

(** What [cursor.execute(flight_query, fields)] then [fetchall()] yields. *)
Definition flight_query (acc : @criteria flight_column) (db : database)
  : list tuple :=
  map flight_select
      (order_by_departure_date_desc
         (filter (where_holds flight_column_value acc) (flight_join db))).

(** The two tuples [fetch_flights] builds from its keyword arguments. *)
Definition flight_criteria
    (flight_number departure_city arrival_city departure_date flight_status : pyval)
  : @criteria flight_column :=
  add_criterion Fs_status flight_status
    (add_criterion Fs_departure_date departure_date
       (add_criterion Dd2_city arrival_city
          (add_criterion Dd1_city departure_city
             (add_criterion Df_flight_number flight_number no_criteria)))).

(** ** [fetch_pilots]: the query *)

Definition pilot_row : Type :=
  (schedule * pilot * flight * destination * destination)%type.

Definition prow_fs (r : pilot_row) : schedule := fst (fst (fst (fst r))).
Definition prow_dp (r : pilot_row) : pilot := snd (fst (fst (fst r))).
Definition prow_df (r : pilot_row) : flight := snd (fst (fst r)).
Definition prow_dd1 (r : pilot_row) : destination := snd (fst r).
Definition prow_dd2 (r : pilot_row) : destination := snd r.

(** The FROM clause of [pilot_query]: four inner JOINs from [f_schedule]. *)
Definition pilot_join (db : database) : list pilot_row :=
  inner_join (fun r dd2 =>
                (df_arrival_destination_code (snd (fst r))
                 =? dd_destination_code dd2)%string)
    (inner_join (fun r dd1 =>
                   (df_departure_destination_code (snd r)
                    =? dd_destination_code dd1)%string)
       (inner_join (fun r df => fs_flight_ID (fst r) =? df_flight_ID df)
          (inner_join (fun fs dp => pilot_of (Some fs) dp)
             (f_schedule db) (d_pilot db))
          (d_flight db))
       (d_destination db))
    (d_destination db).

Inductive pilot_column : Type :=
| Dp_pilot_ID
| Dp_first_name
| Dp_last_name.

Definition pilot_column_value (r : pilot_row) (c : pilot_column) : sqlval :=
  match c with
  | Dp_pilot_ID => of_text (dp_pilot_ID (prow_dp r))
  | Dp_first_name => of_text (dp_first_name (prow_dp r))
  | Dp_last_name => of_text (dp_last_name (prow_dp r))
  end.

Definition pilot_select (r : pilot_row) : tuple :=
  [ SqlInt (fs_schedule_ID (prow_fs r));
    of_text (fs_departure_date (prow_fs r));
    SqlInt (fs_flight_ID (prow_fs r));
    of_text (fs_status (prow_fs r));
    of_text (dp_pilot_ID (prow_dp r));
    of_text (dp_first_name (prow_dp r));
    of_text (dp_last_name (prow_dp r));
    of_text (df_scheduled_departure_time (prow_df r));
    of_text (df_scheduled_arrival_time (prow_df r));
    of_text (dd_city (prow_dd1 r));
    of_text (dd_city (prow_dd2 r)) ].

Definition pilot_query (acc : @criteria pilot_column) (db : database)
  : list tuple :=
  map pilot_select (filter (where_holds pilot_column_value acc) (pilot_join db)).

Definition pilot_criteria (pilot_id first_name last_name : pyval)
  : @criteria pilot_column :=
  add_criterion Dp_last_name last_name
    (add_criterion Dp_first_name first_name
       (add_criterion Dp_pilot_ID pilot_id no_criteria)).

(** ** [fetch_destinations]: the query *)

Inductive destination_column : Type :=
| Destination_code
| Airport_name
| City
| Country.

Definition destination_column_value (r : destination) (c : destination_column)
  : sqlval :=
  match c with
  | Destination_code => of_text (dd_destination_code r)
  | Airport_name => of_text (dd_airport_name r)
  | City => of_text (dd_city r)
  | Country => of_text (dd_country r)
  end.

Definition destination_select (r : destination) : tuple :=
  [ of_text (dd_destination_code r); of_text (dd_airport_name r);
    of_text (dd_city r); of_text (dd_country r) ].

Definition destination_query (acc : @criteria destination_column)
    (db : database) : list tuple :=
  map destination_select
      (filter (where_holds destination_column_value acc) (d_destination db)).

Definition destination_criteria (destination_code airport_name city country : pyval)
  : @criteria destination_column :=
  add_criterion Country country
    (add_criterion City city
       (add_criterion Airport_name airport_name
          (add_criterion Destination_code destination_code no_criteria))).

(** ** The [sqlite3] driver and the console, by state passing *)

Module Sqlite3.

(** A connection with the cursor made from it. [conn_txn] is the private
    image of the database while a transaction is in progress; [conn_executed]
    counts the statements run through the cursor. *)
Record connection : Type := Connection {
  conn_open : bool;
  conn_txn : option database;
  conn_executed : nat
}.

(** The lines the functions print, one constructor per [print] call. *)
Inductive message : Type :=
| No_data_returned
| No_schedule_ID_entered
| Before_making_changes (schedule_id : Z)
| Schedule_ID_does_not_exist (schedule_id : Z)
| Updating_schedule_information (schedule_id : Z)
| After_any_changes (schedule_id : Z)
| No_data_returned_check_database
| No_data_returned_check_search
| No_pilot_ID_entered
| Fetching_schedule_information (pilot_id : pyval)
| Please_provide_flight_details
| Retrieving_database_information
    (flight_number departure_date departure_city arrival_city : pyval)
| Shall_I_assign (pilot_id flight_number : pyval)
| No_changes_made
| Flight_details_do_not_exist
| Assigned_successfully (pilot_id : pyval)
| Retrieving_pilot_schedule_details (pilot_id : pyval)
| Retrieving_flight_schedule_details (flight_number : pyval)
| Retrieve_information_about_destinations
| No_destination_code_entered
| Retrieving_destination_information (destination_code : pyval)
| Updating_destination_information (destination_code : pyval)
| You_have_updated (destination_code : pyval)
| Please_check_your_inputs
| Already_entered (table : string)
| Data_entry_failed.

Inductive output : Type :=
| Print (m : message)
| Tabulate (headers : list string) (rows : list tuple).

Record world : Type := World {
  disk : database;
  conns : list connection;
  stdout : list output;
  stdin : list string
}.

Inductive exn : Type :=
| ProgrammingError
| OperationalError
| IntegrityError
| AttributeError
| ValueError
| EOFError.

Inductive outcome (A : Type) : Type :=
| Returned (a : A) (w : world)
| Raised (e : exn) (w : world).
Arguments Returned {A} a w.
Arguments Raised {A} e w.

Definition py (A : Type) : Type := world -> outcome A.

Definition ret {A : Type} (a : A) : py A := fun w => Returned a w.

Definition seq {A B : Type} (m : py A) (k : A -> py B) : py B :=
  fun w => match m w with
           | Returned a w' => k a w'
           | Raised e w' => Raised e w'
           end.

Definition raise {A : Type} (e : exn) : py A := fun w => Raised e w.

(** The world an outcome ends in. *)
Definition final {A : Type} (o : outcome A) : world :=
  match o with Returned _ w => w | Raised _ w => w end.

Definition set_disk (d : database) (w : world) : world :=
  World d (conns w) (stdout w) (stdin w).

Definition set_conns (cs : list connection) (w : world) : world :=
  World (disk w) cs (stdout w) (stdin w).

Fixpoint replace_nth {A : Type} (n : nat) (x : A) (l : list A) : list A :=
  match l, n with
  | [], _ => []
  | _ :: t, O => x :: t
  | h :: t, S n' => h :: replace_nth n' x t
  end.

Definition set_conn (h : nat) (c : connection) (w : world) : world :=
  set_conns (replace_nth h c (conns w)) w.

(** [print(...)] and [print(tabulate(...))] *)
Definition emit (o : output) : py unit :=
  fun w => Returned tt (World (disk w) (conns w) (stdout w ++ [o]) (stdin w)).

Definition print (m : message) : py unit := emit (Print m).

(** [input(prompt)]: the prompt is written, one line is read; at end of
    input Python raises [EOFError]. *)
Definition input (prompt : message) : py string :=
  fun w =>
    let w' := World (disk w) (conns w) (stdout w ++ [Print prompt]) (stdin w) in
    match stdin w with
    | [] => Raised EOFError w'
    | line :: rest =>
        Returned line (World (disk w) (conns w) (stdout w ++ [Print prompt]) rest)
    end.

(** [sqlite3.connect('flight.db')] then [connection.cursor()]; the handle
    returned stands for the pair. *)
Definition connect : py nat :=
  fun w => Returned (List.length (conns w))
                    (set_conns (conns w ++ [Connection true None 0]) w).

(** Every cursor and connection method first checks that the connection is
    still open: "Cannot operate on a closed database." *)
Definition on_open {A : Type} (h : nat) (k : connection -> py A) : py A :=
  fun w => match nth_error (conns w) h with
           | Some c => if conn_open c then k c w else Raised ProgrammingError w
           | None => Raised ProgrammingError w
           end.

(** What a connection reads: its own pending image inside a transaction,
    the committed file otherwise. *)
Definition view (c : connection) (w : world) : database :=
  match conn_txn c with Some d => d | None => disk w end.

(** [cursor.execute(select, fields)] followed by [fetchall()]. *)
Definition execute_select {R : Type} (h : nat) (q : database -> list R)
  : py (list R) :=
  on_open h (fun c w =>
    Returned (q (view c w))
             (set_conn h (Connection true (conn_txn c) (S (conn_executed c))) w)).

(** [cursor.execute(...)] of a PRAGMA or of [CREATE TABLE IF NOT EXISTS] on
    a table that exists: no row is read or written. *)
Definition execute_ddl (h : nat) : py unit :=
  on_open h (fun c w =>
    Returned tt (set_conn h (Connection true (conn_txn c)
                                        (S (conn_executed c))) w)).

(** [cursor.execute("BEGIN")] *)
Definition execute_begin (h : nat) : py unit :=
  on_open h (fun c w =>
    match conn_txn c with
    | Some _ => Raised OperationalError w
    | None =>
        Returned tt (set_conn h (Connection true (Some (disk w))
                                            (S (conn_executed c))) w)
    end).

(** [cursor.execute(update, fields)]: the statement works on the pending
    image (the driver opens a transaction first when none is in progress).
    A refused write undoes the statement alone and raises; the transaction
    stays open with what earlier statements did.

    Locks between connections are not represented. This is the statement
    as it runs when no other connection holds a transaction; with one
    pending elsewhere SQLite raises OperationalError (database is locked)
    and writes nothing. *)
Definition execute_update (h : nat) (u : database -> option database)
  : py unit :=
  on_open h (fun c w =>
    match u (view c w) with
    | Some d =>
        Returned tt (set_conn h (Connection true (Some d)
                                            (S (conn_executed c))) w)
    | None =>
        Raised IntegrityError
               (set_conn h (Connection true (Some (view c w))
                                       (S (conn_executed c))) w)
    end).

(** [connection.commit()]: the pending image becomes the file. *)
Definition commit (h : nat) : py unit :=
  on_open h (fun c w =>
    match conn_txn c with
    | Some d =>
        Returned tt (set_disk d (set_conn h (Connection true None
                                                        (conn_executed c)) w))
    | None => Returned tt w
    end).

(** [cursor.executemany(insert, rows)] on a connection made with
    [isolation_level=None]: no transaction is opened, each row goes to the
    file as it is inserted, and the first refused row raises. As for
    [execute_update], this is the statement as it runs when no other
    connection holds a transaction. *)
Fixpoint executemany_insert {R : Type} (h : nat)
    (ins : R -> database -> option database) (rows : list R) : py unit :=
  match rows with
  | [] => on_open h (fun _ w => Returned tt w)
  | r :: rest =>
      on_open h (fun c w =>
        match ins r (disk w) with
        | Some d =>
            executemany_insert h ins rest
              (set_disk d (set_conn h (Connection true (conn_txn c)
                                                  (S (conn_executed c))) w))
        | None => Raised IntegrityError w
        end)
  end.

Definition exn_eqb (a b : exn) : bool :=
  match a, b with
  | ProgrammingError, ProgrammingError
  | OperationalError, OperationalError
  | IntegrityError, IntegrityError
  | AttributeError, AttributeError
  | ValueError, ValueError
  | EOFError, EOFError => true
  | _, _ => false
  end.

(** [try: body  except e: handler] *)
Definition try_except (body : py unit) (e : exn) (handler : py unit) : py unit :=
  fun w => match body w with
           | Returned a w' => Returned a w'
           | Raised e' w' => if exn_eqb e e' then handler w' else Raised e' w'
           end.

(** [cursor.close()] *)
Definition cursor_close (h : nat) : py unit :=
  on_open h (fun _ w => Returned tt w).

(** [connection.close()]: a pending transaction is rolled back. Closing a
    closed connection does nothing. *)
Definition connection_close (h : nat) : py unit :=
  fun w => match nth_error (conns w) h with
           | Some c =>
               Returned tt (set_conn h (Connection false None (conn_executed c)) w)
           | None => Returned tt w
           end.

(** The connections still open. *)
Definition open_connections (w : world) : list connection :=
  filter conn_open (conns w).

End Sqlite3.
Import Sqlite3.

Declare Scope py_scope.
Delimit Scope py_scope with py.
Notation "x <- m ;; k" := (seq m (fun x => k))
  (at level 100, m at next level, right associativity) : py_scope.
Notation "m ;; k" := (seq m (fun _ => k))
  (at level 100, right associativity) : py_scope.
Local Open Scope py_scope.

(** [if b: body] *)
Definition when (b : bool) (body : py unit) : py unit :=
  if b then body else ret tt.

(** A fresh process in front of a database file. *)
Definition start (db : database) (lines : list string) : world :=
  World db [] [] lines.

(** ** [airline_database.py] *)

Module airline_database.

(** [sqlite3.connect('flight.db', isolation_level=None)] *)
Definition open_connection : py nat := connect.

Definition close_connection (connection : nat) : py unit :=
  cursor_close connection ;; connection_close connection.

(** The four [CREATE TABLE IF NOT EXISTS ... STRICT] statements. A file
    without tables is not represented: the tables exist and are empty, so
    the statements change nothing. [PRAGMA foreign_keys = ON] holds for this
    connection only; no later connection sets it, and foreign keys are not
    enforced by any of them. *)
Definition create_database_tables : py unit :=
  connection <- open_connection ;;
  execute_ddl connection ;;
  execute_ddl connection ;;
  execute_ddl connection ;;
  execute_ddl connection ;;
  execute_ddl connection ;;
  commit connection ;;
  close_connection connection.

Definition pilots : list pilot :=
  [ Pilot "P0010001" "Bhaagyashree" "Patil" "ATPL8954" "2026-03-31" 1;
    Pilot "P0010002" "Jo" "Hyde" "ATPL5235" "2027-01-26" 1;
    Pilot "P0010003" "Christina" "Keating" "ATPL8648" "2025-09-03" 0;
    Pilot "P0010004" "Zach" "Lyons" "CPL85695" "2026-02-28" 1;
    Pilot "P0010005" "Raghubir" "Singh" "CPL64585" "2025-10-15" 0;
    Pilot "P0010006" "Matthew" "Albertyn" "CPL89563" "2026-08-22" 1;
    Pilot "P0010007" "James" "Davenport" "CPL85685" "2025-12-17" 1;
    Pilot "P0010008" "Paola" "Bruscoli" "ATPL5684" "2026-11-01" 1;
    Pilot "P0010009" "Ben" "Ralph" "CPL58695" "2026-05-08" 0;
    Pilot "P0010010" "Neil" "Langmead" "ATPL2135" "2025-06-30" 1 ].

Definition destinations : list destination :=
  [ Destination "DUB" "Dublin International" "Dublin" "Ireland";
    Destination "EMA" "East Midlands" "Nottingham" "England";
    Destination "BHX" "Birmingham Airport" "Birmingham" "England";
    Destination "NWI" "Norwich International" "Norwich" "England";
    Destination "BRS" "Bristol Airport" "Bristol" "England";
    Destination "EXE" "Exeter Airport" "Exeter" "England";
    Destination "SOU" "Southampton Airport" "Southampton" "England";
    Destination "GCI" "Guernsey Airport" "Guernsey" "Channel Islands";
    Destination "JER" "Jersey Airport" "Jersey" "Channel Islands";
    Destination "NCL" "Newcastle International" "Newcastle" "England";
    Destination "CDG" "Charles de Gaulle" "Paris" "France";
    Destination "BIO" "Bilbao Airport" "Bilbao" "Spain";
    Destination "MUC" "Munich International" "Munich" "Germany";
    Destination "VRN" "Verona Villafranca Airport" "Verona" "Italy";
    Destination "PMI" "Palma de Mallorca Airport" "Palma de Mallorca" "Spain" ].

Definition flights : list flight :=
  [ Flight 1 "SI2206" "GCI" "JER" "08:30:00" "08:50:00";
    Flight 2 "SI3350" "JER" "SOU" "07:15:00" "08:05:00";
    Flight 3 "SI3351" "SOU" "JER" "08:35:00" "09:25:00";
    Flight 4 "SI5580" "JER" "DUB" "10:35:00" "12:20:00";
    Flight 5 "SI2206" "JER" "EXE" "09:20:00" "10:05:00";
    Flight 6 "SI2207" "EXE" "JER" "10:45:00" "11:30:00";
    Flight 7 "SI2203" "EXE" "JER" "08:35:00" "09:20:00";
    Flight 8 "SI2202" "JER" "EXE" "07:20:00" "08:05:00";
    Flight 9 "SI5552" "GCI" "JER" "12:45:00" "13:05:00";
    Flight 10 "SI5581" "DUB" "JER" "13:00:00" "14:45:00";
    Flight 11 "SI3312" "GCI" "SOU" "10:00:00" "10:45:00";
    Flight 12 "SI3328" "GCI" "SOU" "13:50:00" "14:35:00";
    Flight 13 "SI3342" "GCI" "SOU" "18:20:00" "19:05:00";
    Flight 14 "SI3329" "SOU" "GCI" "15:05:00" "15:50:00";
    Flight 15 "SI3313" "SOU" "GCI" "11:15:00" "12:00:00" ].

Definition schedule_rows : list schedule :=
  [ Schedule 1 "2025-04-21" None None 2 (Some "P0010001") "scheduled";
    Schedule 2 "2025-04-21" None None 3 (Some "P0010001") "scheduled";
    Schedule 3 "2025-04-21" None None 5 (Some "P0010002") "scheduled";
    Schedule 4 "2025-04-21" None None 6 (Some "P0010002") "scheduled";
    Schedule 5 "2025-04-06" None None 7 (Some "P0010002") "landed";
    Schedule 6 "2025-04-06" None None 8 (Some "P0010002") "landed";
    Schedule 7 "2025-04-07" None None 4 (Some "P0010003") "landed";
    Schedule 8 "2025-04-07" None None 10 (Some "P0010003") "landed";
    Schedule 9 "2025-04-08" None None 9 (Some "P0010004") "landed";
    Schedule 10 "2025-04-09" None None 1 None "cancelled";
    Schedule 11 "2025-04-29" None None 2 None "scheduled" ].

(** [INSERT INTO ...]: refused when the primary key is already there. *)
Definition insert_pilot (p : pilot) (db : database) : option database :=
  if existsb (fun q => (dp_pilot_ID q =? dp_pilot_ID p)%string) (d_pilot db)
  then None
  else Some (Database (d_destination db) (d_pilot db ++ [p]) (d_flight db)
                      (f_schedule db)).

Definition insert_destination (d : destination) (db : database)
  : option database :=
  if existsb (fun q => (dd_destination_code q =? dd_destination_code d)%string)
             (d_destination db)
  then None
  else Some (Database (d_destination db ++ [d]) (d_pilot db) (d_flight db)
                      (f_schedule db)).

(** A row inserted with its INTEGER PRIMARY KEY takes its place by the
    key: before the first row of a greater key. *)
Fixpoint place {R : Type} (key : R -> Z) (r : R) (t : list R) : list R :=
  match t with
  | [] => [r]
  | q :: rest => if key r <? key q then r :: q :: rest
                 else q :: place key r rest
  end.

Definition insert_flight (f : flight) (db : database) : option database :=
  if existsb (fun q => df_flight_ID q =? df_flight_ID f) (d_flight db)
  then None
  else Some (Database (d_destination db) (d_pilot db)
                      (place df_flight_ID f (d_flight db)) (f_schedule db)).

Definition insert_schedule (s : schedule) (db : database) : option database :=
  if existsb (fun q => fs_schedule_ID q =? fs_schedule_ID s) (f_schedule db)
  then None
  else Some (Database (d_destination db) (d_pilot db) (d_flight db)
                      (place fs_schedule_ID s (f_schedule db))).

(** Each table is loaded inside its own [try]; a duplicate key is reported
    and the next table is loaded. The engine names the flight key
    [d_flight.flight_ID], which the test for ["d_flight.flight_id"] does
    not find, so a duplicate flight gets the general message. *)
Definition load_sample_data : py unit :=
  connection <- open_connection ;;
  try_except (executemany_insert connection insert_pilot pilots)
             IntegrityError (print (Already_entered "d_pilot")) ;;
  try_except (executemany_insert connection insert_destination destinations)
             IntegrityError (print (Already_entered "d_destination")) ;;
  try_except (executemany_insert connection insert_flight flights)
             IntegrityError (print Data_entry_failed) ;;
  try_except (executemany_insert connection insert_schedule schedule_rows)
             IntegrityError (print (Already_entered "f_schedule")) ;;
  commit connection ;;
  close_connection connection.

(** [if __name__ == "__main__":] *)
Definition main : py unit :=
  create_database_tables ;; load_sample_data.

End airline_database.

(** ** [database_queries.py] *)

Module database_queries.

(** [sqlite3.connect('flight.db')]: the driver's default transaction
    handling. *)
Definition open_connection : py nat := connect.

Definition close_connection (connection : nat) : py unit :=
  cursor_close connection ;; connection_close connection.

Definition flight_headers : list string :=
  [ "Flight Number"; "Departure Destination"; "Arrival Destination";
    "Scheduled Departure"; "Scheduled Arrival"; "Departure Date"; "Pilot ID";
    "Flight Status" ]%string.

Definition schedule_headers : list string :=
  [ "Schedule ID"; "Departure Date"; "Actual Departure Time";
    "Actual Arrival Time"; "Flight ID"; "Pilot ID"; "Flight Status" ]%string.

Definition pilot_headers : list string :=
  [ "Schedule ID"; "Departure Date"; "Flight ID"; "Flight Status"; "Pilot ID";
    "First Name"; "Last Name"; "Scheduled Departure time";
    "Scheduled Arrival Time"; "Departure City"; "Arrival City" ]%string.

Definition destination_headers : list string :=
  [ "Destination Code"; "Airport Name"; "City"; "Country" ]%string.

(** [if result:] on a list of rows *)
Definition nonempty {A : Type} (l : list A) : bool :=
  match l with [] => false | _ :: _ => true end.

Definition fetch_flights
    (flight_number departure_city arrival_city departure_date flight_status : pyval)
  : py unit :=
  connection <- open_connection ;;
  result <- execute_select connection
              (flight_query (flight_criteria flight_number departure_city
                               arrival_city departure_date flight_status)) ;;
  (if nonempty result then emit (Tabulate flight_headers result)
   else print No_data_returned) ;;
  close_connection connection.

Definition fetch_pilots (pilot_id first_name last_name : pyval) : py unit :=
  connection <- open_connection ;;
  result <- execute_select connection
              (pilot_query (pilot_criteria pilot_id first_name last_name)) ;;
  (if nonempty result then emit (Tabulate pilot_headers result)
   else print No_data_returned_check_search) ;;
  close_connection connection.

Definition fetch_destinations (destination_code airport_name city country : pyval)
  : py unit :=
  print Retrieve_information_about_destinations ;;
  connection <- open_connection ;;
  result <- execute_select connection
              (destination_query (destination_criteria destination_code
                                    airport_name city country)) ;;
  emit (Tabulate destination_headers result) ;;
  close_connection connection.

(** *** Updates *)

(** [UPDATE table SET ... WHERE ...]: every matching row is rewritten; the
    column check of the STRICT table runs on each row written, so a value
    it refuses fails the statement only when some row matches. *)
Fixpoint update_rows {R : Type} (matches : R -> bool) (set : R -> option R)
    (table : list R) : option (list R) :=
  match table with
  | [] => Some []
  | r :: rest =>
      match (if matches r then set r else Some r), update_rows matches set rest with
      | Some r', Some rest' => Some (r' :: rest')
      | _, _ => None
      end
  end.

Definition update_f_schedule (matches : schedule -> bool)
    (set : schedule -> option schedule) (db : database) : option database :=
  option_map (Database (d_destination db) (d_pilot db) (d_flight db))
             (update_rows matches set (f_schedule db)).

Definition update_d_destination (matches : destination -> bool)
    (set : destination -> option destination) (db : database)
  : option database :=
  option_map (fun t => Database t (d_pilot db) (d_flight db) (f_schedule db))
             (update_rows matches set (d_destination db)).

Definition schedule_select (s : schedule) : tuple :=
  [ SqlInt (fs_schedule_ID s); of_text (fs_departure_date s);
    of_opt_text (fs_actual_departure_time s);
    of_opt_text (fs_actual_arrival_time s); SqlInt (fs_flight_ID s);
    of_opt_text (fs_pilot_ID s); of_text (fs_status s) ].

(** [schedule_lookup]: [... FROM f_schedule WHERE schedule_ID = ?] *)
Definition schedule_lookup (schedule_id : int64) (db : database) : list tuple :=
  map schedule_select
      (filter (fun s => fs_schedule_ID s =? int64_val schedule_id) (f_schedule db)).

Definition has_schedule_ID (schedule_id : int64) (s : schedule) : bool :=
  fs_schedule_ID s =? int64_val schedule_id.

(** [SET actual_departure_time = ?] *)
Definition set_actual_departure_time (v : pyval) (s : schedule) : option schedule :=
  option_map (fun t => Schedule (fs_schedule_ID s) (fs_departure_date s) t
                                (fs_actual_arrival_time s) (fs_flight_ID s)
                                (fs_pilot_ID s) (fs_status s))
             (strict_text (bind v)).

(** [SET actual_arrival_time = ?] *)
Definition set_actual_arrival_time (v : pyval) (s : schedule) : option schedule :=
  option_map (fun t => Schedule (fs_schedule_ID s) (fs_departure_date s)
                                (fs_actual_departure_time s) t (fs_flight_ID s)
                                (fs_pilot_ID s) (fs_status s))
             (strict_text (bind v)).

(** [SET status = ?] *)
Definition set_status (v : pyval) (s : schedule) : option schedule :=
  option_map (fun t => Schedule (fs_schedule_ID s) (fs_departure_date s)
                                (fs_actual_departure_time s)
                                (fs_actual_arrival_time s) (fs_flight_ID s)
                                (fs_pilot_ID s) t)
             (strict_text_not_null (bind v)).

(** [SET pilot_id = ?] *)
Definition set_pilot_id (v : pyval) (s : schedule) : option schedule :=
  option_map (fun t => Schedule (fs_schedule_ID s) (fs_departure_date s)
                                (fs_actual_departure_time s)
                                (fs_actual_arrival_time s) (fs_flight_ID s)
                                t (fs_status s))
             (strict_text (bind v)).

Definition modify_schedule (schedule_id : option int64)
    (new_departure_time new_arrival_time new_status : pyval) : py unit :=
  match schedule_id with
  | None => print No_schedule_ID_entered
  | Some id =>
      print (Before_making_changes (int64_val id)) ;;
      connection <- open_connection ;;
      found <- execute_select connection (schedule_lookup id) ;;
      match found with
      | [] => print (Schedule_ID_does_not_exist (int64_val id))
      | schedule_result :: _ =>
          emit (Tabulate schedule_headers [schedule_result]) ;;
          print (Updating_schedule_information (int64_val id)) ;;
          execute_begin connection ;;
          when (truthy new_departure_time)
               (execute_update connection
                  (update_f_schedule (has_schedule_ID id)
                     (set_actual_departure_time new_departure_time))) ;;
          when (truthy new_arrival_time)
               (execute_update connection
                  (update_f_schedule (has_schedule_ID id)
                     (set_actual_arrival_time new_arrival_time))) ;;
          when (truthy new_status)
               (execute_update connection
                  (update_f_schedule (has_schedule_ID id)
                     (set_status new_status))) ;;
          commit connection ;;
          print (After_any_changes (int64_val id)) ;;
          again <- execute_select connection (schedule_lookup id) ;;
          match again with
          | updated_result :: _ =>
              emit (Tabulate schedule_headers [updated_result])
          | [] => print No_data_returned_check_database
          end ;;
          close_connection connection
      end
  end.

(** [flight_id_lookup]: the flights with that number between those two
    cities, in scan order of [d_flight]. *)
Definition flight_id_lookup (flight_number departure_city arrival_city : pyval)
    (db : database) : list Z :=
  map (fun r => df_flight_ID (fst (fst r)))
      (filter (fun r =>
                 text_column_eq (of_text (df_flight_number (fst (fst r))))
                                (bind flight_number)
                 && text_column_eq (of_opt_text (option_map dd_city (snd (fst r))))
                                   (bind departure_city)
                 && text_column_eq (of_opt_text (option_map dd_city (snd r)))
                                   (bind arrival_city))
         (left_join (fun r dd2 =>
                       (df_arrival_destination_code (fst r)
                        =? dd_destination_code dd2)%string)
            (left_join (fun df dd1 =>
                          (df_departure_destination_code df
                           =? dd_destination_code dd1)%string)
               (d_flight db) (d_destination db))
            (d_destination db))).

(** The WHERE clause of [pilot_assignment]:
    [flight_id = ? AND departure_date = ?] *)
Definition on_flight_and_date (flight_id : Z) (departure_date : pyval)
    (s : schedule) : bool :=
  (fs_flight_ID s =? flight_id)
  && text_column_eq (of_text (fs_departure_date s)) (bind departure_date).

(** [pilot_assignment] *)
Definition pilot_assignment (pilot_id : pyval) (flight_id : Z)
    (departure_date : pyval) (db : database) : option database :=
  update_f_schedule (on_flight_and_date flight_id departure_date)
                    (set_pilot_id pilot_id) db.

(** The statements that close the body of the [while] loop, after the
    [if]/[elif]: both schedules are shown again and the connection held in
    [connection] is closed. *)
Definition loop_tail (connection : nat)
    (pilot_id flight_number departure_date departure_city arrival_city : pyval)
  : py unit :=
  print (Retrieving_pilot_schedule_details pilot_id) ;;
  fetch_pilots pilot_id PyNone PyNone ;;
  print (Retrieving_flight_schedule_details flight_number) ;;
  fetch_flights flight_number departure_city arrival_city departure_date PyNone ;;
  close_connection connection.

(** [while needs_to_confirm:]. Each turn reads one line, so the turns are
    counted by [turns]; [assign_pilot] starts the loop with more turns than
    there are lines left to read, and the count never runs out before
    [input] does. *)
Fixpoint confirmation_loop (turns : nat) (connection : nat)
    (pilot_id flight_number departure_date departure_city arrival_city : pyval)
  : py unit :=
  match turns with
  | O => raise EOFError
  | S turns' =>
      line <- input (Shall_I_assign pilot_id flight_number) ;;
      let confirmation_decision := lower line in
      if (confirmation_decision =? "no")%string then
        print No_changes_made
      else if (confirmation_decision =? "yes")%string then
        connection <- open_connection ;;
        found <- execute_select connection
                   (flight_id_lookup flight_number departure_city arrival_city) ;;
        match found with
        | [] => print Flight_details_do_not_exist
        | flight_id :: _ =>
            execute_begin connection ;;
            execute_update connection
              (pilot_assignment pilot_id flight_id departure_date) ;;
            commit connection ;;
            print (Assigned_successfully pilot_id) ;;
            loop_tail connection pilot_id flight_number departure_date
                      departure_city arrival_city
        end
      else
        loop_tail connection pilot_id flight_number departure_date
                  departure_city arrival_city ;;
        confirmation_loop turns' connection pilot_id flight_number
                          departure_date departure_city arrival_city
  end.

Definition assign_pilot
    (pilot_id flight_number departure_date departure_city arrival_city : pyval)
  : py unit :=
  connection <- open_connection ;;
  if is_None pilot_id then
    print No_pilot_ID_entered ;;
    close_connection connection
  else
    print (Fetching_schedule_information pilot_id) ;;
    fetch_pilots pilot_id PyNone PyNone ;;
    if negb (forallb truthy
               [flight_number; departure_date; departure_city; arrival_city])
    then print Please_provide_flight_details
    else
      print (Retrieving_database_information flight_number departure_date
               departure_city arrival_city) ;;
      fetch_flights flight_number departure_city arrival_city departure_date
                    PyNone ;;
      fun w =>
        confirmation_loop (S (List.length (stdin w))) connection pilot_id
          flight_number departure_date departure_city arrival_city w.

(** [destination_code.upper()]: [str] and [bytes] have the method, an [int]
    has not. *)
Definition call_upper (v : pyval) : py pyval :=
  match v with
  | PyStr s => ret (PyStr (upper s))
  | PyBytes b => ret (PyBytes (upper b))
  | PyInt _ | PyNone => raise AttributeError
  end.

Definition has_destination_code (destination_code : pyval) (d : destination)
  : bool :=
  text_column_eq (of_text (dd_destination_code d)) (bind destination_code).

(** [SET airport_name = ?] *)
Definition set_airport_name (v : pyval) (d : destination) : option destination :=
  option_map (fun t => Destination (dd_destination_code d) t (dd_city d)
                                   (dd_country d))
             (strict_text_not_null (bind v)).

(** [SET city = ?] *)
Definition set_city (v : pyval) (d : destination) : option destination :=
  option_map (fun t => Destination (dd_destination_code d) (dd_airport_name d) t
                                   (dd_country d))
             (strict_text_not_null (bind v)).

(** [SET country = ?] *)
Definition set_country (v : pyval) (d : destination) : option destination :=
  option_map (fun t => Destination (dd_destination_code d) (dd_airport_name d)
                                   (dd_city d) t)
             (strict_text_not_null (bind v)).

Definition modify_destination (destination_code airport_name city country : pyval)
  : py unit :=
  if is_None destination_code then print No_destination_code_entered
  else
    connection <- open_connection ;;
    destination_code <- call_upper destination_code ;;
    print (Retrieving_destination_information destination_code) ;;
    fetch_destinations destination_code PyNone PyNone PyNone ;;
    print (Updating_destination_information destination_code) ;;
    try_except
      (execute_begin connection ;;
       when (truthy airport_name)
            (execute_update connection
               (update_d_destination (has_destination_code destination_code)
                  (set_airport_name airport_name))) ;;
       when (truthy city)
            (execute_update connection
               (update_d_destination (has_destination_code destination_code)
                  (set_city city))) ;;
       when (truthy country)
            (execute_update connection
               (update_d_destination (has_destination_code destination_code)
                  (set_country country))) ;;
       commit connection ;;
       print (You_have_updated destination_code) ;;
       fetch_destinations destination_code PyNone PyNone PyNone)
      ValueError (print Please_check_your_inputs) ;;
    close_connection connection.

(** *** The statement text of [fetch_flights]

    The rows come from the meaning of the statement, given above as
    [flight_query]; the text itself is composed here as the function
    composes it, the ORDER BY clause appended without a space before it. *)

Definition flight_query_select : string :=
"
        SELECT df.flight_number, dd1.airport_name, dd2.airport_name,
        df.scheduled_departure_time, df.scheduled_arrival_time, 
        fs.departure_date, dp.pilot_ID, fs.status
        FROM d_flight df
        LEFT JOIN f_schedule fs on df.flight_ID = fs.flight_ID
        LEFT JOIN d_destination dd1 on df.departure_destination_code 
        = dd1.destination_code
        LEFT JOIN d_destination dd2 on df.arrival_destination_code 
        = dd2.destination_code
        LEFT JOIN d_pilot dp on fs.pilot_ID = dp.pilot_ID
        ".

Definition criterion_sql (c : flight_column) : string :=
  match c with
  | Df_flight_number => "df.flight_number = ?"
  | Dd1_city => "dd1.city = ?"
  | Dd2_city => "dd2.city = ?"
  | Fs_departure_date => "fs.departure_date = ?"
  | Fs_status => "fs.status = ?"
  end.

Definition flight_query_text (where_criteria : list flight_column) : string :=
  (flight_query_select
   ++ (if nonempty where_criteria
       then " WHERE " ++ String.concat " AND " (map criterion_sql where_criteria)
       else "")
   ++ "ORDER BY fs.departure_date DESC")%string.

End database_queries.
Import database_queries.

(** ** How SQLite splits a statement into tokens

    Only what the statements of this program contain: words, [?]
    parameters, commas, dots and equal signs. A [?] is a token by itself,
    followed at most by digits, so a word written right after it starts a
    new token. *)

Module Tokenizer.

Inductive token : Type :=
| Tk_word (w : string)
| Tk_parameter
| Tk_comma
| Tk_dot
| Tk_eq
| Tk_illegal.

Inductive scan : Type :=
| Between
| In_word (w : string)
| In_parameter.

Definition is_digit (c : ascii) : bool :=
  let n := nat_of_ascii c in (48 <=? n)%nat && (n <=? 57)%nat.

Definition is_word_char (c : ascii) : bool :=
  let n := nat_of_ascii c in
  is_digit c
  || ((65 <=? n)%nat && (n <=? 90)%nat)
  || ((97 <=? n)%nat && (n <=? 122)%nat)
  || (n =? 95)%nat.

Definition is_space (c : ascii) : bool :=
  let n := nat_of_ascii c in
  (n =? 32)%nat || ((9 <=? n)%nat && (n <=? 13)%nat).

Definition flush (st : scan) : list token :=
  match st with In_word w => [Tk_word w] | _ => [] end.

Definition extend (st : scan) (c : ascii) : scan :=
  match st with
  | In_word w => In_word (w ++ String c EmptyString)%string
  | _ => In_word (String c EmptyString)
  end.

Definition in_parameter (st : scan) : bool :=
  match st with In_parameter => true | _ => false end.

Fixpoint scan_tokens (st : scan) (s : string) : list token :=
  match s with
  | EmptyString => flush st
  | String c rest =>
      if in_parameter st && is_digit c then scan_tokens In_parameter rest
      else if is_word_char c then scan_tokens (extend st c) rest
      else if is_space c then flush st ++ scan_tokens Between rest
      else if (c =? "?")%char then
        flush st ++ Tk_parameter :: scan_tokens In_parameter rest
      else if (c =? ",")%char then flush st ++ Tk_comma :: scan_tokens Between rest
      else if (c =? ".")%char then flush st ++ Tk_dot :: scan_tokens Between rest
      else if (c =? "=")%char then flush st ++ Tk_eq :: scan_tokens Between rest
      else flush st ++ Tk_illegal :: scan_tokens Between rest
  end.

Definition tokens (s : string) : list token := scan_tokens Between s.

(** The tokens of [alias.column = ?]. *)
Definition criterion_tokens (c : flight_column) : list token :=
  match c with
  | Df_flight_number =>
      [Tk_word "df"; Tk_dot; Tk_word "flight_number"; Tk_eq; Tk_parameter]
  | Dd1_city => [Tk_word "dd1"; Tk_dot; Tk_word "city"; Tk_eq; Tk_parameter]
  | Dd2_city => [Tk_word "dd2"; Tk_dot; Tk_word "city"; Tk_eq; Tk_parameter]
  | Fs_departure_date =>
      [Tk_word "fs"; Tk_dot; Tk_word "departure_date"; Tk_eq; Tk_parameter]
  | Fs_status => [Tk_word "fs"; Tk_dot; Tk_word "status"; Tk_eq; Tk_parameter]
  end.

(** The tokens of [WHERE c1 AND c2 AND ...]; none without a criterion. *)
Fixpoint clause_tokens (keyword : string) (cs : list flight_column) : list token :=
  match cs with
  | [] => []
  | c :: rest => Tk_word keyword :: criterion_tokens c ++ clause_tokens "AND" rest
  end.

Definition order_by_tokens : list token :=
  [Tk_word "ORDER"; Tk_word "BY"; Tk_word "fs"; Tk_dot;
   Tk_word "departure_date"; Tk_word "DESC"].

End Tokenizer.

(** ** Vocabulary of the specification *)

(** A falsy argument replaced by [None]. *)
Definition absent_if_falsy (v : pyval) : pyval :=
  if truthy v then v else PyNone.

(** A value was passed for the parameter. *)
Definition passed (v : pyval) : bool := negb (is_None v).

(** One optional equality filter on a column: a row passes when the filter
    does not count as supplied, or when the column equals the value. *)
Definition filter_passes (supplied : pyval -> bool) (v : pyval)
    (column : sqlval) : bool :=
  implb (supplied v) (text_column_eq column (bind v)).

(** The conjunction of the filters of [fetch_flights]. *)
Definition flight_filters (supplied : pyval -> bool)
    (flight_number departure_city arrival_city departure_date flight_status : pyval)
    (r : flight_row) : bool :=
  filter_passes supplied flight_number (flight_column_value r Df_flight_number)
  && filter_passes supplied departure_city (flight_column_value r Dd1_city)
  && filter_passes supplied arrival_city (flight_column_value r Dd2_city)
  && filter_passes supplied departure_date (flight_column_value r Fs_departure_date)
  && filter_passes supplied flight_status (flight_column_value r Fs_status).

(** The conjunction of the filters of [fetch_pilots]. *)
Definition pilot_filters (supplied : pyval -> bool)
    (pilot_id first_name last_name : pyval) (r : pilot_row) : bool :=
  filter_passes supplied pilot_id (pilot_column_value r Dp_pilot_ID)
  && filter_passes supplied first_name (pilot_column_value r Dp_first_name)
  && filter_passes supplied last_name (pilot_column_value r Dp_last_name).

(** The conjunction of the filters of [fetch_destinations]. *)
Definition destination_filters (supplied : pyval -> bool)
    (destination_code airport_name city country : pyval) (r : destination) : bool :=
  filter_passes supplied destination_code (destination_column_value r Destination_code)
  && filter_passes supplied airport_name (destination_column_value r Airport_name)
  && filter_passes supplied city (destination_column_value r City)
  && filter_passes supplied country (destination_column_value r Country).

(** What a fetch function shows for the rows it fetched. *)
Definition show_flights (rows : list tuple) : list output :=
  [if nonempty rows then Tabulate flight_headers rows else Print No_data_returned].

Definition show_pilots (rows : list tuple) : list output :=
  [if nonempty rows then Tabulate pilot_headers rows
   else Print No_data_returned_check_search].

Definition show_destinations (rows : list tuple) : list output :=
  [Print Retrieve_information_about_destinations;
   Tabulate destination_headers rows].

(** The world after a fetch function ran in [w] and wrote [outs]: the file
    as it was, one connection more, closed after its one statement. *)
Definition after_fetch (w : world) (outs : list output) : world :=
  World (disk w) (conns w ++ [Connection false None 1]) (stdout w ++ outs)
        (stdin w).

(** The departure date column of a row of [fetch_flights]. *)
Definition departure_date_of (t : tuple) : sqlval := nth 5 t SqlNull.

(** Descending order of two rows of [fetch_flights]: the earlier row's date
    is not below the later row's. *)
Definition not_before (earlier later : tuple) : Prop :=
  sql_le (departure_date_of later) (departure_date_of earlier) = true.

(** The same on joined rows: [r] may stand before [r']. *)
Definition desc (r r' : flight_row) : Prop :=
  sql_le (departure_key r') (departure_key r) = true.

(** The database freshly seeded with the sample data. *)
Definition seeded : database :=
  disk (final (airline_database.main (start empty_database []))).

(** The conditions of the specification's error taxonomy and the messages
    that report them. *)
Inductive condition : Type :=
| MissingArgument
| IncompleteCriteria
| NotFound.

Definition reported (m : message) : option condition :=
  match m with
  | No_schedule_ID_entered
  | No_pilot_ID_entered
  | No_destination_code_entered => Some MissingArgument
  | Please_provide_flight_details => Some IncompleteCriteria
  | Schedule_ID_does_not_exist _
  | Flight_details_do_not_exist => Some NotFound
  | _ => None
  end.

(** What was written between two worlds of one run. *)
Definition written_since (before after : world) : list output :=
  skipn (List.length (stdout before)) (stdout after).

Definition reports (c : condition) (before after : world) : Prop :=
  exists m, In (Print m) (written_since before after) /\ reported m = Some c.

(** How often the operator was asked to confirm. *)
Definition is_prompt (o : output) : bool :=
  match o with Print (Shall_I_assign _ _) => true | _ => false end.

Definition prompts (before after : world) : nat :=
  List.length (filter is_prompt (written_since before after)).

(** Whether the engine takes a value for a TEXT column, nullable or not. *)
Definition accepted (v : pyval) : bool :=
  match strict_text (bind v) with Some _ => true | None => false end.

Definition accepted_not_null (v : pyval) : bool :=
  match strict_text_not_null (bind v) with Some _ => true | None => false end.

(** A nullable TEXT column after [SET column = ?] with an accepted truthy
    value, and as it was otherwise. *)
Definition column_after (v : pyval) (old : option string) : option string :=
  if truthy v then
    match strict_text (bind v) with Some t => t | None => old end
  else old.

Definition column_after_not_null (v : pyval) (old : string) : string :=
  if truthy v then
    match strict_text_not_null (bind v) with Some t => t | None => old end
  else old.

(** A schedule row after each optional update of [modify_schedule]. *)
Definition departure_time_after (v : pyval) (s : schedule) : schedule :=
  Schedule (fs_schedule_ID s) (fs_departure_date s)
           (column_after v (fs_actual_departure_time s))
           (fs_actual_arrival_time s) (fs_flight_ID s) (fs_pilot_ID s)
           (fs_status s).

Definition arrival_time_after (v : pyval) (s : schedule) : schedule :=
  Schedule (fs_schedule_ID s) (fs_departure_date s)
           (fs_actual_departure_time s)
           (column_after v (fs_actual_arrival_time s)) (fs_flight_ID s)
           (fs_pilot_ID s) (fs_status s).

Definition status_after (v : pyval) (s : schedule) : schedule :=
  Schedule (fs_schedule_ID s) (fs_departure_date s)
           (fs_actual_departure_time s) (fs_actual_arrival_time s)
           (fs_flight_ID s) (fs_pilot_ID s)
           (column_after_not_null v (fs_status s)).

(** A schedule row after the three of them: every field given a truthy
    value holds that value, every other field is as it was. *)
Definition schedule_after (new_departure_time new_arrival_time new_status : pyval)
    (s : schedule) : schedule :=
  Schedule (fs_schedule_ID s) (fs_departure_date s)
           (column_after new_departure_time (fs_actual_departure_time s))
           (column_after new_arrival_time (fs_actual_arrival_time s))
           (fs_flight_ID s) (fs_pilot_ID s)
           (column_after_not_null new_status (fs_status s)).

(** The engine takes every statement of the batch of [modify_schedule]: a
    statement is part of the batch when its field has a truthy value. *)
Definition batch_accepted (new_departure_time new_arrival_time new_status : pyval)
  : bool :=
  (negb (truthy new_departure_time) || accepted new_departure_time)
  && (negb (truthy new_arrival_time) || accepted new_arrival_time)
  && (negb (truthy new_status) || accepted_not_null new_status).

(** The database with the rows of [f_schedule] selected by [m] rewritten
    by [f]. *)
Definition rewrite_schedules (m : schedule -> bool) (f : schedule -> schedule)
    (db : database) : database :=
  Database (d_destination db) (d_pilot db) (d_flight db)
           (map (fun s => if m s then f s else s) (f_schedule db)).

(** What [if v: cursor.execute(update, ...)] makes of the pending image:
    [None] when the statement is refused. *)
Definition optional_update (v : pyval) (u : database -> option database)
    (db : database) : option database :=
  if truthy v then u db else Some db.

(** A schedule row with another pilot reference. *)
Definition with_pilot (p : option string) (s : schedule) : schedule :=
  Schedule (fs_schedule_ID s) (fs_departure_date s) (fs_actual_departure_time s)
           (fs_actual_arrival_time s) (fs_flight_ID s) p (fs_status s).

(** The pilot reference [SET pilot_id = ?] stores for an accepted value. *)
Definition pilot_reference (pilot_id : pyval) : option string :=
  match strict_text (bind pilot_id) with Some p => p | None => None end.

(** The world in which [assign_pilot] enters its confirmation loop: its own
    connection and the two of the fetches, both schedules shown. *)
Definition loop_entry
    (pilot_id flight_number departure_date departure_city arrival_city : pyval)
    (w : world) : world :=
  World (disk w)
        (conns w ++ [Connection true None 0; Connection false None 1;
                     Connection false None 1])
        (stdout w
         ++ Print (Fetching_schedule_information pilot_id)
         :: show_pilots (pilot_query (pilot_criteria pilot_id PyNone PyNone)
                                     (disk w))
         ++ Print (Retrieving_database_information flight_number departure_date
                     departure_city arrival_city)
         :: show_flights (flight_query
                            (flight_criteria flight_number departure_city
                               arrival_city departure_date PyNone)
                            (disk w)))
        (stdin w).

(** A computation that neither changes the committed database nor reads
    from the operator, however it ends. *)
Definition reads_only {A : Type} (m : py A) : Prop :=
  forall w, disk (final (m w)) = disk w /\ stdin (final (m w)) = stdin w.

(** The operator's answer is the affirmative token. *)
Definition affirmative (line : string) : bool := (lower line =? "yes")%string.

(** Some integers as the driver binds them. *)
Definition int64_0 : int64 := Int64 0 eq_refl.
Definition int64_2 : int64 := Int64 2 eq_refl.
Definition int64_999 : int64 := Int64 999 eq_refl.

(** ** Vocabulary of the further properties *)

(** The columns of a schedule row that [modify_schedule] has no statement
    for. *)
Definition schedule_identity (s : schedule)
  : Z * string * Z * option string :=
  (fs_schedule_ID s, fs_departure_date s, fs_flight_ID s, fs_pilot_ID s).

(** [new] is [old] with at most the three time and status columns of the
    rows of schedule id [id] changed. *)
Definition only_schedule_changed (id : option int64) (old new : database) : Prop :=
  d_destination new = d_destination old
  /\ d_pilot new = d_pilot old
  /\ d_flight new = d_flight old
  /\ Forall2 (fun s s' =>
                schedule_identity s' = schedule_identity s
                /\ (match id with
                    | Some i => has_schedule_ID i s = false
                    | None => True
                    end -> s' = s))
             (f_schedule old) (f_schedule new).

(** What [destination_code.upper()] evaluates to, when the value has the
    method. *)
Definition upper_code (v : pyval) : option pyval :=
  match v with
  | PyStr s => Some (PyStr (upper s))
  | PyBytes b => Some (PyBytes (upper b))
  | PyInt _ | PyNone => None
  end.

(** The database with the rows of [d_destination] selected by [m]
    rewritten by [f]. *)
Definition rewrite_destinations (m : destination -> bool)
    (f : destination -> destination) (db : database) : database :=
  Database (map (fun d => if m d then f d else d) (d_destination db))
           (d_pilot db) (d_flight db) (f_schedule db).

(** A destination row after each optional update of [modify_destination],
    and after the three of them. *)
Definition airport_name_after (v : pyval) (d : destination) : destination :=
  Destination (dd_destination_code d)
              (column_after_not_null v (dd_airport_name d)) (dd_city d)
              (dd_country d).

Definition city_after (v : pyval) (d : destination) : destination :=
  Destination (dd_destination_code d) (dd_airport_name d)
              (column_after_not_null v (dd_city d)) (dd_country d).

Definition country_after (v : pyval) (d : destination) : destination :=
  Destination (dd_destination_code d) (dd_airport_name d) (dd_city d)
              (column_after_not_null v (dd_country d)).

Definition destination_after (airport_name city country : pyval)
    (d : destination) : destination :=
  Destination (dd_destination_code d)
              (column_after_not_null airport_name (dd_airport_name d))
              (column_after_not_null city (dd_city d))
              (column_after_not_null country (dd_country d)).

(** The engine takes every statement of the batch of [modify_destination]:
    each field is falsy (no statement), or has a value the column accepts,
    or no row has the code (nothing is written, nothing is checked). *)
Definition destination_batch_accepted (code airport_name city country : pyval)
    (db : database) : bool :=
  negb (existsb (has_destination_code code) (d_destination db))
  || ((negb (truthy airport_name) || accepted_not_null airport_name)
      && (negb (truthy city) || accepted_not_null city)
      && (negb (truthy country) || accepted_not_null country)).

(** [new] is [old] with at most the name, city and country of destination
    rows changed. *)
Definition only_destination_details_changed (old new : database) : Prop :=
  map dd_destination_code (d_destination new)
  = map dd_destination_code (d_destination old)
  /\ d_pilot new = d_pilot old
  /\ d_flight new = d_flight old
  /\ f_schedule new = f_schedule old.

(** The operator's answer is neither of the two tokens. *)
Definition unrecognised (line : string) : bool :=
  negb (lower line =? "no")%string && negb (lower line =? "yes")%string.

(** What the closing statements of the loop body of [assign_pilot] show. *)
Definition loop_tail_output
    (pilot_id flight_number departure_date departure_city arrival_city : pyval)
    (db : database) : list output :=
  Print (Retrieving_pilot_schedule_details pilot_id)
  :: show_pilots (pilot_query (pilot_criteria pilot_id PyNone PyNone) db)
  ++ Print (Retrieving_flight_schedule_details flight_number)
  :: show_flights (flight_query
                     (flight_criteria flight_number departure_city arrival_city
                        departure_date PyNone) db).

(** The body of the [elif confirmation_decision == "yes":] branch of
    [assign_pilot], with the closing statements of the loop body that
    follow it. *)
Definition confirmed
    (pilot_id flight_number departure_date departure_city arrival_city : pyval)
  : py unit :=
  connection <- open_connection ;;
  found <- execute_select connection
             (flight_id_lookup flight_number departure_city arrival_city) ;;
  match found with
  | [] => print Flight_details_do_not_exist
  | flight_id :: _ =>
      execute_begin connection ;;
      execute_update connection
        (pilot_assignment pilot_id flight_id departure_date) ;;
      commit connection ;;
      print (Assigned_successfully pilot_id) ;;
      loop_tail connection pilot_id flight_number departure_date
                departure_city arrival_city
  end.

(** The database after a run of [assign_pilot] on [old]: the same, or
    the pilot written to the rows of the first flight found, on the date. *)
Definition assigned_or_unchanged
    (pilot_id flight_number departure_date departure_city arrival_city : pyval)
    (old new : database) : Prop :=
  new = old
  \/ exists flight_id others,
       flight_id_lookup flight_number departure_city arrival_city old
       = flight_id :: others
       /\ new = rewrite_schedules
                  (on_flight_and_date flight_id departure_date)
                  (with_pilot (pilot_reference pilot_id)) old.

(** What [executemany] makes of a list of rows on an autocommit
    connection: the database with the rows before the first refused one
    inserted, and whether none was refused. *)
Fixpoint insert_until_refused {R : Type} (ins : R -> database -> option database)
    (rows : list R) (db : database) : database * bool :=
  match rows with
  | [] => (db, true)
  | r :: rest =>
      match ins r db with
      | Some db' => insert_until_refused ins rest db'
      | None => (db, false)
      end
  end.

(** The longest prefix of a list whose elements all satisfy [f]. *)
Fixpoint take_while {A : Type} (f : A -> bool) (l : list A) : list A :=
  match l with
  | [] => []
  | x :: r => if f x then x :: take_while f r else []
  end.

(** A sample row whose primary key is not yet in the database. *)
Definition new_pilot (db : database) (p : pilot) : bool :=
  negb (existsb (fun q => (dp_pilot_ID q =? dp_pilot_ID p)%string) (d_pilot db)).

Definition new_destination (db : database) (d : destination) : bool :=
  negb (existsb (fun q => (dd_destination_code q =? dd_destination_code d)%string)
                (d_destination db)).

Definition new_flight (db : database) (f : flight) : bool :=
  negb (existsb (fun q => df_flight_ID q =? df_flight_ID f) (d_flight db)).

Definition new_schedule (db : database) (s : schedule) : bool :=
  negb (existsb (fun q => fs_schedule_ID q =? fs_schedule_ID s) (f_schedule db)).

(** Rows placed one after the other in a table kept in key order. *)
Definition placed {R : Type} (key : R -> Z) (rows t : list R) : list R :=
  fold_left (fun t r => airline_database.place key r t) rows t.

(** The database [load_sample_data] leaves: each table with the sample
    rows that come before the first one whose key the table already
    holds, at the end of [d_destination] and [d_pilot] and in their place
    by the key in [d_flight] and [f_schedule]. *)
Definition loaded (db : database) : database :=
  Database
    (d_destination db
     ++ take_while (new_destination db) airline_database.destinations)
    (d_pilot db ++ take_while (new_pilot db) airline_database.pilots)
    (placed df_flight_ID (take_while (new_flight db) airline_database.flights)
            (d_flight db))
    (placed fs_schedule_ID
            (take_while (new_schedule db) airline_database.schedule_rows)
            (f_schedule db)).

(** A table in the order of its integer key, no key twice. *)
Definition in_key_order {R : Type} (key : R -> Z) (t : list R) : Prop :=
  StronglySorted (fun a b => key a < key b) t.

(** The messages [load_sample_data] prints: one for each table with a
    sample key already present. *)
Definition load_report (db : database) : list output :=
  (if forallb (new_pilot db) airline_database.pilots then []
   else [Print (Already_entered "d_pilot")])
  ++ (if forallb (new_destination db) airline_database.destinations then []
      else [Print (Already_entered "d_destination")])
  ++ (if forallb (new_flight db) airline_database.flights then []
      else [Print Data_entry_failed])
  ++ (if forallb (new_schedule db) airline_database.schedule_rows then []
      else [Print (Already_entered "f_schedule")]).

(** ** The summaries of [database_queries.py]

    [unassigned_flights], [flights_per_pilot] and [flights_per_destination]
    fetch, close their connection and then print. Their lines are of a
    kind of their own: a call yields the lines it prints as its value, in
    the order printed. *)

Inductive summary_line : Type :=
| No_flights_lacking_pilot
| One_flight_lacking_pilot (result : Z)
| Flights_lacking_pilot (result : Z)
| Summarising_pilots
| Pilot_assigned_to (pilot_id first_name last_name : sqlval) (count : Z)
| Summarising_destinations
| Destination_served_by (destination_airport_name city country : sqlval)
                        (count : Z).

(** [cursor.execute(select)] followed by [fetchone()[0]], for a SELECT of
    one aggregate without GROUP BY: such a query yields exactly one row. *)
Definition execute_scalar {A : Type} (h : nat) (q : database -> A) : py A :=
  on_open h (fun c w =>
    Returned (q (view c w))
             (set_conn h (Connection true (conn_txn c) (S (conn_executed c))) w)).

(** [pilot_id IS null] *)
Definition without_pilot (s : schedule) : bool :=
  match fs_pilot_ID s with None => true | Some _ => false end.

(** [SELECT COUNT(schedule_id) FROM f_schedule WHERE pilot_id IS null];
    [schedule_id] is the primary key and never NULL, so every row kept by
    the WHERE clause is counted. *)
Definition unassigned (db : database) : Z :=
  Z.of_nat (List.length (filter without_pilot (f_schedule db))).

Definition unassigned_flights : py (list summary_line) :=
  connection <- open_connection ;;
  result <- execute_scalar connection unassigned ;;
  close_connection connection ;;
  ret [if result =? 0 then No_flights_lacking_pilot
       else if result =? 1 then One_flight_lacking_pilot result
       else Flights_lacking_pilot result].

(** GROUP BY with COUNT of a column that is never NULL: the rows are taken
    in turn; a row whose key has a group adds one to its count, another row
    opens a group. A group keeps the other columns of the row that opened
    it, where SQLite promises those of some row of the group. SQL leaves
    the order of the groups to the engine; here they stand in the order of
    their first rows. *)
Section Groups.
Context {K P : Type}.
Variable eqb : K -> K -> bool.

Fixpoint bump (k : K) (p : P) (gs : list (K * P * Z)) : list (K * P * Z) :=
  match gs with
  | [] => [(k, p, 1)]
  | (k', p', n) :: rest =>
      if eqb k k' then (k', p', n + 1) :: rest
      else (k', p', n) :: bump k p rest
  end.

Definition group_count (rows : list (K * P)) : list (K * P * Z) :=
  fold_left (fun gs r => bump (fst r) (snd r) gs) rows [].
End Groups.

(** Two nullable texts as GROUP BY compares them: NULLs fall in one
    group. *)
Definition opt_text_eqb (a b : option string) : bool :=
  match a, b with
  | Some x, Some y => (x =? y)%string
  | None, None => true
  | _, _ => false
  end.

(** [f_schedule fs LEFT JOIN d_pilot dp ON fs.pilot_id = dp.pilot_id
     WHERE fs.pilot_id IS NOT NULL] *)
Definition assigned_rows (db : database) : list (schedule * option pilot) :=
  filter (fun r => negb (without_pilot (fst r)))
         (left_join (fun fs dp => pilot_of (Some fs) dp)
                    (f_schedule db) (d_pilot db)).

(** [GROUP BY fs.pilot_id, dp.first_name, dp.last_name] *)
Definition pilot_group : Type :=
  (option string * option string * option string)%type.

Definition pilot_group_of (r : schedule * option pilot) : pilot_group :=
  (fs_pilot_ID (fst r), option_map dp_first_name (snd r),
   option_map dp_last_name (snd r)).

Definition pilot_group_eqb (a b : pilot_group) : bool :=
  opt_text_eqb (fst (fst a)) (fst (fst b))
  && opt_text_eqb (snd (fst a)) (snd (fst b))
  && opt_text_eqb (snd a) (snd b).

Definition pilot_groups (db : database) : list (pilot_group * unit * Z) :=
  group_count pilot_group_eqb
              (map (fun r => (pilot_group_of r, tt)) (assigned_rows db)).

(** [SELECT fs.pilot_id, dp.first_name, dp.last_name, COUNT(fs.schedule_id)] *)
Definition flights_per_pilot_query (db : database)
  : list (sqlval * sqlval * sqlval * Z) :=
  map (fun g => (of_opt_text (fst (fst (fst (fst g)))),
                 of_opt_text (snd (fst (fst (fst g)))),
                 of_opt_text (snd (fst (fst g))),
                 snd g))
      (pilot_groups db).

Definition flights_per_pilot : py (list summary_line) :=
  connection <- open_connection ;;
  result <- execute_select connection flights_per_pilot_query ;;
  close_connection connection ;;
  ret (Summarising_pilots
       :: map (fun row => Pilot_assigned_to (fst (fst (fst row)))
                                            (snd (fst (fst row)))
                                            (snd (fst row)) (snd row))
              result).

(** [f_schedule fs LEFT JOIN d_flight df ... LEFT JOIN d_destination dd1
     ... LEFT JOIN d_destination dd2 ...] *)
Definition destination_row : Type :=
  (schedule * option flight * option destination * option destination)%type.

Definition drow_fs (r : destination_row) : schedule := fst (fst (fst r)).
Definition drow_dd2 (r : destination_row) : option destination := snd r.

Definition destination_join (db : database) : list destination_row :=
  left_join (fun r dd2 =>
               match snd (fst r) with
               | Some df => (df_arrival_destination_code df
                             =? dd_destination_code dd2)%string
               | None => false
               end)
    (left_join (fun r dd1 =>
                  match snd r with
                  | Some df => (df_departure_destination_code df
                                =? dd_destination_code dd1)%string
                  | None => false
                  end)
       (left_join (fun fs df => fs_flight_ID fs =? df_flight_ID df)
                  (f_schedule db) (d_flight db))
       (d_destination db))
    (d_destination db).

(** [WHERE fs.status = "scheduled"]: no column has this name, and SQLite
    reads the double-quoted word as a string. *)
Definition is_scheduled (s : schedule) : bool :=
  (fs_status s =? "scheduled")%string.

Definition scheduled_rows (db : database) : list destination_row :=
  filter (fun r => is_scheduled (drow_fs r)) (destination_join db).

(** [ORDER BY key DESC], by insertion. *)
Section SortDesc.
Context {A : Type}.
Variable key : A -> sqlval.

Fixpoint insert_by (x : A) (l : list A) : list A :=
  match l with
  | [] => [x]
  | h :: t => if sql_le (key h) (key x) then x :: h :: t else h :: insert_by x t
  end.

Definition sort_desc (l : list A) : list A := fold_right insert_by [] l.
End SortDesc.

(** The columns of [dd2] the query selects: the airport name, by which
    it groups, and city and country. *)
Definition arrival_details (dd2 : option destination)
  : option string * (option string * option string) :=
  (option_map dd_airport_name dd2,
   (option_map dd_city dd2, option_map dd_country dd2)).

(** [GROUP BY dd2.airport_name ORDER BY dd2.airport_name DESC] *)
Definition destination_groups (db : database)
  : list (option string * (option string * option string) * Z) :=
  sort_desc (fun g => of_opt_text (fst (fst g)))
    (group_count opt_text_eqb
       (map (fun r => arrival_details (drow_dd2 r)) (scheduled_rows db))).

(** [SELECT dd2.airport_name, dd2.city, dd2.country, COUNT(fs.schedule_id)] *)
Definition flights_per_destination_query (db : database)
  : list (sqlval * sqlval * sqlval * Z) :=
  map (fun g => (of_opt_text (fst (fst g)), of_opt_text (fst (snd (fst g))),
                 of_opt_text (snd (snd (fst g))), snd g))
      (destination_groups db).

Definition flights_per_destination : py (list summary_line) :=
  connection <- open_connection ;;
  result <- execute_select connection flights_per_destination_query ;;
  close_connection connection ;;
  ret (Summarising_destinations
       :: map (fun row => Destination_served_by (fst (fst (fst row)))
                                                (snd (fst (fst row)))
                                                (snd (fst row)) (snd row))
              result).

(** *** Vocabulary for the summaries *)

Definition group_key {K P : Type} (g : K * P * Z) : K := fst (fst g).

Section Grouped.
Context {K P : Type}.
Variable eqb : K -> K -> bool.

(** The number of rows of a key. *)
Definition rows_of (k : K) (rows : list (K * P)) : Z :=
  Z.of_nat (List.length (filter (fun r => eqb (fst r) k) rows)).

(** What [group_count] keeps true from row to row: no key has two groups,
    every row has its group, and a group states the number of the rows of
    its key and the other columns of one of them. *)
Definition grouped (rows : list (K * P)) (gs : list (K * P * Z)) : Prop :=
  NoDup (map group_key gs)
  /\ (forall r, In r rows -> In (fst r) (map group_key gs))
  /\ (forall k p n, In (k, p, n) gs -> n = rows_of k rows /\ In (k, p) rows).
End Grouped.

(** The counts of a list of groups, added up. *)
Definition total {K P : Type} (gs : list (K * P * Z)) : Z :=
  fold_right (fun g acc => snd g + acc) 0 gs.


(** The number a line states. *)
Definition count_of (l : summary_line) : Z :=
  match l with
  | Pilot_assigned_to _ _ _ n | Destination_served_by _ _ _ n => n
  | One_flight_lacking_pilot n | Flights_lacking_pilot n => n
  | No_flights_lacking_pilot | Summarising_pilots | Summarising_destinations => 0
  end.

(** The numbers of the lines of a summary, added up. *)
Definition counts_printed (ls : list summary_line) : Z :=
  fold_right (fun l acc => count_of l + acc) 0 ls.

(** The airport a line of [flights_per_destination] names. *)
Definition airport_of (l : summary_line) : sqlval :=
  match l with Destination_served_by n _ _ _ => n | _ => SqlNull end.

(** A summary left the database, the operator's input and the connections
    that were open as they were: its own connection, on which it ran one
    statement, is closed. *)
Definition read_and_closed (w w' : world) : Prop :=
  disk w' = disk w
  /\ stdin w' = stdin w
  /\ conns w' = conns w ++ [Connection false None 1].

(** The number of schedule rows that refer to pilot [p]. *)
Definition flights_of (db : database) (p : string) : Z :=
  Z.of_nat (List.length
              (filter (fun s => opt_text_eqb (fs_pilot_ID s) (Some p))
                      (f_schedule db))).

(** The row of [d_pilot] with id [p], when ids are not repeated. *)
Definition pilot_with_id (db : database) (p : string) : option pilot :=
  find (fun dp => (p =? dp_pilot_ID dp)%string) (d_pilot db).

(** The line of [flights_per_pilot] for pilot [p]. *)
Definition pilot_line (db : database) (p : string) : summary_line :=
  Pilot_assigned_to (SqlText p)
    (of_opt_text (option_map dp_first_name (pilot_with_id db p)))
    (of_opt_text (option_map dp_last_name (pilot_with_id db p)))
    (flights_of db p).

(** The destination a schedule row arrives at: the arrival destination of
    its flight, when flight ids and destination codes are not repeated. *)
Definition arrival_of (db : database) (s : schedule) : option destination :=
  match find (fun df => fs_flight_ID s =? df_flight_ID df) (d_flight db) with
  | Some df => find (fun dd => (df_arrival_destination_code df
                                =? dd_destination_code dd)%string)
                    (d_destination db)
  | None => None
  end.

(** The number of schedule rows with status "scheduled" that arrive at an
    airport of this name ([None]: at no known destination). *)
Definition scheduled_arrivals (db : database) (name : option string) : Z :=
  Z.of_nat (List.length
              (filter (fun s => is_scheduled s
                                && opt_text_eqb
                                     (option_map dd_airport_name (arrival_of db s))
                                     name)
                      (f_schedule db))).

(** The number of schedule rows with status "scheduled". *)
Definition scheduled (db : database) : Z :=
  Z.of_nat (List.length (filter is_scheduled (f_schedule db))).

(** A line of [flights_per_destination] is descending from [a] to [b]:
    the name of [b] sorts below that of [a]. *)
Definition name_desc (a b : summary_line) : Prop :=
  sql_le (airport_of b) (airport_of a) = true /\ airport_of a <> airport_of b.

(** The group of [flights_per_pilot] for pilot [p]. *)
Definition pilot_group_with_id (db : database) (p : string) : pilot_group :=
  (Some p, option_map dp_first_name (pilot_with_id db p),
   option_map dp_last_name (pilot_with_id db p)).

(** The pilot a group of [flights_per_pilot] is about. *)
Definition group_pilot (g : pilot_group * unit * Z) : string :=
  match fst (fst (group_key g)) with Some p => p | None => "" end.

(** The line of [flights_per_destination] for a group. *)
Definition destination_line
    (g : option string * (option string * option string) * Z) : summary_line :=
  Destination_served_by (of_opt_text (fst (fst g)))
                        (of_opt_text (fst (snd (fst g))))
                        (of_opt_text (snd (snd (fst g)))) (snd g).

(** ** Where a write goes through

    No connection of the world holds a transaction. Locks between
    connections are not represented: a statement that writes is given as
    it runs in such a world, and what is said of a write that succeeds is
    said of such a world. *)
Definition unlocked (w : world) : bool :=
  forallb (fun c => negb (conn_open c)
                    || match conn_txn c with None => true | Some _ => false end)
          (conns w).

(** A schedule row of flight [flight_id] that departs on the date given.
    The date is given as a [str]; an [int] stands for its decimal text; no
    row departs on [None] or on a [bytes] value. *)
Definition flown_on (flight_id : Z) (departure_date : pyval) (s : schedule)
  : bool :=
  (fs_flight_ID s =? flight_id)
  && match departure_date with
     | PyStr d => (fs_departure_date s =? d)%string
     | PyInt i => (fs_departure_date s =? text_of_Z (int64_val i))%string
     | PyNone | PyBytes _ => false
     end.

(** Text of ASCII characters only. *)
Fixpoint is_ascii (s : string) : bool :=
  match s with
  | EmptyString => true
  | String c r => (nat_of_ascii c <? 128)%nat && is_ascii r
  end.

(** A destination code on which [upper] is the method of Python: a
    [bytes] value, or a [str] of ASCII characters. *)
Definition ascii_code (v : pyval) : bool :=
  match v with PyStr s => is_ascii s | _ => true end.

(** * Properties *)

(** ** The sort order *)

Section SortOrder.

Lemma string_leb_trans (a b c : string) :
  (a <=? b)%string = true -> (b <=? c)%string = true -> (a <=? c)%string = true.
Proof.
  unfold String.leb. revert b c.
  induction a as [|x a IH]; intros [|y b] [|z c]; simpl; try easy.
  unfold Ascii.compare.
  destruct (N.compare_spec (N_of_ascii x) (N_of_ascii y));
    destruct (N.compare_spec (N_of_ascii y) (N_of_ascii z));
    destruct (N.compare_spec (N_of_ascii x) (N_of_ascii z));
    try easy; try lia.
  apply IH.
Qed.

Lemma sql_le_total (a b : sqlval) : sql_le a b = true \/ sql_le b a = true.
Proof.
  destruct a, b; simpl; auto; try apply String.leb_total.
  destruct (Z.leb_spec z z0); [auto | right; apply Z.leb_le; lia].
Qed.

Lemma sql_le_trans (a b c : sqlval) :
  sql_le a b = true -> sql_le b c = true -> sql_le a c = true.
Proof.
  destruct a, b, c; simpl; try easy; try apply string_leb_trans.
  rewrite !Z.leb_le. lia.
Qed.

Lemma insert_desc_perm (r : flight_row) (l : list flight_row) :
  Permutation (r :: l) (insert_desc r l).
Proof.
  induction l as [|h t IH]; simpl; [reflexivity|].
  destruct (sql_le (departure_key h) (departure_key r)); [reflexivity|].
  rewrite perm_swap. now apply perm_skip.
Qed.

Lemma order_by_perm (l : list flight_row) :
  Permutation l (order_by_departure_date_desc l).
Proof.
  induction l as [|r l IH]; simpl; [reflexivity|].
  rewrite <- insert_desc_perm. now apply perm_skip.
Qed.

Lemma insert_desc_sorted (r : flight_row) (l : list flight_row) :
  StronglySorted desc l -> StronglySorted desc (insert_desc r l).
Proof.
  induction 1 as [|h t Ht IH Hh]; simpl.
  - repeat constructor.
  - destruct (sql_le (departure_key h) (departure_key r)) eqn:E.
    + constructor; [now constructor|].
      constructor; [exact E|].
      rewrite Forall_forall in *. intros x Hx.
      unfold desc in *. eapply sql_le_trans; [apply Hh, Hx | exact E].
    + constructor; [exact IH|].
      rewrite Forall_forall in *. intros x Hx.
      apply Permutation_in with (l' := r :: t) in Hx;
        [|symmetry; apply insert_desc_perm].
      destruct Hx as [<-|Hx]; [|now apply Hh].
      unfold desc. destruct (sql_le_total (departure_key h) (departure_key r));
        congruence.
Qed.

Lemma order_by_sorted (l : list flight_row) :
  StronglySorted desc (order_by_departure_date_desc l).
Proof.
  induction l as [|r l IH]; simpl; [constructor | now apply insert_desc_sorted].
Qed.

End SortOrder.

(** ** Composition of the WHERE clause *)

Section Composition.
Context {column row : Type}.
Variable value : row -> column -> sqlval.

Lemma combine_snoc {A B : Type} (l : list A) (l' : list B) (a : A) (b : B) :
  List.length l = List.length l' ->
  combine (l ++ [a]) (l' ++ [b]) = combine l l' ++ [(a, b)].
Proof.
  revert l'. induction l as [|x l IH]; intros [|y l'] H; simpl in *;
    try discriminate; [reflexivity|].
  f_equal. apply IH. now injection H.
Qed.

Lemma add_criterion_length (c : column) (v : pyval) (acc : criteria) :
  List.length (fst acc) = List.length (snd acc) ->
  List.length (fst (add_criterion c v acc))
  = List.length (snd (add_criterion c v acc)).
Proof.
  intros H. unfold add_criterion. destruct (truthy v); simpl; [|exact H].
  rewrite !length_app, H. reflexivity.
Qed.

Lemma where_holds_add_criterion (c : column) (v : pyval) (acc : criteria)
    (r : row) :
  List.length (fst acc) = List.length (snd acc) ->
  where_holds value (add_criterion c v acc) r
  = where_holds value acc r && filter_passes truthy v (value r c).
Proof.
  intros H. unfold where_holds, add_criterion, filter_passes.
  destruct (truthy v); simpl.
  - rewrite combine_snoc by exact H. rewrite forallb_app. simpl.
    now rewrite andb_true_r.
  - now rewrite andb_true_r.
Qed.

End Composition.

Lemma flight_criteria_holds (fn dc ac dd st : pyval) (r : flight_row) :
  where_holds flight_column_value (flight_criteria fn dc ac dd st) r
  = flight_filters truthy fn dc ac dd st r.
Proof.
  unfold flight_criteria, flight_filters.
  rewrite !where_holds_add_criterion;
    repeat apply add_criterion_length; reflexivity.
Qed.

Lemma pilot_criteria_holds (pid fst_name lst_name : pyval) (r : pilot_row) :
  where_holds pilot_column_value (pilot_criteria pid fst_name lst_name) r
  = pilot_filters truthy pid fst_name lst_name r.
Proof.
  unfold pilot_criteria, pilot_filters.
  rewrite !where_holds_add_criterion;
    repeat apply add_criterion_length; reflexivity.
Qed.

Lemma destination_criteria_holds (code name cty ctry : pyval) (r : destination) :
  where_holds destination_column_value (destination_criteria code name cty ctry) r
  = destination_filters truthy code name cty ctry r.
Proof.
  unfold destination_criteria, destination_filters.
  rewrite !where_holds_add_criterion;
    repeat apply add_criterion_length; reflexivity.
Qed.

(** ** Running the driver *)

Lemma nth_error_last {A : Type} (l : list A) (x : A) :
  nth_error (l ++ [x]) (List.length l) = Some x.
Proof.
  rewrite nth_error_app2 by apply Nat.le_refl. now rewrite Nat.sub_diag.
Qed.

Lemma replace_nth_last {A : Type} (l : list A) (x y : A) :
  replace_nth (List.length l) y (l ++ [x]) = l ++ [y].
Proof.
  induction l as [|h t IH]; simpl; [reflexivity | now rewrite IH].
Qed.

Lemma replace_nth_length {A : Type} (n : nat) (x : A) (l : list A) :
  List.length (replace_nth n x l) = List.length l.
Proof.
  revert n. induction l as [|h t IH]; intros [|n]; simpl; auto.
Qed.

(** Symbolic execution of a function whose connection is the last one
    opened. *)
Ltac on_last :=
  unfold execute_select, execute_begin, execute_update, execute_ddl, commit,
    close_connection, cursor_close, connection_close, on_open, set_conn,
    set_conns, set_disk, view, print, emit, seq, ret, when;
  cbn [conns disk stdout stdin conn_open conn_txn conn_executed];
  rewrite ?nth_error_last;
  cbn [conn_open conn_txn conn_executed conns disk stdout stdin];
  rewrite ?replace_nth_last.

Lemma fetch_flights_run (fn dc ac dd st : pyval) (w : world) :
  fetch_flights fn dc ac dd st w
  = Returned tt (after_fetch w
                   (show_flights (flight_query (flight_criteria fn dc ac dd st)
                                               (disk w)))).
Proof.
  destruct w as [d cs o i].
  unfold fetch_flights, open_connection, connect, after_fetch, show_flights.
  repeat on_last.
  destruct (nonempty _); repeat on_last; reflexivity.
Qed.

Lemma fetch_pilots_run (pid fst_name lst_name : pyval) (w : world) :
  fetch_pilots pid fst_name lst_name w
  = Returned tt (after_fetch w
                   (show_pilots (pilot_query (pilot_criteria pid fst_name lst_name)
                                             (disk w)))).
Proof.
  destruct w as [d cs o i].
  unfold fetch_pilots, open_connection, connect, after_fetch, show_pilots.
  repeat on_last.
  destruct (nonempty _); repeat on_last; reflexivity.
Qed.

Lemma fetch_destinations_run (code name cty ctry : pyval) (w : world) :
  fetch_destinations code name cty ctry w
  = Returned tt (after_fetch w
                   (show_destinations
                      (destination_query (destination_criteria code name cty ctry)
                                         (disk w)))).
Proof.
  destruct w as [d cs o i].
  unfold fetch_destinations, open_connection, connect, after_fetch,
    show_destinations.
  repeat on_last. rewrite <- app_assoc. reflexivity.
Qed.

(** ** The base joins *)

Section JoinFacts.
Context {A B : Type}.
Variable on : A -> B -> bool.

Lemma in_inner_join (l : list A) (r : list B) (a : A) (b : B) :
  In (a, b) (inner_join on l r) <-> In a l /\ In b r /\ on a b = true.
Proof.
  unfold inner_join. rewrite in_flat_map. split.
  - intros [x [Hx H]]. apply in_map_iff in H. destruct H as [y [E Hy]].
    injection E as -> ->. apply filter_In in Hy. tauto.
  - intros (Ha & Hb & Hon). exists a. split; [exact Ha|].
    apply in_map. apply filter_In. tauto.
Qed.

Lemma left_join_keeps (l : list A) (r : list B) (a : A) :
  In a l -> exists ob, In (a, ob) (left_join on l r).
Proof.
  intros Ha. unfold left_join.
  destruct (filter (on a) r) as [|b ms] eqn:E.
  - exists None. apply in_flat_map. exists a. split; [exact Ha|].
    rewrite E. now left.
  - exists (Some b). apply in_flat_map. exists a. split; [exact Ha|].
    rewrite E. now left.
Qed.

End JoinFacts.

Lemma flight_join_keeps_every_flight (db : database) (f : flight) :
  In f (d_flight db) -> exists r, In r (flight_join db) /\ row_df r = f.
Proof.
  intros H. unfold flight_join.
  eapply left_join_keeps in H. destruct H as [fs H].
  eapply left_join_keeps in H. destruct H as [dd1 H].
  eapply left_join_keeps in H. destruct H as [dd2 H].
  eapply left_join_keeps in H. destruct H as [dp H].
  eexists. split; [exact H | reflexivity].
Qed.

Lemma pilot_join_assigned (db : database) (r : pilot_row) :
  In r (pilot_join db) ->
  In (prow_fs r) (f_schedule db)
  /\ In (prow_dp r) (d_pilot db)
  /\ fs_pilot_ID (prow_fs r) = Some (dp_pilot_ID (prow_dp r))
  /\ In (prow_df r) (d_flight db)
  /\ fs_flight_ID (prow_fs r) = df_flight_ID (prow_df r).
Proof.
  destruct r as [[[[fs dp] df] dd1] dd2]. unfold pilot_join, prow_fs, prow_dp,
    prow_df. cbn [fst snd]. intros H.
  apply in_inner_join in H. destruct H as (H & _ & _).
  apply in_inner_join in H. destruct H as (H & _ & _).
  apply in_inner_join in H. destruct H as (H & Hdf & Hf).
  apply in_inner_join in H. destruct H as (Hfs & Hdp & Hp).
  cbn [fst snd] in *. repeat split; try assumption.
  - unfold pilot_of in Hp. destruct (fs_pilot_ID fs) as [p|]; [|discriminate].
    apply String.eqb_eq in Hp. now subst.
  - now apply Z.eqb_eq.
Qed.

Lemma filter_all {A : Type} (f : A -> bool) (l : list A) :
  (forall x, f x = true) -> filter f l = l.
Proof.
  intros H. induction l as [|x l IH]; simpl; [reflexivity|].
  now rewrite H, IH.
Qed.

(** ** Filtered fetches *)

(** C1 (amended): a filter counts as supplied when its value is truthy.
    For every combination of filter values, [fetch_flights], [fetch_pilots]
    and [fetch_destinations] fetch and show exactly the rows of their base
    join that satisfy the conjunction of the equality predicates of the
    truthy filters; with no filter they show every row of the base join.
    The base join of [fetch_flights] keeps every flight route, scheduled or
    not; the base join of [fetch_pilots] holds only schedule rows joined
    to the pilot and to the flight they reference; the base join of
    [fetch_destinations] is the destination table. *)
Theorem fetch_shows_rows_passing_truthy_filters (w : world) :
  (forall fn dc ac dd st, exists rows,
      fetch_flights fn dc ac dd st w
      = Returned tt (after_fetch w (show_flights rows))
      /\ Permutation rows
           (map flight_select
                (filter (flight_filters truthy fn dc ac dd st)
                        (flight_join (disk w)))))
  /\ (forall pid first last, exists rows,
         fetch_pilots pid first last w
         = Returned tt (after_fetch w (show_pilots rows))
         /\ Permutation rows
              (map pilot_select
                   (filter (pilot_filters truthy pid first last)
                           (pilot_join (disk w)))))
  /\ (forall code name cty ctry, exists rows,
         fetch_destinations code name cty ctry w
         = Returned tt (after_fetch w (show_destinations rows))
         /\ Permutation rows
              (map destination_select
                   (filter (destination_filters truthy code name cty ctry)
                           (d_destination (disk w)))))
  /\ (exists rows,
         fetch_flights PyNone PyNone PyNone PyNone PyNone w
         = Returned tt (after_fetch w (show_flights rows))
         /\ Permutation rows (map flight_select (flight_join (disk w))))
  /\ (exists rows,
         fetch_pilots PyNone PyNone PyNone w
         = Returned tt (after_fetch w (show_pilots rows))
         /\ Permutation rows (map pilot_select (pilot_join (disk w))))
  /\ (exists rows,
         fetch_destinations PyNone PyNone PyNone PyNone w
         = Returned tt (after_fetch w (show_destinations rows))
         /\ Permutation rows (map destination_select (d_destination (disk w))))
  /\ (forall f, In f (d_flight (disk w)) ->
                exists r, In r (flight_join (disk w)) /\ row_df r = f)
  /\ (forall r, In r (pilot_join (disk w)) ->
                In (prow_fs r) (f_schedule (disk w))
                /\ In (prow_dp r) (d_pilot (disk w))
                /\ fs_pilot_ID (prow_fs r) = Some (dp_pilot_ID (prow_dp r))
                /\ In (prow_df r) (d_flight (disk w))
                /\ fs_flight_ID (prow_fs r) = df_flight_ID (prow_df r)).
Proof.
  assert (F : forall fn dc ac dd st, exists rows,
             fetch_flights fn dc ac dd st w
             = Returned tt (after_fetch w (show_flights rows))
             /\ Permutation rows
                  (map flight_select
                       (filter (flight_filters truthy fn dc ac dd st)
                               (flight_join (disk w))))).
  { intros. eexists. split; [apply fetch_flights_run|].
    unfold flight_query. apply Permutation_map.
    rewrite <- order_by_perm.
    erewrite filter_ext; [reflexivity|]. intros r. apply flight_criteria_holds. }
  assert (P : forall pid first last, exists rows,
             fetch_pilots pid first last w
             = Returned tt (after_fetch w (show_pilots rows))
             /\ Permutation rows
                  (map pilot_select
                       (filter (pilot_filters truthy pid first last)
                               (pilot_join (disk w))))).
  { intros. eexists. split; [apply fetch_pilots_run|].
    unfold pilot_query.
    erewrite filter_ext; [reflexivity|]. intros r. apply pilot_criteria_holds. }
  assert (D : forall code name cty ctry, exists rows,
             fetch_destinations code name cty ctry w
             = Returned tt (after_fetch w (show_destinations rows))
             /\ Permutation rows
                  (map destination_select
                       (filter (destination_filters truthy code name cty ctry)
                               (d_destination (disk w))))).
  { intros. eexists. split; [apply fetch_destinations_run|].
    unfold destination_query.
    erewrite filter_ext; [reflexivity|]. intros r.
    apply destination_criteria_holds. }
  split; [exact F|]. split; [exact P|]. split; [exact D|].
  split; [|split; [|split; [|split]]].
  - destruct (F PyNone PyNone PyNone PyNone PyNone) as [rows [E Hp]].
    exists rows. split; [exact E|].
    rewrite filter_all in Hp by reflexivity. exact Hp.
  - destruct (P PyNone PyNone PyNone) as [rows [E Hp]].
    exists rows. split; [exact E|].
    rewrite filter_all in Hp by reflexivity. exact Hp.
  - destruct (D PyNone PyNone PyNone PyNone) as [rows [E Hp]].
    exists rows. split; [exact E|].
    rewrite filter_all in Hp by reflexivity. exact Hp.
  - apply flight_join_keeps_every_flight.
  - apply pilot_join_assigned.
Qed.

(** C1 as stated fails: on the sample data [fetch_flights(flight_number="")]
    shows all sixteen rows of the base join, none of which has an empty
    flight number. *)
Lemma fetch_flights_empty_flight_number_not_filtered :
  ~ exists rows,
      fetch_flights (PyStr "") PyNone PyNone PyNone PyNone (start seeded [])
      = Returned tt (after_fetch (start seeded []) (show_flights rows))
      /\ Permutation rows
           (map flight_select
                (filter (flight_filters passed (PyStr "") PyNone PyNone PyNone
                                        PyNone)
                        (flight_join (disk (start seeded []))))).
Proof.
  intros [rows [E P]].
  assert (N : rows = []).
  { apply Permutation_nil. symmetry. vm_compute in P. exact P. }
  subst rows. rewrite fetch_flights_run in E. vm_compute in E. discriminate E.
Qed.

(** ** The sample data *)

(** C2 (amended): on a database freshly seeded with the sample data,
    [fetch_flights] with flight number "SI2203" shows exactly one row:
    departure from Exeter Airport (destination code EXE), arrival at Jersey
    Airport (JER), pilot "P0010002", and status "landed". *)
Theorem fetch_flights_SI2203_on_sample_data (lines : list string) :
  fetch_flights (PyStr "SI2203") PyNone PyNone PyNone PyNone (start seeded lines)
  = Returned tt
      (after_fetch (start seeded lines)
         (show_flights
            [[SqlText "SI2203"; SqlText "Exeter Airport";
              SqlText "Jersey Airport"; SqlText "08:35:00"; SqlText "09:20:00";
              SqlText "2025-04-06"; SqlText "P0010002"; SqlText "landed"]]))
  /\ filter (fun f => (df_flight_number f =? "SI2203")%string) (d_flight seeded)
     = [Flight 7 "SI2203" "EXE" "JER" "08:35:00" "09:20:00"]
  /\ In (Destination "EXE" "Exeter Airport" "Exeter" "England")
        (d_destination seeded)
  /\ In (Destination "JER" "Jersey Airport" "Jersey" "Channel Islands")
        (d_destination seeded).
Proof.
  split; [|split; [|split]].
  - rewrite fetch_flights_run. vm_compute. reflexivity.
  - vm_compute. reflexivity.
  - vm_compute. tauto.
  - vm_compute. tauto.
Qed.

(** C2 as stated fails: the one row shown for "SI2203" does not have the
    status "scheduled". *)
Lemma fetch_flights_SI2203_is_not_scheduled :
  ~ exists row,
      fetch_flights (PyStr "SI2203") PyNone PyNone PyNone PyNone (start seeded [])
      = Returned tt (after_fetch (start seeded []) (show_flights [row]))
      /\ nth 7 row SqlNull = SqlText "scheduled".
Proof.
  intros [row [E S]]. rewrite fetch_flights_run in E. vm_compute in E.
  injection E as E. subst row. vm_compute in S. discriminate S.
Qed.

(** ** Ordering *)

Lemma StronglySorted_map {A B : Type} (R : A -> A -> Prop) (S : B -> B -> Prop)
    (f : A -> B) (l : list A) :
  (forall x y, R x y -> S (f x) (f y)) ->
  StronglySorted R l -> StronglySorted S (map f l).
Proof.
  intros H. induction 1 as [|x l Hl IH Hx]; simpl; constructor; [exact IH|].
  rewrite Forall_forall in *. intros y Hy.
  apply in_map_iff in Hy. destruct Hy as [z [<- Hz]]. apply H, Hx, Hz.
Qed.

(** The statement text splits into the tokens of the SELECT, of the WHERE
    clause when there is one, and of the ORDER BY clause: the missing space
    before ORDER never joins it to the parameter mark before it. *)
Lemma flight_query_text_tokens (fn dc ac dd st : pyval) :
  Tokenizer.tokens (flight_query_text (fst (flight_criteria fn dc ac dd st)))
  = Tokenizer.tokens flight_query_select
    ++ Tokenizer.clause_tokens "WHERE" (fst (flight_criteria fn dc ac dd st))
    ++ Tokenizer.order_by_tokens.
Proof.
  unfold flight_criteria, add_criterion.
  destruct (truthy fn), (truthy dc), (truthy ac), (truthy dd), (truthy st);
    vm_compute; reflexivity.
Qed.

(** C7: for every filter combination, the rows [fetch_flights] shows are
    in descending order of departure date, a row without a date (NULL,
    the lowest value in SQLite's order) after every dated row; the text of
    the statement carries the ORDER BY clause as separate tokens whether or
    not a WHERE clause precedes it. *)
Theorem fetch_flights_ordered_by_departure_date_desc
    (fn dc ac dd st : pyval) (w : world) :
  exists rows,
    fetch_flights fn dc ac dd st w
    = Returned tt (after_fetch w (show_flights rows))
    /\ StronglySorted not_before rows
    /\ Tokenizer.tokens (flight_query_text (fst (flight_criteria fn dc ac dd st)))
       = Tokenizer.tokens flight_query_select
         ++ Tokenizer.clause_tokens "WHERE" (fst (flight_criteria fn dc ac dd st))
         ++ Tokenizer.order_by_tokens.
Proof.
  eexists. split; [apply fetch_flights_run|]. split.
  - unfold flight_query. apply StronglySorted_map with (R := desc).
    + intros x y H. exact H.
    + apply order_by_sorted.
  - apply flight_query_text_tokens.
Qed.

(** ** UPDATE statements *)

Section UpdateRows.
Context {R : Type}.
Variables (m : R -> bool) (set : R -> option R).

Lemma update_rows_accepted (f : R -> R) (t : list R) :
  (forall r, set r = Some (f r)) ->
  update_rows m set t = Some (map (fun r => if m r then f r else r) t).
Proof.
  intros H. induction t as [|r t IH]; simpl; [reflexivity|].
  rewrite IH, H. now destruct (m r).
Qed.

Lemma update_rows_refused (t : list R) :
  (forall r, set r = None) -> existsb m t = true -> update_rows m set t = None.
Proof.
  intros H. induction t as [|r t IH]; simpl; [discriminate|].
  destruct (m r); simpl.
  - now rewrite H.
  - intros E. rewrite (IH E). reflexivity.
Qed.

Lemma update_rows_no_match (t : list R) :
  existsb m t = false -> update_rows m set t = Some t.
Proof.
  induction t as [|r t IH]; simpl; [reflexivity|].
  destruct (m r); simpl; [discriminate|].
  intros E. now rewrite (IH E).
Qed.

End UpdateRows.

Lemma rewrite_schedules_id (m : schedule -> bool) (f : schedule -> schedule)
    (db : database) :
  (forall s, f s = s) -> rewrite_schedules m f db = db.
Proof.
  intros H. destruct db as [dd dp df fs]. unfold rewrite_schedules. simpl.
  f_equal. rewrite <- (map_id fs) at 2. apply map_ext.
  intros s. rewrite H. now destruct (m s).
Qed.

Lemma rewrite_schedules_twice (m : schedule -> bool) (f g : schedule -> schedule)
    (db : database) :
  (forall s, m (f s) = m s) ->
  rewrite_schedules m g (rewrite_schedules m f db)
  = rewrite_schedules m (fun s => g (f s)) db.
Proof.
  intros H. unfold rewrite_schedules. simpl. f_equal. rewrite map_map.
  apply map_ext. intros s. destruct (m s) eqn:E; [now rewrite H, E | now rewrite E].
Qed.

Lemma rewrite_schedules_matches (m : schedule -> bool) (f : schedule -> schedule)
    (db : database) :
  (forall s, m (f s) = m s) ->
  existsb m (f_schedule (rewrite_schedules m f db)) = existsb m (f_schedule db).
Proof.
  intros H. unfold rewrite_schedules. simpl.
  induction (f_schedule db) as [|s t IH]; simpl; [reflexivity|].
  rewrite IH. destruct (m s) eqn:E; [now rewrite H, E | now rewrite E].
Qed.

(** Each optional statement of [modify_schedule], on a pending image that
    holds the schedule row. *)
Ltac settle_set E :=
  intros ?;
  unfold set_actual_departure_time, set_actual_arrival_time, set_status,
    set_pilot_id;
  rewrite E; reflexivity.

Ltac settle_accepted E :=
  erewrite update_rows_accepted; [reflexivity | settle_set E].

Ltac settle_refused E :=
  rewrite update_rows_refused; [reflexivity | settle_set E | assumption].

Ltac optional_step v :=
  let E := fresh "E" in
  unfold optional_update, accepted, accepted_not_null, update_f_schedule,
    column_after, column_after_not_null;
  destruct (truthy v); simpl;
  [ match goal with
    | |- context [strict_text_not_null (bind v)] =>
        destruct (strict_text_not_null (bind v)) eqn:E;
        [settle_accepted E | settle_refused E]
    | |- context [strict_text (bind v)] =>
        destruct (strict_text (bind v)) eqn:E;
        [settle_accepted E | settle_refused E]
    end
  | symmetry; f_equal; apply rewrite_schedules_id; intros s; now destruct s ].

Lemma departure_time_step (id : int64) (v : pyval) (db : database) :
  existsb (has_schedule_ID id) (f_schedule db) = true ->
  optional_update v
    (update_f_schedule (has_schedule_ID id) (set_actual_departure_time v)) db
  = if negb (truthy v) || accepted v
    then Some (rewrite_schedules (has_schedule_ID id) (departure_time_after v) db)
    else None.
Proof. intros H. unfold departure_time_after. optional_step v. Qed.

Lemma arrival_time_step (id : int64) (v : pyval) (db : database) :
  existsb (has_schedule_ID id) (f_schedule db) = true ->
  optional_update v
    (update_f_schedule (has_schedule_ID id) (set_actual_arrival_time v)) db
  = if negb (truthy v) || accepted v
    then Some (rewrite_schedules (has_schedule_ID id) (arrival_time_after v) db)
    else None.
Proof. intros H. unfold arrival_time_after. optional_step v. Qed.

Lemma status_step (id : int64) (v : pyval) (db : database) :
  existsb (has_schedule_ID id) (f_schedule db) = true ->
  optional_update v (update_f_schedule (has_schedule_ID id) (set_status v)) db
  = if negb (truthy v) || accepted_not_null v
    then Some (rewrite_schedules (has_schedule_ID id) (status_after v) db)
    else None.
Proof. intros H. unfold status_after. optional_step v. Qed.

(** ** [modify_schedule] *)

Lemma filter_nonempty_exists {A : Type} (m : A -> bool) (t : list A) :
  filter m t <> [] -> existsb m t = true.
Proof.
  induction t as [|x t IH]; simpl; [congruence|].
  destruct (m x); [reflexivity | exact IH].
Qed.

Lemma schedule_lookup_exists (id : int64) (db : database) :
  schedule_lookup id db <> [] ->
  existsb (has_schedule_ID id) (f_schedule db) = true.
Proof.
  unfold schedule_lookup. intros H. apply filter_nonempty_exists.
  intros E. apply H. unfold has_schedule_ID in E. now rewrite E.
Qed.

Ltac on_last' :=
  unfold execute_select, execute_begin, commit,
    close_connection, cursor_close, connection_close, on_open, set_conn,
    set_conns, set_disk, view, print, emit, seq, ret;
  cbn [conns disk stdout stdin conn_open conn_txn conn_executed];
  rewrite ?nth_error_last;
  cbn [conn_open conn_txn conn_executed conns disk stdout stdin];
  rewrite ?replace_nth_last.

(** An optional statement run on the connection opened last, inside its
    transaction. *)
Lemma when_update_last (v : pyval) (u : database -> option database)
    (d0 d : database) (cs : list connection) (n : nat) (o : list output)
    (i : list string) :
  when (truthy v) (execute_update (List.length cs) u)
       (World d0 (cs ++ [Connection true (Some d) n]) o i)
  = match optional_update v u d with
    | Some d' =>
        Returned tt
          (World d0 (cs ++ [Connection true (Some d')
                                       (if truthy v then S n else n)]) o i)
    | None =>
        Raised IntegrityError
               (World d0 (cs ++ [Connection true (Some d) (S n)]) o i)
    end.
Proof.
  unfold optional_update. destruct (truthy v); repeat on_last; [|reflexivity].
  destruct (u d); repeat on_last; reflexivity.
Qed.

(** The three optional statements one after the other. *)
Lemma modify_schedule_batch (id : int64) (ndt nat ns : pyval) (db : database) :
  existsb (has_schedule_ID id) (f_schedule db) = true ->
  match
    optional_update ndt
      (update_f_schedule (has_schedule_ID id) (set_actual_departure_time ndt)) db
  with
  | Some d1 =>
      match
        optional_update nat
          (update_f_schedule (has_schedule_ID id) (set_actual_arrival_time nat)) d1
      with
      | Some d2 =>
          optional_update ns
            (update_f_schedule (has_schedule_ID id) (set_status ns)) d2
      | None => None
      end
  | None => None
  end
  = if batch_accepted ndt nat ns
    then Some (rewrite_schedules (has_schedule_ID id) (schedule_after ndt nat ns) db)
    else None.
Proof.
  intros H. unfold batch_accepted.
  rewrite departure_time_step by exact H.
  destruct (negb (truthy ndt) || accepted ndt); [|reflexivity].
  rewrite arrival_time_step by (now rewrite rewrite_schedules_matches).
  destruct (negb (truthy nat) || accepted nat); [|reflexivity].
  rewrite status_step by (now rewrite !rewrite_schedules_matches).
  destruct (negb (truthy ns) || accepted_not_null ns); [|reflexivity].
  simpl. rewrite !rewrite_schedules_twice by reflexivity. reflexivity.
Qed.

(** The outcome of [modify_schedule] on an existing schedule id. *)
Lemma modify_schedule_outcome (id : int64) (ndt nat ns : pyval)
    (w : world) :
  schedule_lookup id (disk w) <> [] ->
  (batch_accepted ndt nat ns = true ->
   exists w',
     modify_schedule (Some id) ndt nat ns w = Returned tt w'
     /\ disk w' = rewrite_schedules (has_schedule_ID id)
                                    (schedule_after ndt nat ns) (disk w))
  /\ (batch_accepted ndt nat ns = false ->
      exists w',
        modify_schedule (Some id) ndt nat ns w = Raised IntegrityError w'
        /\ disk w' = disk w).
Proof.
  intros L. pose proof (modify_schedule_batch id ndt nat ns (disk w)
                          (schedule_lookup_exists _ _ L)) as B.
  destruct w as [d cs o i]. cbn [disk] in *.
  destruct (schedule_lookup id d) as [|row rest] eqn:Lk; [contradiction|].
  unfold modify_schedule, open_connection, connect.
  repeat on_last'. rewrite Lk. repeat on_last'.
  rewrite when_update_last.
  destruct (optional_update ndt _ d) as [d1|] eqn:E1;
    [rewrite when_update_last;
     destruct (optional_update nat _ d1) as [d2|] eqn:E2;
     [rewrite when_update_last;
      destruct (optional_update ns _ d2) as [d3|] eqn:E3|]|].
  - split; intros A; rewrite A in B; [|discriminate B].
    injection B as ->. repeat on_last'.
    destruct (schedule_lookup id (rewrite_schedules _ _ _)); repeat on_last';
      eexists; split; reflexivity.
  - split; intros A; rewrite A in B; [discriminate B|].
    eexists; split; reflexivity.
  - split; intros A; rewrite A in B; [discriminate B|].
    eexists; split; reflexivity.
  - split; intros A; rewrite A in B; [discriminate B|].
    eexists; split; reflexivity.
Qed.

(** The outcome of [modify_schedule] on a schedule id that no row has. *)
Lemma modify_schedule_not_found (id : int64) (ndt nat ns : pyval) (w : world) :
  schedule_lookup id (disk w) = [] ->
  modify_schedule (Some id) ndt nat ns w
  = Returned tt
      (World (disk w) (conns w ++ [Connection true None 1])
             (stdout w ++ [Print (Before_making_changes (int64_val id));
                           Print (Schedule_ID_does_not_exist (int64_val id))])
             (stdin w)).
Proof.
  intros L. destruct w as [d cs o i]. cbn [disk conns stdout stdin] in *.
  unfold modify_schedule, open_connection, connect.
  repeat on_last'. rewrite L. repeat on_last'.
  rewrite <- app_assoc. reflexivity.
Qed.

(** C3 (amended): for every existing schedule id, [modify_schedule] runs
    one UPDATE for each field given a truthy value, inside one transaction.
    However the call ends, the committed row holds all of these fields
    (every other column and every other row as before) or the committed
    database is unchanged. In a world where no connection holds a
    transaction it is the first when the engine takes every statement of
    the batch, and the call returns; when the engine refuses any
    statement, the call raises before it commits and the committed
    database, hence the row, is unchanged. *)
Theorem modify_schedule_all_or_nothing (id : int64) (ndt nat ns : pyval)
    (w : world) :
  schedule_lookup id (disk w) <> [] ->
  (disk (final (modify_schedule (Some id) ndt nat ns w))
   = rewrite_schedules (has_schedule_ID id) (schedule_after ndt nat ns) (disk w)
   \/ disk (final (modify_schedule (Some id) ndt nat ns w)) = disk w)
  /\ (unlocked w = true ->
      (batch_accepted ndt nat ns = true ->
       exists w',
         modify_schedule (Some id) ndt nat ns w = Returned tt w'
         /\ disk w' = rewrite_schedules (has_schedule_ID id)
                                        (schedule_after ndt nat ns) (disk w))
      /\ (batch_accepted ndt nat ns = false ->
          exists w',
            modify_schedule (Some id) ndt nat ns w = Raised IntegrityError w'
            /\ disk w' = disk w)).
Proof.
  intros L. destruct (modify_schedule_outcome id ndt nat ns w L) as [A R].
  split; [|intros _; now split].
  destruct (batch_accepted ndt nat ns).
  - destruct (A eq_refl) as [w' [-> D]]. now left.
  - destruct (R eq_refl) as [w' [-> D]]. now right.
Qed.

(** On the sample data: schedule 2 with a new arrival time and status is
    rewritten whole; with a bytes status the call raises and nothing is
    committed. *)
Lemma modify_schedule_all_or_nothing_witness :
  (exists w',
      modify_schedule (Some int64_2) PyNone (PyStr "13:00") (PyStr "delayed")
                      (start seeded [])
      = Returned tt w'
      /\ disk w' = rewrite_schedules (has_schedule_ID int64_2)
                     (schedule_after PyNone (PyStr "13:00") (PyStr "delayed"))
                     (disk (start seeded [])))
  /\ (exists w',
         modify_schedule (Some int64_2) PyNone (PyStr "13:00") (PyBytes "x")
                         (start seeded [])
         = Raised IntegrityError w'
         /\ disk w' = disk (start seeded [])).
Proof.
  split.
  - refine (proj1 (proj2 (modify_schedule_all_or_nothing int64_2 PyNone
                            (PyStr "13:00") (PyStr "delayed") (start seeded [])
                            _) eq_refl) eq_refl).
    vm_compute; discriminate.
  - refine (proj2 (proj2 (modify_schedule_all_or_nothing int64_2 PyNone
                            (PyStr "13:00") (PyBytes "x") (start seeded [])
                            _) eq_refl) eq_refl).
    vm_compute; discriminate.
Defined.

(** C3 as stated fails: with a departure time and an empty status both
    supplied for schedule 2 of the sample data, the committed row is
    neither the row with both fields written nor the row as it was. *)
Lemma modify_schedule_empty_status_partial :
  ~ (schedule_lookup int64_2
       (disk (final (modify_schedule (Some int64_2) (PyStr "12:00") PyNone
                                     (PyStr "") (start seeded []))))
     = [[SqlInt 2; SqlText "2025-04-21"; SqlText "12:00"; SqlNull; SqlInt 3;
         SqlText "P0010001"; SqlText ""]]
     \/ schedule_lookup int64_2
          (disk (final (modify_schedule (Some int64_2) (PyStr "12:00") PyNone
                                        (PyStr "") (start seeded []))))
        = schedule_lookup int64_2 seeded).
Proof. vm_compute. intros [H|H]; discriminate H. Qed.

(** ** Falsy arguments *)

Lemma absent_if_falsy_truthy (v : pyval) :
  truthy v = true -> absent_if_falsy v = v.
Proof. unfold absent_if_falsy. now intros ->. Qed.

Lemma absent_if_falsy_falsy (v : pyval) :
  truthy v = false -> absent_if_falsy v = PyNone.
Proof. unfold absent_if_falsy. now intros ->. Qed.

Lemma add_criterion_absent_if_falsy {column : Type} (c : column) (v : pyval)
    (acc : criteria) :
  add_criterion c (absent_if_falsy v) acc = add_criterion c v acc.
Proof.
  unfold add_criterion, absent_if_falsy.
  destruct (truthy v) eqn:E; [now rewrite E | reflexivity].
Qed.

Lemma schedule_after_nothing (s : schedule) :
  schedule_after PyNone PyNone PyNone s = s.
Proof. now destruct s. Qed.

(** Replace an argument by its [absent_if_falsy] form, whichever it is. *)
Ltac by_truthiness v :=
  let E := fresh "E" in
  destruct (truthy v) eqn:E;
  [ rewrite (absent_if_falsy_truthy v E); rewrite ?E
  | rewrite (absent_if_falsy_falsy v E) ].

(** C9: every optional filter of [fetch_flights], [fetch_pilots] and
    [fetch_destinations] and every optional update field of
    [modify_schedule] and [modify_destination] is tested by truthiness, so
    a call that gives it a falsy value (the empty string, 0, empty bytes)
    runs exactly as the call that leaves it out: same outcome, same
    output, same database. In particular [fetch_flights(flight_number="")]
    is [fetch_flights()], and [modify_schedule(schedule_id, new_status="")]
    is [modify_schedule(schedule_id)] and leaves the database as it was. *)
Theorem falsy_argument_behaves_as_absent :
  (forall fn dc ac dd st w,
      fetch_flights fn dc ac dd st w
      = fetch_flights (absent_if_falsy fn) (absent_if_falsy dc)
                      (absent_if_falsy ac) (absent_if_falsy dd)
                      (absent_if_falsy st) w)
  /\ (forall pid first last w,
         fetch_pilots pid first last w
         = fetch_pilots (absent_if_falsy pid) (absent_if_falsy first)
                        (absent_if_falsy last) w)
  /\ (forall code name cty ctry w,
         fetch_destinations code name cty ctry w
         = fetch_destinations (absent_if_falsy code) (absent_if_falsy name)
                              (absent_if_falsy cty) (absent_if_falsy ctry) w)
  /\ (forall id ndt nat ns w,
         modify_schedule id ndt nat ns w
         = modify_schedule id (absent_if_falsy ndt) (absent_if_falsy nat)
                           (absent_if_falsy ns) w)
  /\ (forall code name cty ctry w,
         modify_destination code name cty ctry w
         = modify_destination code (absent_if_falsy name) (absent_if_falsy cty)
                              (absent_if_falsy ctry) w)
  /\ (forall w,
         fetch_flights (PyStr "") PyNone PyNone PyNone PyNone w
         = fetch_flights PyNone PyNone PyNone PyNone PyNone w
         /\ fetch_flights (PyInt int64_0) PyNone PyNone PyNone PyNone w
            = fetch_flights PyNone PyNone PyNone PyNone PyNone w)
  /\ (forall id w,
         modify_schedule (Some id) PyNone PyNone (PyStr "") w
         = modify_schedule (Some id) PyNone PyNone PyNone w
         /\ disk (final (modify_schedule (Some id) PyNone PyNone (PyStr "") w))
            = disk w).
Proof.
  split; [|split; [|split; [|split; [|split; [|split]]]]].
  - intros. unfold fetch_flights, flight_criteria.
    now rewrite !add_criterion_absent_if_falsy.
  - intros. unfold fetch_pilots, pilot_criteria.
    now rewrite !add_criterion_absent_if_falsy.
  - intros. unfold fetch_destinations, destination_criteria.
    now rewrite !add_criterion_absent_if_falsy.
  - intros. unfold modify_schedule.
    by_truthiness ndt; by_truthiness nat; by_truthiness ns; reflexivity.
  - intros. unfold modify_destination.
    by_truthiness name; by_truthiness cty; by_truthiness ctry; reflexivity.
  - intros. split; reflexivity.
  - intros. split; [reflexivity|].
    change (modify_schedule (Some id) PyNone PyNone (PyStr "") w)
      with (modify_schedule (Some id) PyNone PyNone PyNone w).
    destruct (schedule_lookup id (disk w)) as [|row rest] eqn:L.
    + now rewrite modify_schedule_not_found.
    + destruct (modify_schedule_outcome id PyNone PyNone PyNone w) as [S _];
        [rewrite L; discriminate|].
      destruct (S eq_refl) as [w' [-> D]]. cbn [final]. rewrite D.
      apply rewrite_schedules_id, schedule_after_nothing.
Qed.

(** ** [assign_pilot] *)

Lemma nth_error_before {A : Type} (l r : list A) (x : A) :
  nth_error ((l ++ [x]) ++ r) (List.length l) = Some x.
Proof.
  rewrite nth_error_app1 by (rewrite length_app; simpl; lia).
  apply nth_error_last.
Qed.

Lemma replace_nth_before {A : Type} (l r : list A) (x y : A) :
  replace_nth (List.length l) y ((l ++ [x]) ++ r) = (l ++ [y]) ++ r.
Proof.
  induction l as [|h t IH]; simpl; [reflexivity | now rewrite IH].
Qed.

(** Up to its confirmation loop [assign_pilot] only reads. *)
Lemma assign_pilot_enters_loop (pid fn dd dc ac : pyval) (w : world) :
  is_None pid = false ->
  forallb truthy [fn; dd; dc; ac] = true ->
  assign_pilot pid fn dd dc ac w
  = confirmation_loop (S (List.length (stdin w))) (List.length (conns w))
      pid fn dd dc ac (loop_entry pid fn dd dc ac w).
Proof.
  intros N T. destruct w as [d cs o i].
  unfold assign_pilot, open_connection, connect. rewrite N, T.
  unfold seq, print, emit, set_conns. cbn [conns disk stdout stdin negb].
  rewrite fetch_pilots_run. unfold after_fetch. cbn [conns disk stdout stdin].
  rewrite fetch_flights_run. unfold after_fetch, loop_entry.
  cbn [conns disk stdout stdin].
  rewrite <- !app_assoc. cbn [app]. reflexivity.
Qed.

(** One turn of the loop. *)
Lemma confirmation_turn (n h : nat) (pid fn dd dc ac : pyval) (w : world)
    (line : string) (rest : list string) :
  stdin w = line :: rest ->
  confirmation_loop (S n) h pid fn dd dc ac w
  = let asked := World (disk w) (conns w)
                       (stdout w ++ [Print (Shall_I_assign pid fn)]) rest in
    if (lower line =? "no")%string then print No_changes_made asked
    else if (lower line =? "yes")%string then
      (connection <- open_connection ;;
       found <- execute_select connection (flight_id_lookup fn dc ac) ;;
       match found with
       | [] => print Flight_details_do_not_exist
       | flight_id :: _ =>
           execute_begin connection ;;
           execute_update connection (pilot_assignment pid flight_id dd) ;;
           commit connection ;;
           print (Assigned_successfully pid) ;;
           loop_tail connection pid fn dd dc ac
       end) asked
    else (loop_tail h pid fn dd dc ac ;;
          confirmation_loop n h pid fn dd dc ac) asked.
Proof.
  intros I. cbn [confirmation_loop]. unfold seq at 1. unfold input. rewrite I.
  cbn zeta. destruct (lower line =? "no")%string; [reflexivity|].
  destruct (lower line =? "yes")%string; reflexivity.
Qed.

(** At the end of input the loop raises. *)
Lemma confirmation_eof (n h : nat) (pid fn dd dc ac : pyval) (w : world) :
  stdin w = [] ->
  confirmation_loop (S n) h pid fn dd dc ac w
  = Raised EOFError (World (disk w) (conns w)
                           (stdout w ++ [Print (Shall_I_assign pid fn)]) []).
Proof.
  intros I. cbn [confirmation_loop]. unfold seq at 1. unfold input. rewrite I.
  reflexivity.
Qed.

(** *** What only reads *)

Lemma reads_only_seq {A B : Type} (m : py A) (k : A -> py B) :
  reads_only m -> (forall a, reads_only (k a)) -> reads_only (seq m k).
Proof.
  intros Hm Hk w. unfold seq. specialize (Hm w).
  destruct (m w) as [a w'|e w']; cbn [final] in *; [|exact Hm].
  destruct (Hk a w') as [D I]. destruct Hm as [D' I']. split; congruence.
Qed.

Ltac reads_only_primitive :=
  intros [d cs o i];
  unfold emit, print, connect, execute_select, execute_begin, execute_update,
    cursor_close, connection_close, on_open, set_conn, set_conns;
  cbn [conns disk stdout stdin];
  repeat match goal with
         | |- context [match ?x with _ => _ end] => destruct x
         end;
  cbn [final disk stdin]; split; reflexivity.

Lemma reads_only_emit (x : output) : reads_only (emit x).
Proof. reads_only_primitive. Qed.

Lemma reads_only_print (x : message) : reads_only (print x).
Proof. reads_only_primitive. Qed.

Lemma reads_only_open_connection : reads_only open_connection.
Proof. unfold open_connection. reads_only_primitive. Qed.

Lemma reads_only_execute_select {R : Type} (h : nat) (q : database -> list R) :
  reads_only (execute_select h q).
Proof. reads_only_primitive. Qed.

Lemma reads_only_execute_begin (h : nat) : reads_only (execute_begin h).
Proof. reads_only_primitive. Qed.

Lemma reads_only_execute_update (h : nat) (u : database -> option database) :
  reads_only (execute_update h u).
Proof. reads_only_primitive. Qed.

Lemma reads_only_cursor_close (h : nat) : reads_only (cursor_close h).
Proof. reads_only_primitive. Qed.

Lemma reads_only_connection_close (h : nat) : reads_only (connection_close h).
Proof. reads_only_primitive. Qed.

Lemma reads_only_fetch_pilots (pid first last : pyval) :
  reads_only (fetch_pilots pid first last).
Proof. intros w. rewrite fetch_pilots_run. split; reflexivity. Qed.

Lemma reads_only_fetch_flights (fn dc ac dd st : pyval) :
  reads_only (fetch_flights fn dc ac dd st).
Proof. intros w. rewrite fetch_flights_run. split; reflexivity. Qed.

Lemma reads_only_loop_tail (h : nat) (pid fn dd dc ac : pyval) :
  reads_only (loop_tail h pid fn dd dc ac).
Proof.
  unfold loop_tail.
  repeat (apply reads_only_seq; [|intros _]);
    auto using reads_only_print, reads_only_fetch_pilots,
      reads_only_fetch_flights, reads_only_cursor_close,
      reads_only_connection_close.
Qed.

(** A statement run right after [open_connection] reads the committed
    database. *)
Lemma select_on_new_connection {R B : Type} (q : database -> list R)
    (k : nat -> list R -> py B) (w : world) :
  (connection <- open_connection ;;
   found <- execute_select connection q ;; k connection found) w
  = k (List.length (conns w)) (q (disk w))
      (World (disk w) (conns w ++ [Connection true None 1]) (stdout w) (stdin w)).
Proof.
  destruct w as [d cs o i]. unfold open_connection, connect.
  unfold seq at 1. unfold set_conns. cbn [conns disk stdout stdin].
  unfold seq at 1. repeat on_last'. reflexivity.
Qed.

(** When no flight matches, no run of the loop changes the database. *)
Lemma loop_not_found_keeps_disk (pid fn dd dc ac : pyval) (n h : nat) (w : world) :
  flight_id_lookup fn dc ac (disk w) = [] ->
  disk (final (confirmation_loop n h pid fn dd dc ac w)) = disk w.
Proof.
  revert w. induction n as [|n IH]; intros w L; [reflexivity|].
  destruct (stdin w) as [|line rest] eqn:I.
  - now rewrite confirmation_eof.
  - rewrite (confirmation_turn _ _ _ _ _ _ _ _ _ _ I). cbn zeta.
    destruct (lower line =? "no")%string; [reflexivity|].
    destruct (lower line =? "yes")%string.
    + rewrite select_on_new_connection. cbn [disk]. rewrite L. reflexivity.
    + unfold seq.
      match goal with |- context [loop_tail ?a ?b ?c ?d ?e ?f ?g] =>
        destruct (reads_only_loop_tail a b c d e f g) as [D _];
        destruct (loop_tail a b c d e f g) as [u w'|e' w'] end;
        cbn [final disk] in *; [|exact D].
      rewrite IH by (now rewrite D). exact D.
Qed.

(** Without an affirmative answer among the lines to read, no run of the
    loop changes the database. *)
Lemma loop_without_yes_keeps_disk (pid fn dd dc ac : pyval) (n h : nat)
    (w : world) :
  existsb affirmative (stdin w) = false ->
  disk (final (confirmation_loop n h pid fn dd dc ac w)) = disk w.
Proof.
  revert w. induction n as [|n IH]; intros w Y; [reflexivity|].
  destruct (stdin w) as [|line rest] eqn:I.
  - now rewrite confirmation_eof.
  - rewrite (confirmation_turn _ _ _ _ _ _ _ _ _ _ I). cbn zeta.
    cbn [existsb] in Y. apply orb_false_elim in Y. destruct Y as [Y1 Y2].
    unfold affirmative in Y1.
    destruct (lower line =? "no")%string; [reflexivity|].
    rewrite Y1. unfold seq.
    match goal with |- context [loop_tail ?a ?b ?c ?d ?e ?f ?g] =>
      destruct (reads_only_loop_tail a b c d e f g) as [D S];
      destruct (loop_tail a b c d e f g) as [u w'|e' w'] end;
      cbn [final disk stdin] in *; [|exact D].
    rewrite IH by (now rewrite S). exact D.
Qed.

Lemma nth_error_before2 {A : Type} (l : list A) (c x y : A) :
  nth_error (((l ++ [c]) ++ [x]) ++ [y]) (List.length l) = Some c.
Proof.
  rewrite nth_error_app1 by (rewrite !length_app; simpl; lia).
  apply nth_error_before.
Qed.

Lemma replace_nth_before2 {A : Type} (l : list A) (c c' x y : A) :
  replace_nth (List.length l) c' (((l ++ [c]) ++ [x]) ++ [y])
  = ((l ++ [c']) ++ [x]) ++ [y].
Proof.
  induction l as [|h t IH]; simpl; [reflexivity | now rewrite IH].
Qed.

(** The outcome of [assign_pilot] without a pilot id. *)
Lemma assign_pilot_missing_pilot (fn dd dc ac : pyval) (w : world) :
  assign_pilot PyNone fn dd dc ac w
  = Returned tt (World (disk w) (conns w ++ [Connection false None 0])
                       (stdout w ++ [Print No_pilot_ID_entered]) (stdin w)).
Proof.
  destruct w as [d cs o i]. unfold assign_pilot, open_connection, connect.
  cbn [is_None]. repeat on_last'. reflexivity.
Qed.

(** The outcome of [assign_pilot] without all four flight details. *)
Lemma assign_pilot_incomplete (pid fn dd dc ac : pyval) (w : world) :
  is_None pid = false ->
  forallb truthy [fn; dd; dc; ac] = false ->
  assign_pilot pid fn dd dc ac w
  = Returned tt
      (World (disk w)
             (conns w ++ [Connection true None 0; Connection false None 1])
             (stdout w
              ++ Print (Fetching_schedule_information pid)
              :: show_pilots (pilot_query (pilot_criteria pid PyNone PyNone)
                                          (disk w))
              ++ [Print Please_provide_flight_details])
             (stdin w)).
Proof.
  intros N T. destruct w as [d cs o i].
  unfold assign_pilot, open_connection, connect. rewrite N, T.
  unfold seq, print, emit, set_conns. cbn [conns disk stdout stdin negb].
  rewrite fetch_pilots_run. unfold after_fetch. cbn [conns disk stdout stdin].
  rewrite <- !app_assoc. cbn [app]. reflexivity.
Qed.

(** The outcome of [assign_pilot] when the operator confirms and no flight
    matches. *)
Lemma assign_pilot_yes_not_found (pid fn dd dc ac : pyval) (w : world)
    (line : string) (rest : list string) :
  is_None pid = false ->
  forallb truthy [fn; dd; dc; ac] = true ->
  stdin w = line :: rest ->
  affirmative line = true ->
  flight_id_lookup fn dc ac (disk w) = [] ->
  assign_pilot pid fn dd dc ac w
  = Returned tt
      (World (disk w)
             (conns w ++ [Connection true None 0; Connection false None 1;
                          Connection false None 1; Connection true None 1])
             (stdout (loop_entry pid fn dd dc ac w)
              ++ [Print (Shall_I_assign pid fn);
                  Print Flight_details_do_not_exist])
             rest).
Proof.
  intros N T I Y L. rewrite assign_pilot_enters_loop by assumption.
  rewrite (confirmation_turn _ _ _ _ _ _ _ _ line rest) by exact I. cbn zeta.
  unfold affirmative in Y. apply String.eqb_eq in Y. rewrite Y. cbn [String.eqb].
  change (("yes" =? "no")%string) with false. cbv iota.
  change (("yes" =? "yes")%string) with true. cbv iota.
  rewrite select_on_new_connection. cbn [disk conns stdout stdin loop_entry].
  rewrite L. unfold print, emit. cbn [disk conns stdout stdin].
  rewrite <- !app_assoc. cbn [app]. reflexivity.
Qed.

(** [pilot_assignment] with an accepted pilot id rewrites every row of the
    flight on the date. *)
Lemma pilot_assignment_accepted (pid : pyval) (fid : Z) (dd : pyval)
    (db : database) :
  accepted pid = true ->
  pilot_assignment pid fid dd db
  = Some (rewrite_schedules (on_flight_and_date fid dd)
                            (with_pilot (pilot_reference pid)) db).
Proof.
  unfold accepted, pilot_assignment, update_f_schedule, pilot_reference,
    rewrite_schedules.
  destruct (strict_text (bind pid)) as [p|] eqn:E; [intros _ | discriminate].
  erewrite update_rows_accepted; [reflexivity|].
  intros s. unfold set_pilot_id. rewrite E. reflexivity.
Qed.

(** ** Reported conditions *)

Lemma written_since_app (w w' : world) (l : list output) :
  stdout w' = stdout w ++ l -> written_since w w' = l.
Proof.
  unfold written_since. intros ->.
  induction (stdout w) as [|x o IH]; simpl; [reflexivity | exact IH].
Qed.

(** C4: when the lookup that guards a mutation finds no row, the operation
    reports NotFound and returns with the database unchanged and no
    transaction begun. For [modify_schedule] this is a schedule id that no
    row of [f_schedule] has; for [assign_pilot] it is a flight number and
    two cities that no flight matches, found when the operator has
    confirmed. Whatever the operator answers, [assign_pilot] leaves the
    database unchanged when no flight matches. *)
Theorem not_found_aborts_without_writes :
  (forall id ndt nat ns w,
      schedule_lookup id (disk w) = [] ->
      exists w',
        modify_schedule (Some id) ndt nat ns w = Returned tt w'
        /\ reports NotFound w w'
        /\ disk w' = disk w
        /\ conns w' = conns w ++ [Connection true None 1])
  /\ (forall pid fn dd dc ac w line rest,
         is_None pid = false ->
         forallb truthy [fn; dd; dc; ac] = true ->
         stdin w = line :: rest ->
         affirmative line = true ->
         flight_id_lookup fn dc ac (disk w) = [] ->
         exists w',
           assign_pilot pid fn dd dc ac w = Returned tt w'
           /\ reports NotFound w w'
           /\ disk w' = disk w
           /\ conns w' = conns w ++ [Connection true None 0;
                                     Connection false None 1;
                                     Connection false None 1;
                                     Connection true None 1])
  /\ (forall pid fn dd dc ac w,
         flight_id_lookup fn dc ac (disk w) = [] ->
         disk (final (assign_pilot pid fn dd dc ac w)) = disk w).
Proof.
  split; [|split].
  - intros id ndt nat ns w L. eexists. split; [now apply modify_schedule_not_found|].
    split; [|split; reflexivity].
    exists (Schedule_ID_does_not_exist (int64_val id)). split; [|reflexivity].
    erewrite written_since_app by reflexivity. right. now left.
  - intros pid fn dd dc ac w line rest N T I Y L. eexists.
    split; [now apply (assign_pilot_yes_not_found pid fn dd dc ac w line rest)|].
    split; [|split; reflexivity].
    exists Flight_details_do_not_exist. split; [|reflexivity].
    erewrite written_since_app.
    2:{ cbn [stdout loop_entry]. rewrite <- app_assoc. reflexivity. }
    apply in_or_app. right. right. now left.
  - intros pid fn dd dc ac w L.
    destruct (is_None pid) eqn:N.
    + destruct pid; try discriminate N. now rewrite assign_pilot_missing_pilot.
    + destruct (forallb truthy [fn; dd; dc; ac]) eqn:T.
      * rewrite assign_pilot_enters_loop by assumption.
        now rewrite loop_not_found_keeps_disk.
      * now rewrite assign_pilot_incomplete.
Qed.

(** On the sample data: schedule id 999, and flight SI2207 asked for in the
    wrong direction. *)
Lemma not_found_aborts_without_writes_witness :
  (exists w',
      modify_schedule (Some int64_999) PyNone PyNone (PyStr "delayed")
                      (start seeded [])
      = Returned tt w'
      /\ reports NotFound (start seeded []) w'
      /\ disk w' = disk (start seeded [])
      /\ conns w' = conns (start seeded []) ++ [Connection true None 1])
  /\ (exists w',
         assign_pilot (PyStr "P0010007") (PyStr "SI2207") (PyStr "2025-04-21")
                      (PyStr "Jersey") (PyStr "Exeter") (start seeded ["YES"])
         = Returned tt w'
         /\ reports NotFound (start seeded ["YES"]) w'
         /\ disk w' = disk (start seeded ["YES"])
         /\ conns w' = conns (start seeded ["YES"])
                       ++ [Connection true None 0; Connection false None 1;
                           Connection false None 1; Connection true None 1]).
Proof.
  split.
  - apply (proj1 not_found_aborts_without_writes int64_999 PyNone PyNone
             (PyStr "delayed") (start seeded [])).
    vm_compute. reflexivity.
  - apply (proj1 (proj2 not_found_aborts_without_writes) (PyStr "P0010007")
             (PyStr "SI2207") (PyStr "2025-04-21") (PyStr "Jersey")
             (PyStr "Exeter") (start seeded ["YES"]) "YES" []);
      vm_compute; reflexivity.
Defined.

(** C5 (amended): a call without its identifying field reports
    MissingArgument and returns with no statement executed and the
    database unchanged. [modify_schedule] without a schedule id and
    [modify_destination] without a destination code open no connection;
    [assign_pilot] without a pilot id has already opened a connection,
    and closes it unused before it returns. *)
Theorem missing_identifier_reported_without_statement :
  (forall ndt nat ns w,
      modify_schedule None ndt nat ns w
      = Returned tt (World (disk w) (conns w)
                           (stdout w ++ [Print No_schedule_ID_entered])
                           (stdin w)))
  /\ (forall name cty ctry w,
         modify_destination PyNone name cty ctry w
         = Returned tt (World (disk w) (conns w)
                              (stdout w ++ [Print No_destination_code_entered])
                              (stdin w)))
  /\ (forall fn dd dc ac w,
         assign_pilot PyNone fn dd dc ac w
         = Returned tt (World (disk w) (conns w ++ [Connection false None 0])
                              (stdout w ++ [Print No_pilot_ID_entered])
                              (stdin w)))
  /\ reported No_schedule_ID_entered = Some MissingArgument
  /\ reported No_destination_code_entered = Some MissingArgument
  /\ reported No_pilot_ID_entered = Some MissingArgument.
Proof.
  split; [|split; [|split; [|auto]]].
  - intros. reflexivity.
  - intros. reflexivity.
  - intros. apply assign_pilot_missing_pilot.
Qed.

(** C5 as stated fails: [assign_pilot] without a pilot id does attempt a
    database access, it connects to the database before it looks at its
    arguments. *)
Lemma assign_pilot_without_pilot_id_connects :
  conns (final (assign_pilot PyNone PyNone PyNone PyNone PyNone
                             (start seeded [])))
  <> conns (start seeded []).
Proof. vm_compute. discriminate. Qed.

(** ** Connections left open *)

(** C8 fails on the code: the NotFound return of [modify_schedule], the
    IncompleteCriteria return of [assign_pilot] and its return on a
    negative answer end with the connection they opened still open, and so
    does a call that ends by an exception; the MissingArgument return of
    [assign_pilot] closes its connection. *)
Theorem early_returns_leave_connection_open :
  open_connections
    (final (modify_schedule (Some int64_999) PyNone PyNone (PyStr "delayed")
                            (start seeded [])))
  = [Connection true None 1]
  /\ open_connections
       (final (assign_pilot (PyStr "P0010007") (PyStr "SI2207") PyNone PyNone
                            PyNone (start seeded [])))
     = [Connection true None 0]
  /\ open_connections
       (final (assign_pilot (PyStr "P0010007") (PyStr "SI2207")
                            (PyStr "2025-04-21") (PyStr "Exeter")
                            (PyStr "Jersey") (start seeded ["no"])))
     = [Connection true None 0]
  /\ (exists w',
         modify_schedule (Some int64_2) PyNone PyNone (PyBytes "x")
                         (start seeded [])
         = Raised IntegrityError w'
         /\ open_connections w' = [Connection true (Some seeded) 3])
  /\ open_connections
       (final (assign_pilot PyNone (PyStr "SI2207") (PyStr "2025-04-21")
                            (PyStr "Exeter") (PyStr "Jersey")
                            (start seeded [])))
     = [].
Proof.
  split; [|split; [|split; [|split]]]; try (vm_compute; reflexivity).
  eexists. split; vm_compute; reflexivity.
Qed.

(** ** The confirmation step *)

(** No run of [assign_pilot] changes the database unless an affirmative
    answer is among the lines it can read. *)
Lemma assign_pilot_writes_only_after_yes (pid fn dd dc ac : pyval) (w : world) :
  existsb affirmative (stdin w) = false ->
  disk (final (assign_pilot pid fn dd dc ac w)) = disk w.
Proof.
  intros Y. destruct (is_None pid) eqn:N.
  - destruct pid; try discriminate N. now rewrite assign_pilot_missing_pilot.
  - destruct (forallb truthy [fn; dd; dc; ac]) eqn:T.
    + rewrite assign_pilot_enters_loop by assumption.
      now rewrite loop_without_yes_keeps_disk.
    + now rewrite assign_pilot_incomplete.
Qed.

(** A negative answer ends the call with the database as it was. *)
Lemma assign_pilot_no_aborts (pid fn dd dc ac : pyval) (w : world)
    (line : string) (rest : list string) :
  is_None pid = false ->
  forallb truthy [fn; dd; dc; ac] = true ->
  stdin w = line :: rest ->
  lower line = "no"%string ->
  assign_pilot pid fn dd dc ac w
  = Returned tt
      (World (disk w)
             (conns w ++ [Connection true None 0; Connection false None 1;
                          Connection false None 1])
             (stdout (loop_entry pid fn dd dc ac w)
              ++ [Print (Shall_I_assign pid fn); Print No_changes_made])
             rest).
Proof.
  intros N T I Y. rewrite assign_pilot_enters_loop by assumption.
  rewrite (confirmation_turn _ _ _ _ _ _ _ _ line rest) by exact I. cbn zeta.
  rewrite Y. change (("no" =? "no")%string) with true. cbv iota.
  unfold print, emit. cbn [disk conns stdout stdin loop_entry].
  rewrite <- !app_assoc. reflexivity.
Qed.

(** C6 fails on the code: a first unrecognised answer is followed by a new
    prompt, but only after the closing statements of the loop body have
    shown both schedules and closed the connection; on a second
    unrecognised answer the same statements close the closed connection,
    the driver raises ProgrammingError and the call ends there, with no
    further prompt and the affirmative answer that follows never read. *)
Theorem second_unrecognised_answer_raises :
  exists w',
    assign_pilot (PyStr "P0010007") (PyStr "SI2207") (PyStr "2025-04-21")
                 (PyStr "Exeter") (PyStr "Jersey")
                 (start seeded ["maybe"; "perhaps"; "yes"])
    = Raised ProgrammingError w'
    /\ prompts (start seeded ["maybe"; "perhaps"; "yes"]) w' = 2%nat
    /\ stdin w' = ["yes"]%string
    /\ disk w' = seeded.
Proof.
  eexists. split; [vm_compute; reflexivity|].
  split; [|split]; vm_compute; reflexivity.
Qed.

(** ** Lines printed *)

Ltac each_line H :=
  repeat match type of H with
         | In _ (_ ++ _) => apply in_app_or in H
         | In _ (show_pilots _) => unfold show_pilots in H
         | In _ (show_flights _) => unfold show_flights in H
         | In _ (_ :: _) => cbn [In] in H
         | In _ [] => contradiction H
         | False => contradiction H
         | _ \/ _ => destruct H as [H|H]
         | (if ?b then _ else _) = _ => destruct b
         | Print _ = Print _ => injection H as <-; reflexivity
         | Tabulate _ _ = Print _ => discriminate H
         end.

(** * Further properties of the query layer *)

(** ** The fetch functions *)

Lemma open_connections_closed_last (d : database) (cs : list connection)
    (o : list output) (i : list string) (n : nat) :
  open_connections (World d (cs ++ [Connection false None n]) o i)
  = filter conn_open cs.
Proof.
  unfold open_connections. cbn [conns]. rewrite filter_app. cbn [filter conn_open].
  apply app_nil_r.
Qed.

(** X1: for all arguments that the driver can bind ([None], a [str], a
    [bytes] value or an [int] of 64 bits: the values of [pyval]),
    [fetch_flights], [fetch_pilots] and [fetch_destinations] return, leave
    the database as it was, read nothing from the operator, and close the
    one connection they opened: the connections open afterwards are those
    open before. An argument that cannot be bound is outside this
    statement. *)
Theorem fetch_functions_read_and_close (w : world) :
  (forall fn dc ac dd st, exists w',
      fetch_flights fn dc ac dd st w = Returned tt w'
      /\ disk w' = disk w /\ stdin w' = stdin w
      /\ open_connections w' = open_connections w
      /\ List.length (conns w') = S (List.length (conns w)))
  /\ (forall pid first last, exists w',
         fetch_pilots pid first last w = Returned tt w'
         /\ disk w' = disk w /\ stdin w' = stdin w
         /\ open_connections w' = open_connections w
         /\ List.length (conns w') = S (List.length (conns w)))
  /\ (forall code name cty ctry, exists w',
         fetch_destinations code name cty ctry w = Returned tt w'
         /\ disk w' = disk w /\ stdin w' = stdin w
         /\ open_connections w' = open_connections w
         /\ List.length (conns w') = S (List.length (conns w))).
Proof.
  assert (K : forall outs,
             disk (after_fetch w outs) = disk w
             /\ stdin (after_fetch w outs) = stdin w
             /\ open_connections (after_fetch w outs) = open_connections w
             /\ List.length (conns (after_fetch w outs))
                = S (List.length (conns w))).
  { intros outs. destruct w as [d cs o i]. unfold after_fetch.
    cbn [disk stdin conns stdout]. rewrite open_connections_closed_last.
    repeat split. rewrite length_app. cbn. lia. }
  split; [|split]; intros; eexists;
    (split; [first [apply fetch_flights_run | apply fetch_pilots_run
                   | apply fetch_destinations_run] | apply K]).
Qed.

Lemma text_column_eq_not_null (column parameter : sqlval) :
  text_column_eq column parameter = true -> column <> SqlNull.
Proof. intros H ->. discriminate H. Qed.

Lemma in_flight_query (acc : criteria) (db : database) (t : tuple) :
  In t (flight_query acc db) <->
  exists r, In r (flight_join db)
            /\ where_holds flight_column_value acc r = true
            /\ t = flight_select r.
Proof.
  unfold flight_query. rewrite in_map_iff. split.
  - intros [r [E H]]. exists r.
    apply (Permutation_in _ (Permutation_sym (order_by_perm _))) in H.
    apply filter_In in H. destruct H. auto.
  - intros [r [H [W E]]]. exists r. split; [now symmetry|].
    apply (Permutation_in _ (order_by_perm _)). apply filter_In. auto.
Qed.

(** X2: a truthy [departure_date] or [flight_status] filter undoes the
    outer join of [fetch_flights]: no flight without a schedule row is
    shown, every row shown carries a departure date and a status. *)
Theorem schedule_filter_hides_unscheduled_flights
    (fn dc ac dd st : pyval) (w : world) :
  truthy dd = true \/ truthy st = true ->
  exists rows,
    fetch_flights fn dc ac dd st w
    = Returned tt (after_fetch w (show_flights rows))
    /\ forall t, In t rows ->
                 departure_date_of t <> SqlNull /\ nth 7 t SqlNull <> SqlNull.
Proof.
  intros H. eexists. split; [apply fetch_flights_run|].
  intros t Ht. apply in_flight_query in Ht. destruct Ht as [r [_ [W ->]]].
  rewrite flight_criteria_holds in W. unfold flight_filters in W.
  repeat (apply andb_prop in W; destruct W as [W ?]).
  assert (S : row_fs r <> None).
  { unfold filter_passes in *. destruct H as [H|H]; rewrite H in *;
      cbn [implb] in *;
      match goal with
      | Q : text_column_eq _ _ = true |- _ =>
          apply text_column_eq_not_null in Q; intros E; apply Q;
          cbn [flight_column_value]; now rewrite E
      end. }
  unfold departure_date_of, flight_select. cbn [nth].
  destruct (row_fs r); [split; discriminate | contradiction].
Qed.

Lemma schedule_filter_hides_unscheduled_flights_witness :
  exists rows,
    fetch_flights PyNone PyNone PyNone PyNone (PyStr "landed") (start seeded [])
    = Returned tt (after_fetch (start seeded []) (show_flights rows))
    /\ forall t, In t rows ->
                 departure_date_of t <> SqlNull /\ nth 7 t SqlNull <> SqlNull.
Proof.
  apply (schedule_filter_hides_unscheduled_flights PyNone PyNone PyNone PyNone
           (PyStr "landed") (start seeded [])).
  right. reflexivity.
Defined.

(** ** [modify_schedule], on every path *)

Lemma Forall2_map_right {A B : Type} (R : A -> B -> Prop) (f : A -> B)
    (l : list A) :
  (forall x, R x (f x)) -> Forall2 R l (map f l).
Proof. intros H. induction l; simpl; constructor; auto. Qed.

Lemma only_schedule_changed_refl (id : option int64) (db : database) :
  only_schedule_changed id db db.
Proof.
  repeat split. rewrite <- (map_id (f_schedule db)) at 2.
  apply Forall2_map_right. auto.
Qed.

Lemma only_schedule_changed_rewrite (id : int64) (ndt nat ns : pyval)
    (db : database) :
  only_schedule_changed (Some id) db
    (rewrite_schedules (has_schedule_ID id) (schedule_after ndt nat ns) db).
Proof.
  repeat split. unfold rewrite_schedules. cbn [f_schedule].
  apply Forall2_map_right. intros s.
  destruct (has_schedule_ID id s); split; auto; discriminate.
Qed.

(** X3: however a call of [modify_schedule] ends (no id given, id not
    found, committed, or refused by the engine), the committed database
    differs from the one before at most in the actual departure time,
    actual arrival time and status of the rows with the given schedule id:
    the other three tables, the number and order of schedule rows, every
    row's id, date, flight and pilot, and every row of another id are as
    before. *)
Theorem modify_schedule_changes_only_its_row (id : option int64)
    (ndt nat ns : pyval) (w : world) :
  only_schedule_changed id (disk w)
    (disk (final (modify_schedule id ndt nat ns w))).
Proof.
  destruct id as [id|]; [|apply only_schedule_changed_refl].
  destruct (schedule_lookup id (disk w)) as [|row rest] eqn:L.
  - rewrite modify_schedule_not_found by exact L.
    apply only_schedule_changed_refl.
  - destruct (modify_schedule_outcome id ndt nat ns w) as [S F];
      [rewrite L; discriminate|].
    destruct (batch_accepted ndt nat ns).
    + destruct (S eq_refl) as [w' [E D]]. rewrite E. cbn [final]. rewrite D.
      apply only_schedule_changed_rewrite.
    + destruct (F eq_refl) as [w' [E D]]. rewrite E. cbn [final]. rewrite D.
      apply only_schedule_changed_refl.
Qed.

Lemma column_after_twice (v : pyval) (old : option string) :
  column_after v (column_after v old) = column_after v old.
Proof.
  unfold column_after. destruct (truthy v); [|reflexivity].
  now destruct (strict_text (bind v)).
Qed.

Lemma column_after_not_null_twice (v : pyval) (old : string) :
  column_after_not_null v (column_after_not_null v old)
  = column_after_not_null v old.
Proof.
  unfold column_after_not_null. destruct (truthy v); [|reflexivity].
  now destruct (strict_text_not_null (bind v)).
Qed.

Lemma existsb_filter_nonempty {A : Type} (m : A -> bool) (t : list A) :
  existsb m t = true -> filter m t <> [].
Proof.
  induction t as [|x t IH]; simpl; [discriminate|].
  destruct (m x); [discriminate | exact IH].
Qed.

Lemma schedule_lookup_after_rewrite (id : int64) (f : schedule -> schedule)
    (db : database) :
  (forall s, has_schedule_ID id (f s) = has_schedule_ID id s) ->
  schedule_lookup id db <> [] ->
  schedule_lookup id (rewrite_schedules (has_schedule_ID id) f db) <> [].
Proof.
  intros Hf L. apply schedule_lookup_exists in L.
  rewrite <- (rewrite_schedules_matches _ f db Hf) in L.
  apply existsb_filter_nonempty in L. unfold schedule_lookup.
  intros E. apply map_eq_nil in E. apply L. exact E.
Qed.

(** X4: [modify_schedule] is idempotent. When a call returns, the same
    call made again in the world it left returns too and commits the same
    database. *)
Theorem modify_schedule_twice (id : option int64) (ndt nat ns : pyval)
    (w w1 : world) :
  modify_schedule id ndt nat ns w = Returned tt w1 ->
  exists w2,
    modify_schedule id ndt nat ns w1 = Returned tt w2 /\ disk w2 = disk w1.
Proof.
  intros R. destruct id as [id|].
  - destruct (schedule_lookup id (disk w)) as [|row rest] eqn:L.
    + rewrite modify_schedule_not_found in R by exact L.
      injection R as <-. eexists.
      split; [rewrite modify_schedule_not_found by exact L|]; reflexivity.
    + assert (N : schedule_lookup id (disk w) <> []) by (rewrite L; discriminate).
      destruct (modify_schedule_outcome id ndt nat ns w N) as [S F].
      destruct (batch_accepted ndt nat ns) eqn:B.
      * destruct (S eq_refl) as [w' [E D]]. rewrite E in R. injection R as <-.
        assert (N1 : schedule_lookup id (disk w') <> []).
        { rewrite D. now apply schedule_lookup_after_rewrite. }
        destruct (modify_schedule_outcome id ndt nat ns w' N1) as [S1 _].
        destruct (S1 B) as [w2 [E2 D2]]. exists w2. split; [exact E2|].
        rewrite D2, D. rewrite rewrite_schedules_twice by reflexivity.
        unfold rewrite_schedules. cbn [d_destination d_pilot d_flight f_schedule].
        f_equal. apply map_ext. intros s.
        destruct (has_schedule_ID id s); [|reflexivity].
        unfold schedule_after.
        cbn [fs_schedule_ID fs_departure_date fs_actual_departure_time
               fs_actual_arrival_time fs_flight_ID fs_pilot_ID fs_status].
        now rewrite !column_after_twice, column_after_not_null_twice.
      * destruct (F eq_refl) as [w' [E _]]. rewrite E in R. discriminate R.
  - cbn in R. injection R as <-. eexists. split; reflexivity.
Qed.

(** On the sample data: schedule 2 marked delayed, twice. *)
Lemma modify_schedule_twice_witness :
  exists w1 w2,
    modify_schedule (Some int64_2) PyNone PyNone (PyStr "delayed")
                    (start seeded [])
    = Returned tt w1
    /\ modify_schedule (Some int64_2) PyNone PyNone (PyStr "delayed") w1
       = Returned tt w2
    /\ disk w2 = disk w1.
Proof.
  eexists. 
  assert (R : modify_schedule (Some int64_2) PyNone PyNone (PyStr "delayed")
                              (start seeded [])
              = Returned tt
                  (final (modify_schedule (Some int64_2) PyNone PyNone
                                          (PyStr "delayed") (start seeded []))))
    by (vm_compute; reflexivity).
  destruct (modify_schedule_twice _ _ _ _ _ _ R) as [w2 [E D]].
  exists w2. split; [exact R | split; assumption].
Defined.

(** ** [modify_destination] *)

Lemma rewrite_destinations_id (m : destination -> bool)
    (f : destination -> destination) (db : database) :
  (forall d, m d = true -> f d = d) -> rewrite_destinations m f db = db.
Proof.
  intros H. destruct db as [dd dp df fs]. unfold rewrite_destinations.
  cbn [d_destination d_pilot d_flight f_schedule]. f_equal.
  rewrite <- (map_id dd) at 2. apply map_ext_in. intros d _.
  destruct (m d) eqn:E; [now apply H | reflexivity].
Qed.

Lemma rewrite_destinations_no_match (m : destination -> bool)
    (f : destination -> destination) (db : database) :
  existsb m (d_destination db) = false -> rewrite_destinations m f db = db.
Proof.
  intros H. destruct db as [dd dp df fs]. unfold rewrite_destinations.
  cbn [d_destination d_pilot d_flight f_schedule] in *. f_equal.
  induction dd as [|d t IH]; [reflexivity|]. cbn [existsb] in H.
  apply orb_false_elim in H. destruct H as [H1 H2]. cbn [map].
  now rewrite H1, IH.
Qed.

Lemma rewrite_destinations_twice (m : destination -> bool)
    (f g : destination -> destination) (db : database) :
  (forall d, m (f d) = m d) ->
  rewrite_destinations m g (rewrite_destinations m f db)
  = rewrite_destinations m (fun d => g (f d)) db.
Proof.
  intros H. unfold rewrite_destinations. simpl. f_equal. rewrite map_map.
  apply map_ext. intros d. destruct (m d) eqn:E; [now rewrite H, E | now rewrite E].
Qed.

Lemma rewrite_destinations_matches (m : destination -> bool)
    (f : destination -> destination) (db : database) :
  (forall d, m (f d) = m d) ->
  existsb m (d_destination (rewrite_destinations m f db))
  = existsb m (d_destination db).
Proof.
  intros H. unfold rewrite_destinations. simpl.
  induction (d_destination db) as [|d t IH]; simpl; [reflexivity|].
  rewrite IH. destruct (m d) eqn:E; [now rewrite H, E | now rewrite E].
Qed.

(** One optional statement of [modify_destination]. *)
Lemma destination_step (m : destination -> bool) (v : pyval)
    (set : pyval -> destination -> option destination)
    (f : pyval -> destination -> destination) (db : database) :
  (forall t d, truthy v = true -> strict_text_not_null (bind v) = Some t ->
               set v d = Some (f v d)) ->
  (forall d, strict_text_not_null (bind v) = None -> set v d = None) ->
  (forall d, truthy v = false -> f v d = d) ->
  (forall d, strict_text_not_null (bind v) = None -> f v d = d) ->
  optional_update v (update_d_destination m (set v)) db
  = if negb (existsb m (d_destination db))
       || (negb (truthy v) || accepted_not_null v)
    then Some (rewrite_destinations m (f v) db)
    else None.
Proof.
  intros Hs Hn Hf Hr. unfold optional_update, accepted_not_null,
    update_d_destination.
  destruct (truthy v) eqn:T; cbn [negb orb].
  - destruct (strict_text_not_null (bind v)) as [t|] eqn:E.
    + rewrite orb_true_r.
      erewrite update_rows_accepted by (intros d; apply (Hs t d eq_refl eq_refl)).
      reflexivity.
    + rewrite orb_false_r. destruct (existsb m (d_destination db)) eqn:X;
        cbn [negb].
      * rewrite update_rows_refused; [reflexivity | | exact X].
        intros d. now apply Hn.
      * rewrite update_rows_no_match by exact X. cbn [option_map].
        f_equal. destruct db as [dd dp df fs].
        cbn [d_destination d_pilot d_flight f_schedule] in *.
        symmetry. apply (rewrite_destinations_no_match m (f v)
                           (Database dd dp df fs)). exact X.
  - rewrite orb_true_r. f_equal. symmetry. apply rewrite_destinations_id.
    intros d _. now apply Hf.
Qed.

Ltac destination_field :=
  unfold set_airport_name, set_city, set_country, airport_name_after,
    city_after, country_after, column_after_not_null;
  intros;
  repeat match goal with
         | H : truthy _ = _ |- _ => rewrite H
         | H : strict_text_not_null _ = _ |- _ => rewrite H
         end;
  try reflexivity;
  match goal with
  | d : destination |- _ => destruct d; cbn; now destruct (truthy _)
  end.

Lemma airport_name_step (m : destination -> bool) (v : pyval) (db : database) :
  optional_update v (update_d_destination m (set_airport_name v)) db
  = if negb (existsb m (d_destination db))
       || (negb (truthy v) || accepted_not_null v)
    then Some (rewrite_destinations m (airport_name_after v) db)
    else None.
Proof. apply (destination_step m v set_airport_name); destination_field. Qed.

Lemma city_step (m : destination -> bool) (v : pyval) (db : database) :
  optional_update v (update_d_destination m (set_city v)) db
  = if negb (existsb m (d_destination db))
       || (negb (truthy v) || accepted_not_null v)
    then Some (rewrite_destinations m (city_after v) db)
    else None.
Proof. apply (destination_step m v set_city); destination_field. Qed.

Lemma country_step (m : destination -> bool) (v : pyval) (db : database) :
  optional_update v (update_d_destination m (set_country v)) db
  = if negb (existsb m (d_destination db))
       || (negb (truthy v) || accepted_not_null v)
    then Some (rewrite_destinations m (country_after v) db)
    else None.
Proof. apply (destination_step m v set_country); destination_field. Qed.

(** The three optional statements one after the other. *)
Lemma modify_destination_batch (code name cty ctry : pyval) (db : database) :
  match
    optional_update name
      (update_d_destination (has_destination_code code) (set_airport_name name))
      db
  with
  | Some d1 =>
      match
        optional_update cty
          (update_d_destination (has_destination_code code) (set_city cty)) d1
      with
      | Some d2 =>
          optional_update ctry
            (update_d_destination (has_destination_code code)
               (set_country ctry)) d2
      | None => None
      end
  | None => None
  end
  = if destination_batch_accepted code name cty ctry db
    then Some (rewrite_destinations (has_destination_code code)
                 (destination_after name cty ctry) db)
    else None.
Proof.
  unfold destination_batch_accepted.
  rewrite airport_name_step.
  destruct (existsb (has_destination_code code) (d_destination db)) eqn:X;
    cbn [negb orb].
  - destruct (negb (truthy name) || accepted_not_null name); [|reflexivity].
    rewrite city_step, rewrite_destinations_matches, X by reflexivity.
    cbn [negb orb].
    destruct (negb (truthy cty) || accepted_not_null cty); [|reflexivity].
    rewrite country_step, !rewrite_destinations_matches, X by reflexivity.
    cbn [negb orb andb].
    destruct (negb (truthy ctry) || accepted_not_null ctry); [|reflexivity].
    rewrite !rewrite_destinations_twice by reflexivity. reflexivity.
  - rewrite city_step, rewrite_destinations_matches, X by reflexivity.
    cbn [negb orb].
    rewrite country_step, !rewrite_destinations_matches, X by reflexivity.
    cbn [negb orb].
    rewrite !rewrite_destinations_twice by reflexivity. reflexivity.
Qed.

Lemma call_upper_code (code code' : pyval) :
  upper_code code = Some code' -> call_upper code = ret code'.
Proof. destruct code; cbn; intros E; now inversion E. Qed.

Lemma upper_code_passed (code code' : pyval) :
  upper_code code = Some code' -> is_None code = false.
Proof. now destruct code. Qed.

(** An optional statement run on a connection opened before the last one,
    inside its transaction. *)
Lemma when_update_before (v : pyval) (u : database -> option database)
    (d0 d : database) (cs r : list connection) (n : nat) (o : list output)
    (i : list string) :
  when (truthy v) (execute_update (List.length cs) u)
       (World d0 ((cs ++ [Connection true (Some d) n]) ++ r) o i)
  = match optional_update v u d with
    | Some d' =>
        Returned tt
          (World d0 ((cs ++ [Connection true (Some d')
                                        (if truthy v then S n else n)]) ++ r)
                 o i)
    | None =>
        Raised IntegrityError
               (World d0 ((cs ++ [Connection true (Some d) (S n)]) ++ r) o i)
    end.
Proof.
  unfold optional_update, when, execute_update, on_open, set_conn, set_conns,
    view, ret.
  destruct (truthy v); [|reflexivity].
  cbn [conns disk stdout stdin]. rewrite nth_error_before.
  cbn [conn_open conn_txn conn_executed].
  destruct (u d); now rewrite replace_nth_before.
Qed.

Ltac on_before :=
  unfold execute_select, execute_begin, commit,
    close_connection, cursor_close, connection_close, on_open, set_conn,
    set_conns, set_disk, view, print, emit, ret;
  cbn [conns disk stdout stdin conn_open conn_txn conn_executed];
  rewrite ?nth_error_before2, ?nth_error_before;
  cbn [conn_open conn_txn conn_executed conns disk stdout stdin];
  rewrite ?replace_nth_before2, ?replace_nth_before.

(** The outcome of [modify_destination] for a code that has [upper]. *)
Lemma modify_destination_outcome (code code' name cty ctry : pyval) (w : world) :
  upper_code code = Some code' ->
  (destination_batch_accepted code' name cty ctry (disk w) = true ->
   exists n,
     modify_destination code name cty ctry w
     = Returned tt
         (World (rewrite_destinations (has_destination_code code')
                   (destination_after name cty ctry) (disk w))
                (conns w ++ [Connection false None n; Connection false None 1;
                             Connection false None 1])
                (stdout w
                 ++ Print (Retrieving_destination_information code')
                 :: show_destinations
                      (destination_query
                         (destination_criteria code' PyNone PyNone PyNone)
                         (disk w))
                 ++ Print (Updating_destination_information code')
                 :: Print (You_have_updated code')
                 :: show_destinations
                      (destination_query
                         (destination_criteria code' PyNone PyNone PyNone)
                         (rewrite_destinations (has_destination_code code')
                            (destination_after name cty ctry) (disk w))))
                (stdin w)))
  /\ (destination_batch_accepted code' name cty ctry (disk w) = false ->
      exists pending n,
        modify_destination code name cty ctry w
        = Raised IntegrityError
            (World (disk w)
                   (conns w ++ [Connection true (Some pending) n;
                                Connection false None 1])
                   (stdout w
                    ++ Print (Retrieving_destination_information code')
                    :: show_destinations
                         (destination_query
                            (destination_criteria code' PyNone PyNone PyNone)
                            (disk w))
                    ++ [Print (Updating_destination_information code')])
                   (stdin w))).
Proof.
  intros U. pose proof (modify_destination_batch code' name cty ctry (disk w)) as B.
  destruct w as [d cs o i]. cbn [disk conns stdout stdin] in *.
  assert (P : modify_destination code name cty ctry (World d cs o i)
             = (try_except
                  (execute_begin (List.length cs) ;;
                   when (truthy name)
                        (execute_update (List.length cs)
                           (update_d_destination (has_destination_code code')
                              (set_airport_name name))) ;;
                   when (truthy cty)
                        (execute_update (List.length cs)
                           (update_d_destination (has_destination_code code')
                              (set_city cty))) ;;
                   when (truthy ctry)
                        (execute_update (List.length cs)
                           (update_d_destination (has_destination_code code')
                              (set_country ctry))) ;;
                   commit (List.length cs) ;;
                   print (You_have_updated code') ;;
                   fetch_destinations code' PyNone PyNone PyNone)
                  ValueError (print Please_check_your_inputs) ;;
                close_connection (List.length cs))
                 (World d
                    ((cs ++ [Connection true None 0])
                     ++ [Connection false None 1])
                    ((o ++ [Print (Retrieving_destination_information code')]
                      ++ show_destinations
                           (destination_query
                              (destination_criteria code' PyNone PyNone PyNone)
                              d))
                     ++ [Print (Updating_destination_information code')])
                    i)).
  { unfold modify_destination. rewrite (upper_code_passed _ _ U).
    rewrite (call_upper_code _ _ U). unfold open_connection, connect.
    unfold seq at 1. unfold set_conns. cbn [conns disk stdout stdin].
    unfold seq at 1. unfold ret at 1.
    unfold seq at 1. unfold print at 1, emit at 1. cbn [conns disk stdout stdin].
    unfold seq at 1. rewrite fetch_destinations_run. unfold after_fetch.
    cbn [conns disk stdout stdin].
    unfold seq at 1. unfold print at 1, emit at 1. cbn [conns disk stdout stdin].
    rewrite <- (app_assoc o). reflexivity. }
  rewrite P. clear P.
  split; intros A; rewrite A in B;
    unfold seq at 1; unfold try_except;
    unfold seq at 1; unfold execute_begin at 1; on_before;
    unfold seq at 1; rewrite when_update_before;
    (destruct (optional_update name _ d) as [d1|] eqn:E1;
     [unfold seq at 1; rewrite when_update_before;
      destruct (optional_update cty _ d1) as [d2|] eqn:E2;
      [unfold seq at 1; rewrite when_update_before;
       destruct (optional_update ctry _ d2) as [d3|] eqn:E3|]|]);
    try discriminate B.
  - injection B as ->. eexists.
    unfold seq. on_before.
    rewrite fetch_destinations_run. unfold after_fetch.
    cbn [conns disk stdout stdin]. repeat on_before.
    rewrite <- !app_assoc. cbn [app]. reflexivity.
  - cbn [exn_eqb]. rewrite <- ?app_assoc. cbn [app]. do 2 eexists. reflexivity.
  - cbn [exn_eqb]. rewrite <- ?app_assoc. cbn [app]. do 2 eexists. reflexivity.
  - cbn [exn_eqb]. rewrite <- ?app_assoc. cbn [app]. do 2 eexists. reflexivity.
Qed.

Lemma open_connections_app (d : database) (cs r : list connection)
    (o : list output) (i : list string) :
  open_connections (World d (cs ++ r) o i)
  = filter conn_open cs ++ filter conn_open r.
Proof. unfold open_connections. cbn [conns]. apply filter_app. Qed.





Lemma upper_ascii_twice (c : ascii) : upper_ascii (upper_ascii c) = upper_ascii c.
Proof.
  destruct c as [[] [] [] [] [] [] [] []]; vm_compute; reflexivity.
Qed.

Lemma upper_twice (s : string) : upper (upper s) = upper s.
Proof.
  induction s as [|c s IH]; cbn [upper]; [reflexivity|].
  now rewrite upper_ascii_twice, IH.
Qed.

(** X6: [modify_destination] takes the code in any letter case. Two
    codes that differ only in the case of their ASCII letters give the
    same run, it is the upper-case code that is looked up and updated. *)
Theorem modify_destination_ignores_case_of_code
    (s s' : string) (name cty ctry : pyval) (w : world) :
  upper s = upper s' ->
  modify_destination (PyStr s) name cty ctry w
  = modify_destination (PyStr s') name cty ctry w
  /\ modify_destination (PyStr s) name cty ctry w
     = modify_destination (PyStr (upper s)) name cty ctry w.
Proof.
  intros E. unfold modify_destination. cbn [is_None call_upper].
  rewrite upper_twice, E. split; reflexivity.
Qed.

(** The codes "ema" and "EMA". *)
Lemma modify_destination_ignores_case_of_code_witness :
  modify_destination (PyStr "ema") (PyStr "East Midlands Airport Central")
                     PyNone PyNone (start seeded [])
  = modify_destination (PyStr "EMA") (PyStr "East Midlands Airport Central")
                       PyNone PyNone (start seeded [])
  /\ modify_destination (PyStr "ema") (PyStr "East Midlands Airport Central")
                        PyNone PyNone (start seeded [])
     = modify_destination (PyStr (upper "ema"))
                          (PyStr "East Midlands Airport Central")
                          PyNone PyNone (start seeded []).
Proof.
  apply (modify_destination_ignores_case_of_code "ema" "EMA"). reflexivity.
Defined.

(** X7: the three updates of [modify_destination] are committed
    together or not at all, for a code that is a [bytes] value or a [str]
    of ASCII characters and in a world where no connection holds a
    transaction. When the engine takes every statement, the call returns,
    every row with the upper-cased code holds each truthy value and the
    connection is closed. When the engine refuses one (a bytes value for
    a row that exists), the IntegrityError is not caught by the
    [except ValueError] clause: the call raises, nothing is committed, no
    message about the inputs is printed, and the connection stays open
    with its transaction pending. *)
Theorem modify_destination_all_or_nothing
    (code code' name cty ctry : pyval) (w : world) :
  upper_code code = Some code' ->
  ascii_code code = true ->
  unlocked w = true ->
  (destination_batch_accepted code' name cty ctry (disk w) = true ->
   exists w',
     modify_destination code name cty ctry w = Returned tt w'
     /\ disk w' = rewrite_destinations (has_destination_code code')
                    (destination_after name cty ctry) (disk w)
     /\ open_connections w' = open_connections w)
  /\ (destination_batch_accepted code' name cty ctry (disk w) = false ->
      exists w' pending n,
        modify_destination code name cty ctry w = Raised IntegrityError w'
        /\ disk w' = disk w
        /\ ~ In (Print Please_check_your_inputs) (written_since w w')
        /\ open_connections w'
           = open_connections w ++ [Connection true (Some pending) n]).
Proof.
  intros U _ _.
  destruct (modify_destination_outcome code code' name cty ctry w U) as [S F].
  split; intros A.
  - destruct (S A) as [n R]. rewrite R. eexists. split; [reflexivity|].
    split; [reflexivity|].
    destruct w as [d cs o i]. cbn [conns]. rewrite open_connections_app.
    cbn [filter conn_open]. apply app_nil_r.
  - destruct (F A) as [pending [n R]]. rewrite R. exists (final (Raised (A:=unit) IntegrityError
      (World (disk w)
         (conns w ++ [Connection true (Some pending) n; Connection false None 1])
         (stdout w
          ++ Print (Retrieving_destination_information code')
          :: show_destinations
               (destination_query
                  (destination_criteria code' PyNone PyNone PyNone) (disk w))
          ++ [Print (Updating_destination_information code')])
         (stdin w)))), pending, n.
    cbn [final]. split; [reflexivity|]. split; [reflexivity|]. split.
    + erewrite written_since_app by reflexivity. unfold show_destinations.
      cbn [In app]. intros [H|[H|[H|[H|H]]]]; try discriminate H; exact H.
    + destruct w as [d cs o i]. cbn [conns]. rewrite open_connections_app.
      reflexivity.
Qed.

(** On the sample data: East Midlands renamed; and a bytes city refused. *)
Lemma modify_destination_all_or_nothing_witness :
  (exists w',
      modify_destination (PyStr "ema") (PyStr "East Midlands Airport Central")
                         PyNone PyNone (start seeded [])
      = Returned tt w'
      /\ disk w' = rewrite_destinations (has_destination_code (PyStr "EMA"))
                     (destination_after (PyStr "East Midlands Airport Central")
                        PyNone PyNone)
                     (disk (start seeded []))
      /\ open_connections w' = open_connections (start seeded []))
  /\ (exists w' pending n,
         modify_destination (PyStr "BRS") (PyStr "Bristol") (PyBytes "Paris")
                            PyNone (start seeded [])
         = Raised IntegrityError w'
         /\ disk w' = disk (start seeded [])
         /\ ~ In (Print Please_check_your_inputs)
                 (written_since (start seeded []) w')
         /\ open_connections w'
            = open_connections (start seeded [])
              ++ [Connection true (Some pending) n]).
Proof.
  split.
  - apply (modify_destination_all_or_nothing (PyStr "ema") (PyStr "EMA")
             (PyStr "East Midlands Airport Central") PyNone PyNone
             (start seeded [])); vm_compute; reflexivity.
  - apply (modify_destination_all_or_nothing (PyStr "BRS") (PyStr "BRS")
             (PyStr "Bristol") (PyBytes "Paris") PyNone (start seeded []));
      vm_compute; reflexivity.
Defined.

(** The outcome of [modify_destination] for a code without [upper]. *)
Lemma modify_destination_integer_code (i : int64) (name cty ctry : pyval)
    (w : world) :
  modify_destination (PyInt i) name cty ctry w
  = Raised AttributeError
           (World (disk w) (conns w ++ [Connection true None 0]) (stdout w)
                  (stdin w)).
Proof. reflexivity. Qed.

(** X8: however a call of [modify_destination] ends (no code, a code
    without [upper], committed, refused), the committed database keeps
    its destination codes, in number and order, and its pilots, flights
    and schedule rows: only names, cities and countries can differ. *)
Theorem modify_destination_changes_only_details
    (code name cty ctry : pyval) (w : world) :
  only_destination_details_changed (disk w)
    (disk (final (modify_destination code name cty ctry w))).
Proof.
  destruct (upper_code code) as [code'|] eqn:U.
  - destruct (modify_destination_outcome code code' name cty ctry w U) as [S F].
    destruct (destination_batch_accepted code' name cty ctry (disk w)).
    + destruct (S eq_refl) as [n R]. rewrite R. cbn [final disk].
      unfold only_destination_details_changed, rewrite_destinations.
      cbn [d_destination d_pilot d_flight f_schedule].
      repeat split. rewrite map_map. apply map_ext. intros d.
      now destruct (has_destination_code code' d).
    + destruct (F eq_refl) as [pending [n R]]. rewrite R. cbn [final disk].
      repeat split.
  - destruct code; try discriminate U; repeat split.
Qed.

(** ** [assign_pilot], whatever the operator answers *)

Lemma nth_error_middle {A : Type} (l r : list A) (x : A) :
  nth_error (l ++ x :: r) (List.length l) = Some x.
Proof.
  rewrite nth_error_app2 by apply Nat.le_refl. now rewrite Nat.sub_diag.
Qed.

Lemma replace_nth_middle {A : Type} (l r : list A) (x y : A) :
  replace_nth (List.length l) y (l ++ x :: r) = l ++ y :: r.
Proof.
  induction l as [|h t IH]; simpl; [reflexivity | now rewrite IH].
Qed.

(** The closing statements of the loop body, run with a connection that is
    still open, and with one that is closed. *)
Lemma loop_tail_on_open (pid fn dd dc ac : pyval) (d : database)
    (cs r : list connection) (n : nat) (o : list output) (i : list string) :
  loop_tail (List.length cs) pid fn dd dc ac
            (World d (cs ++ Connection true None n :: r) o i)
  = Returned tt
      (World d
             (cs ++ Connection false None n
                 :: r ++ [Connection false None 1; Connection false None 1])
             (o ++ loop_tail_output pid fn dd dc ac d) i).
Proof.
  unfold loop_tail, print, emit.
  unfold seq at 1. cbn [conns disk stdout stdin].
  unfold seq at 1. rewrite fetch_pilots_run. unfold after_fetch.
  cbn [conns disk stdout stdin].
  unfold seq at 1. cbn [conns disk stdout stdin].
  unfold seq at 1. rewrite fetch_flights_run. unfold after_fetch.
  cbn [conns disk stdout stdin].
  rewrite <- !app_assoc. cbn [app].
  unfold close_connection, cursor_close, connection_close, on_open, set_conn,
    set_conns, seq.
  cbn [conns disk stdout stdin]. rewrite nth_error_middle.
  cbn [conn_open conn_executed conns disk stdout stdin].
  rewrite nth_error_middle, replace_nth_middle. reflexivity.
Qed.

Lemma loop_tail_on_closed (pid fn dd dc ac : pyval) (d : database)
    (cs r : list connection) (n : nat) (o : list output) (i : list string) :
  loop_tail (List.length cs) pid fn dd dc ac
            (World d (cs ++ Connection false None n :: r) o i)
  = Raised ProgrammingError
      (World d
             (cs ++ Connection false None n
                 :: r ++ [Connection false None 1; Connection false None 1])
             (o ++ loop_tail_output pid fn dd dc ac d) i).
Proof.
  unfold loop_tail, print, emit.
  unfold seq at 1. cbn [conns disk stdout stdin].
  unfold seq at 1. rewrite fetch_pilots_run. unfold after_fetch.
  cbn [conns disk stdout stdin].
  unfold seq at 1. cbn [conns disk stdout stdin].
  unfold seq at 1. rewrite fetch_flights_run. unfold after_fetch.
  cbn [conns disk stdout stdin].
  rewrite <- !app_assoc. cbn [app].
  unfold close_connection, cursor_close, connection_close, on_open, set_conn,
    set_conns, seq.
  cbn [conns disk stdout stdin]. rewrite nth_error_middle.
  cbn [conn_open conn_executed conns disk stdout stdin]. reflexivity.
Qed.

Lemma unrecognised_turn (n h : nat) (pid fn dd dc ac : pyval) (w : world)
    (line : string) (rest : list string) :
  stdin w = line :: rest ->
  unrecognised line = true ->
  confirmation_loop (S n) h pid fn dd dc ac w
  = (loop_tail h pid fn dd dc ac ;; confirmation_loop n h pid fn dd dc ac)
      (World (disk w) (conns w)
             (stdout w ++ [Print (Shall_I_assign pid fn)]) rest).
Proof.
  intros I U. rewrite (confirmation_turn _ _ _ _ _ _ _ _ line rest) by exact I.
  cbn zeta. unfold unrecognised in U. apply andb_prop in U. destruct U as [U1 U2].
  apply negb_true_iff in U1, U2. now rewrite U1, U2.
Qed.

Lemma no_prompt_in_loop_tail_output (pid fn dd dc ac : pyval) (d : database) :
  filter is_prompt (loop_tail_output pid fn dd dc ac d) = [].
Proof.
  unfold loop_tail_output, show_pilots, show_flights. cbn [filter is_prompt app].
  now destruct (nonempty _), (nonempty _).
Qed.

Lemma no_prompt_before_loop (pid fn dd dc ac : pyval) (w : world) :
  filter is_prompt (written_since w (loop_entry pid fn dd dc ac w)) = [].
Proof.
  erewrite written_since_app by reflexivity.
  unfold show_pilots, show_flights. cbn [filter is_prompt app].
  now destruct (nonempty _), (nonempty _).
Qed.

(** X9: the re-prompt works once. For any pilot and complete flight
    details, when the first two lines the operator types are both
    unrecognised, [assign_pilot] raises ProgrammingError at the second,
    after asking twice; the database is unchanged and the lines that
    follow are left unread. *)
Theorem assign_pilot_second_unrecognised_raises
    (pid fn dd dc ac : pyval) (w : world) (first second : string)
    (rest : list string) :
  is_None pid = false ->
  forallb truthy [fn; dd; dc; ac] = true ->
  stdin w = first :: second :: rest ->
  unrecognised first = true ->
  unrecognised second = true ->
  exists w',
    assign_pilot pid fn dd dc ac w = Raised ProgrammingError w'
    /\ disk w' = disk w
    /\ stdin w' = rest
    /\ prompts w w' = 2%nat.
Proof.
  intros N T I U1 U2. rewrite assign_pilot_enters_loop by assumption.
  rewrite I. cbn [List.length].
  rewrite (unrecognised_turn _ _ _ _ _ _ _ _ first (second :: rest))
    by assumption.
  unfold seq at 1. cbn [loop_entry disk conns stdout stdin].
  rewrite loop_tail_on_open.
  rewrite (unrecognised_turn _ _ _ _ _ _ _ _ second rest)
    by (cbn [stdin]; assumption || reflexivity).
  unfold seq at 1. cbn [disk conns stdout stdin].
  rewrite loop_tail_on_closed.
  eexists. split; [reflexivity|]. split; [reflexivity|]. split; [reflexivity|].
  unfold prompts. erewrite written_since_app.
  2:{ cbn [stdout]. rewrite <- !app_assoc. reflexivity. }
  rewrite !filter_app. cbn [filter is_prompt app].
  rewrite !no_prompt_in_loop_tail_output.
  unfold show_pilots, show_flights. cbn [filter is_prompt app].
  now destruct (nonempty _), (nonempty _).
Qed.

(** On the sample data, with two hesitant answers before a "yes". *)
Lemma assign_pilot_second_unrecognised_raises_witness :
  exists w',
    assign_pilot (PyStr "P0010007") (PyStr "SI2207") (PyStr "2025-04-21")
                 (PyStr "Exeter") (PyStr "Jersey")
                 (start seeded ["y"; ""; "yes"])
    = Raised ProgrammingError w'
    /\ disk w' = disk (start seeded ["y"; ""; "yes"])
    /\ stdin w' = ["yes"]%string
    /\ prompts (start seeded ["y"; ""; "yes"]) w' = 2%nat.
Proof.
  apply (assign_pilot_second_unrecognised_raises (PyStr "P0010007")
           (PyStr "SI2207") (PyStr "2025-04-21") (PyStr "Exeter")
           (PyStr "Jersey") (start seeded ["y"; ""; "yes"]) "y" "" ["yes"]);
    reflexivity.
Defined.

Lemma update_rows_all_refused {R : Type} (m : R -> bool) (set : R -> option R)
    (t t' : list R) :
  (forall r, set r = None) -> update_rows m set t = Some t' -> t' = t.
Proof.
  intros H. revert t'. induction t as [|r t IH]; intros t' E; simpl in E.
  - now injection E.
  - destruct (m r); [now rewrite H in E|].
    destruct (update_rows m set t) as [u|]; [|discriminate E].
    injection E as <-. now rewrite (IH u eq_refl).
Qed.

(** What [pilot_assignment] can make of a database. *)
Lemma pilot_assignment_result (pid : pyval) (fid : Z) (dd : pyval)
    (db db' : database) :
  pilot_assignment pid fid dd db = Some db' ->
  db' = db
  \/ db' = rewrite_schedules (on_flight_and_date fid dd)
                             (with_pilot (pilot_reference pid)) db.
Proof.
  destruct (accepted pid) eqn:A.
  - rewrite pilot_assignment_accepted by exact A. intros E. right. now injection E.
  - unfold accepted in A. unfold pilot_assignment, update_f_schedule.
    destruct (strict_text (bind pid)) eqn:S; [discriminate A|].
    destruct (update_rows _ _ (f_schedule db)) as [t|] eqn:E; [|discriminate].
    intros Q. injection Q as <-. left.
    apply update_rows_all_refused in E.
    + rewrite E. now destruct db.
    + intros r. unfold set_pilot_id. now rewrite S.
Qed.

Lemma begin_last (d : database) (cs : list connection) (n : nat)
    (o : list output) (i : list string) :
  execute_begin (List.length cs) (World d (cs ++ [Connection true None n]) o i)
  = Returned tt (World d (cs ++ [Connection true (Some d) (S n)]) o i).
Proof. repeat on_last'. reflexivity. Qed.

Lemma update_last (u : database -> option database) (d0 d : database)
    (cs : list connection) (n : nat) (o : list output) (i : list string) :
  execute_update (List.length cs) u
                 (World d0 (cs ++ [Connection true (Some d) n]) o i)
  = match u d with
    | Some d' =>
        Returned tt (World d0 (cs ++ [Connection true (Some d') (S n)]) o i)
    | None =>
        Raised IntegrityError
               (World d0 (cs ++ [Connection true (Some d) (S n)]) o i)
    end.
Proof.
  unfold execute_update, on_open, set_conn, set_conns, view.
  cbn [conns disk stdout stdin]. rewrite nth_error_last.
  cbn [conn_open conn_txn conn_executed].
  destruct (u d); now rewrite replace_nth_last.
Qed.

Lemma commit_last (d0 d : database) (cs : list connection) (n : nat)
    (o : list output) (i : list string) :
  commit (List.length cs) (World d0 (cs ++ [Connection true (Some d) n]) o i)
  = Returned tt (World d (cs ++ [Connection true None n]) o i).
Proof. repeat on_last'. reflexivity. Qed.

Lemma confirmed_result (pid fn dd dc ac : pyval) (w : world) :
  assigned_or_unchanged pid fn dd dc ac (disk w)
                        (disk (final (confirmed pid fn dd dc ac w))).
Proof.
  unfold confirmed. rewrite select_on_new_connection.
  destruct (flight_id_lookup fn dc ac (disk w)) as [|fid others] eqn:L.
  - left. reflexivity.
  - destruct w as [d cs o i]. cbn [disk conns stdout stdin] in *.
    unfold seq at 1. rewrite begin_last.
    unfold seq at 1. rewrite update_last.
    destruct (pilot_assignment pid fid dd d) as [d'|] eqn:P; [|now left].
    unfold seq at 1. rewrite commit_last.
    unfold seq at 1. unfold print at 1, emit at 1.
    cbn [conns disk stdout stdin].
    match goal with
    | |- context [loop_tail ?h ?a ?b ?c ?e ?f ?x] =>
        destruct (reads_only_loop_tail h a b c e f x) as [D _]
    end.
    cbn [disk] in D. rewrite D.
    destruct (pilot_assignment_result _ _ _ _ _ P) as [->| ->];
      [now left | right; exists fid, others; auto].
Qed.

Lemma loop_result (pid fn dd dc ac : pyval) (n h : nat) (w : world) :
  assigned_or_unchanged pid fn dd dc ac (disk w)
    (disk (final (confirmation_loop n h pid fn dd dc ac w))).
Proof.
  revert w. induction n as [|n IH]; intros w; [now left|].
  destruct (stdin w) as [|line rest] eqn:I.
  - rewrite confirmation_eof by exact I. now left.
  - rewrite (confirmation_turn _ _ _ _ _ _ _ _ _ _ I). cbn zeta.
    destruct (lower line =? "no")%string; [now left|].
    destruct (lower line =? "yes")%string.
    + apply (confirmed_result pid fn dd dc ac
               (World (disk w) (conns w)
                      (stdout w ++ [Print (Shall_I_assign pid fn)]) rest)).
    + unfold seq.
      match goal with |- context [loop_tail ?a ?b ?c ?d ?e ?f ?g] =>
        destruct (reads_only_loop_tail a b c d e f g) as [D _];
        destruct (loop_tail a b c d e f g) as [u w'|e' w'] end;
        cbn [final disk] in *; [|now left].
      rewrite <- D. apply IH.
Qed.

(** X10: whatever the arguments and whatever the operator types, the
    database [assign_pilot] leaves is either the one it found or that one
    with the pilot reference set on the schedule rows of the first flight
    found, on the given date. No run touches destinations, pilots or
    flights, adds or removes a schedule row, or changes another column. *)
Theorem assign_pilot_result (pid fn dd dc ac : pyval) (w : world) :
  assigned_or_unchanged pid fn dd dc ac (disk w)
                        (disk (final (assign_pilot pid fn dd dc ac w))).
Proof.
  destruct (is_None pid) eqn:N.
  - destruct pid; try discriminate N. rewrite assign_pilot_missing_pilot.
    now left.
  - destruct (forallb truthy [fn; dd; dc; ac]) eqn:T.
    + rewrite assign_pilot_enters_loop by assumption.
      apply (loop_result pid fn dd dc ac _ _ (loop_entry pid fn dd dc ac w)).
    + rewrite assign_pilot_incomplete by assumption. now left.
Qed.

(** X11: [assign_pilot] with a pilot id but one of the four flight
    details missing or falsy reports IncompleteCriteria after showing the
    pilot's schedule: it asks nothing, reads nothing from the operator,
    and leaves the database unchanged. *)
Theorem assign_pilot_incomplete_details_reported
    (pid fn dd dc ac : pyval) (w : world) :
  is_None pid = false ->
  forallb truthy [fn; dd; dc; ac] = false ->
  exists w',
    assign_pilot pid fn dd dc ac w = Returned tt w'
    /\ reports IncompleteCriteria w w'
    /\ prompts w w' = 0%nat
    /\ stdin w' = stdin w
    /\ disk w' = disk w.
Proof.
  intros N T. eexists. split; [now apply assign_pilot_incomplete|].
  split; [|split; [|split; reflexivity]].
  - exists Please_provide_flight_details. split; [|reflexivity].
    erewrite written_since_app by reflexivity.
    right. apply in_or_app. right. now left.
  - unfold prompts. erewrite written_since_app by reflexivity.
    unfold show_pilots. cbn [filter is_prompt app].
    now destruct (nonempty _).
Qed.

(** On the sample data: the arrival city left out, and an empty date. *)
Lemma assign_pilot_incomplete_details_reported_witness :
  (exists w',
      assign_pilot (PyStr "P0010007") (PyStr "SI2207") (PyStr "2025-04-21")
                   (PyStr "Exeter") PyNone (start seeded ["yes"])
      = Returned tt w'
      /\ reports IncompleteCriteria (start seeded ["yes"]) w'
      /\ prompts (start seeded ["yes"]) w' = 0%nat
      /\ stdin w' = stdin (start seeded ["yes"])
      /\ disk w' = disk (start seeded ["yes"]))
  /\ (exists w',
         assign_pilot (PyStr "P0010007") (PyStr "SI2207") (PyStr "")
                      (PyStr "Exeter") (PyStr "Jersey") (start seeded ["yes"])
         = Returned tt w'
         /\ reports IncompleteCriteria (start seeded ["yes"]) w'
         /\ prompts (start seeded ["yes"]) w' = 0%nat
         /\ stdin w' = stdin (start seeded ["yes"])
         /\ disk w' = disk (start seeded ["yes"])).
Proof.
  split.
  - apply (assign_pilot_incomplete_details_reported (PyStr "P0010007")
             (PyStr "SI2207") (PyStr "2025-04-21") (PyStr "Exeter") PyNone
             (start seeded ["yes"])); reflexivity.
  - apply (assign_pilot_incomplete_details_reported (PyStr "P0010007")
             (PyStr "SI2207") (PyStr "") (PyStr "Exeter") (PyStr "Jersey")
             (start seeded ["yes"])); reflexivity.
Defined.

(** ** Pilot assignment *)

(** The WHERE clause of the UPDATE keeps the rows of the flight on the
    date. *)
Lemma on_flight_and_date_flown_on (fid : Z) (dd : pyval) (s : schedule) :
  on_flight_and_date fid dd s = flown_on fid dd s.
Proof.
  unfold on_flight_and_date, flown_on, text_column_eq, of_text.
  destruct dd; cbn [bind text_affinity sql_eq is_true];
    destruct (fs_flight_ID s =? fid); cbn [andb]; try reflexivity.
  - now destruct (fs_departure_date s =? s0)%string.
  - now destruct (fs_departure_date s =? text_of_Z (int64_val i))%string.
Qed.

Lemma pilot_assignment_on_flight (pid : pyval) (fid : Z) (dd : pyval)
    (db : database) :
  accepted pid = true ->
  pilot_assignment pid fid dd db
  = Some (rewrite_schedules (flown_on fid dd)
                            (with_pilot (pilot_reference pid)) db).
Proof.
  intros A. rewrite pilot_assignment_accepted by exact A.
  unfold rewrite_schedules. do 2 f_equal. apply map_ext. intros s.
  now rewrite on_flight_and_date_flown_on.
Qed.

(** The branch taken on "yes", when a flight matches and the engine takes
    the pilot id: whatever connection the loop held, the assignment runs
    on a connection of its own, which the closing statements close. *)
Lemma confirmed_assigns (pid fn dd dc ac : pyval) (w : world) (fid : Z)
    (others : list Z) :
  flight_id_lookup fn dc ac (disk w) = fid :: others ->
  accepted pid = true ->
  let db := rewrite_schedules (flown_on fid dd)
                              (with_pilot (pilot_reference pid)) (disk w) in
  confirmed pid fn dd dc ac w
  = Returned tt
      (World db
             (conns w ++ [Connection false None 3; Connection false None 1;
                          Connection false None 1])
             (stdout w ++ Print (Assigned_successfully pid)
                       :: loop_tail_output pid fn dd dc ac db)
             (stdin w)).
Proof.
  intros L A db. unfold confirmed. rewrite select_on_new_connection, L.
  destruct w as [d cs o i]. cbn [disk conns stdout stdin] in *.
  unfold seq at 1. rewrite begin_last.
  unfold seq at 1. rewrite update_last.
  rewrite pilot_assignment_on_flight by exact A. fold db.
  unfold seq at 1. rewrite commit_last.
  unfold seq at 1. unfold print at 1, emit at 1. cbn [conns disk stdout stdin].
  rewrite loop_tail_on_open. cbn [app]. rewrite <- app_assoc. reflexivity.
Qed.

Lemma yes_turn (n h : nat) (pid fn dd dc ac : pyval) (w : world)
    (line : string) (rest : list string) :
  stdin w = line :: rest ->
  affirmative line = true ->
  confirmation_loop (S n) h pid fn dd dc ac w
  = confirmed pid fn dd dc ac
      (World (disk w) (conns w)
             (stdout w ++ [Print (Shall_I_assign pid fn)]) rest).
Proof.
  intros I Y. rewrite (confirmation_turn _ _ _ _ _ _ _ _ line rest) by exact I.
  cbn zeta. unfold affirmative in Y. apply String.eqb_eq in Y. rewrite Y.
  reflexivity.
Qed.

(** The outcome of [assign_pilot] when the operator confirms, at once or
    after one answer that is neither token, and a flight matches. *)
Lemma assign_pilot_confirmed (pid fn dd dc ac : pyval) (w : world)
    (hesitation : list string) (line : string) (rest : list string)
    (fid : Z) (others : list Z) :
  is_None pid = false ->
  forallb truthy [fn; dd; dc; ac] = true ->
  stdin w = hesitation ++ line :: rest ->
  (List.length hesitation <= 1)%nat ->
  forallb unrecognised hesitation = true ->
  affirmative line = true ->
  flight_id_lookup fn dc ac (disk w) = fid :: others ->
  accepted pid = true ->
  exists w',
    assign_pilot pid fn dd dc ac w = Returned tt w'
    /\ disk w' = rewrite_schedules (flown_on fid dd)
                                   (with_pilot (pilot_reference pid)) (disk w)
    /\ stdin w' = rest
    /\ In (Print (Assigned_successfully pid)) (written_since w w')
    /\ (forall m, In (Print m) (written_since w w') -> reported m = None).
Proof.
  intros N T I H U Y L A. rewrite assign_pilot_enters_loop by assumption.
  destruct hesitation as [|u [|u' hesitation]]; [| |cbn in H; lia].
  - cbn [app] in I. rewrite I. cbn [List.length].
    rewrite (yes_turn _ _ _ _ _ _ _ _ line rest) by (assumption || exact I).
    rewrite (confirmed_assigns pid fn dd dc ac _ fid others)
      by (cbn [disk]; assumption).
    eexists. split; [reflexivity|]. cbn [disk stdin stdout loop_entry].
    split; [reflexivity|]. split; [reflexivity|].
    erewrite written_since_app.
    2:{ cbn [stdout]. rewrite <- !app_assoc. reflexivity. }
    split.
    + rewrite !in_app_iff. cbn [In]. auto 20.
    + intros m M. unfold loop_tail_output in M. each_line M.
  - cbn [app] in I. cbn [forallb] in U. rewrite andb_true_r in U.
    rewrite I. cbn [List.length].
    rewrite (unrecognised_turn _ _ _ _ _ _ _ _ u (line :: rest))
      by assumption.
    unfold seq at 1. cbn [loop_entry disk conns stdout stdin].
    rewrite loop_tail_on_open.
    rewrite (yes_turn _ _ _ _ _ _ _ _ line rest)
      by (cbn [stdin]; assumption || reflexivity).
    cbn [disk conns stdout stdin].
    rewrite (confirmed_assigns pid fn dd dc ac _ fid others)
      by (cbn [disk]; assumption).
    eexists. split; [reflexivity|]. cbn [disk stdin stdout].
    split; [reflexivity|]. split; [reflexivity|].
    erewrite written_since_app.
    2:{ cbn [stdout]. rewrite <- !app_assoc. reflexivity. }
    split.
    + rewrite !in_app_iff. cbn [In]. auto 20.
    + intros m M. unfold loop_tail_output in M. each_line M.
Qed.

(** C10: once the operator has confirmed (at the first prompt, or at the
    second after one answer that is neither token) and the flight
    resolution has found a flight, the UPDATE of [assign_pilot] (with a
    pilot id the engine takes for the column, in a world where no
    connection holds a transaction) writes the pilot reference to every
    row of [f_schedule] with that flight id and departure date, be they
    none, one or several, and to no other row; the call commits, reports
    the pilot as assigned and reports no condition at all, NotFound
    included, even when no row matched. When the resolution finds more
    than one flight the first one fetched is used and nothing is said
    about the others. *)
Theorem assign_pilot_updates_every_matching_row
    (pid fn dd dc ac : pyval) (w : world) (hesitation : list string)
    (line : string) (rest : list string) (fid : Z) (others : list Z) :
  is_None pid = false ->
  forallb truthy [fn; dd; dc; ac] = true ->
  stdin w = hesitation ++ line :: rest ->
  (List.length hesitation <= 1)%nat ->
  forallb unrecognised hesitation = true ->
  affirmative line = true ->
  flight_id_lookup fn dc ac (disk w) = fid :: others ->
  accepted pid = true ->
  unlocked w = true ->
  exists w',
    assign_pilot pid fn dd dc ac w = Returned tt w'
    /\ d_destination (disk w') = d_destination (disk w)
    /\ d_pilot (disk w') = d_pilot (disk w)
    /\ d_flight (disk w') = d_flight (disk w)
    /\ f_schedule (disk w')
       = map (fun s => if flown_on fid dd s
                       then with_pilot (pilot_reference pid) s else s)
             (f_schedule (disk w))
    /\ In (Print (Assigned_successfully pid)) (written_since w w')
    /\ (forall m, In (Print m) (written_since w w') -> reported m = None).
Proof.
  intros N T I H U Y L A _.
  destruct (assign_pilot_confirmed pid fn dd dc ac w hesitation line rest fid
              others N T I H U Y L A) as [w' (R & D & _ & P & Q)].
  exists w'. split; [exact R|]. rewrite D.
  repeat (split; [reflexivity|]). now split.
Qed.

(** On the sample data, flight SI2207 (id 6) of 2025-04-21 is schedule
    row 4, flown by P0010002. Confirmed at the second prompt, the
    assignment of P0010007 rewrites that row and no other; for a date
    without a row of the flight it rewrites none and still reports the
    pilot as assigned. *)
Lemma assign_pilot_updates_every_matching_row_witness :
  (exists w',
      assign_pilot (PyStr "P0010007") (PyStr "SI2207") (PyStr "2025-04-21")
                   (PyStr "Exeter") (PyStr "Jersey")
                   (start seeded ["maybe"; "Yes"])
      = Returned tt w'
      /\ map (fun s => (fs_schedule_ID s, fs_pilot_ID s)) (f_schedule (disk w'))
         = [(1, Some "P0010001"); (2, Some "P0010001"); (3, Some "P0010002");
            (4, Some "P0010007"); (5, Some "P0010002"); (6, Some "P0010002");
            (7, Some "P0010003"); (8, Some "P0010003"); (9, Some "P0010004");
            (10, None); (11, None)]
      /\ In (Print (Assigned_successfully (PyStr "P0010007")))
            (written_since (start seeded ["maybe"; "Yes"]) w'))
  /\ (exists w',
         assign_pilot (PyStr "P0010007") (PyStr "SI2207") (PyStr "2031-01-01")
                      (PyStr "Exeter") (PyStr "Jersey") (start seeded ["yes"])
         = Returned tt w'
         /\ f_schedule (disk w') = f_schedule seeded
         /\ In (Print (Assigned_successfully (PyStr "P0010007")))
               (written_since (start seeded ["yes"]) w')
         /\ (forall m, In (Print m) (written_since (start seeded ["yes"]) w') ->
                       reported m = None)).
Proof.
  split.
  - destruct (assign_pilot_updates_every_matching_row (PyStr "P0010007")
                (PyStr "SI2207") (PyStr "2025-04-21") (PyStr "Exeter")
                (PyStr "Jersey") (start seeded ["maybe"; "Yes"]) ["maybe"] "Yes"
                [] 6 [] eq_refl eq_refl eq_refl (le_n 1) eq_refl eq_refl eq_refl
                eq_refl eq_refl)
      as [w' (R & _ & _ & _ & S & P & _)].
    exists w'. split; [exact R|]. split; [|exact P].
    rewrite S. reflexivity.
  - destruct (assign_pilot_updates_every_matching_row (PyStr "P0010007")
                (PyStr "SI2207") (PyStr "2031-01-01") (PyStr "Exeter")
                (PyStr "Jersey") (start seeded ["yes"]) [] "yes"
                [] 6 [] eq_refl eq_refl eq_refl (le_S 0 0 (le_n 0)) eq_refl
                eq_refl eq_refl eq_refl eq_refl)
      as [w' (R & _ & _ & _ & S & P & Q)].
    exists w'. split; [exact R|]. split; [|split; [exact P | exact Q]].
    rewrite S. reflexivity.
Defined.

(** ** The seed loader *)

Section InsertUntilRefused.
Context {R K : Type}.
Variables (key : R -> K) (eqb : K -> K -> bool).
Variables (tbl : database -> list R) (set : list R -> database -> database).
Variable add : R -> list R -> list R.
Variable ins : R -> database -> option database.
Hypothesis eqb_eq : forall a b, eqb a b = true <-> a = b.
Hypothesis ins_def :
  forall r db,
    ins r db = if existsb (fun q => eqb (key q) (key r)) (tbl db) then None
               else Some (set (add r (tbl db)) db).
Hypothesis add_exists :
  forall (g : R -> bool) r t, existsb g (add r t) = existsb g t || g r.
Hypothesis tbl_set : forall t db, tbl (set t db) = t.
Hypothesis set_set : forall t t' db, set t (set t' db) = set t db.
Hypothesis set_tbl : forall db, set (tbl db) db = db.

Let fresh (db : database) (r : R) : bool :=
  negb (existsb (fun q => eqb (key q) (key r)) (tbl db)).

Lemma other_key (r r' : R) : key r <> key r' -> eqb (key r) (key r') = false.
Proof.
  intros H. destruct (eqb (key r) (key r')) eqn:E; [|reflexivity].
  now apply eqb_eq in E.
Qed.

(** The rows are added one by one up to the first whose key the table
    holds; the keys of the rows added so far are not those of the rows to
    come. *)
Lemma insert_until_refused_from (db : database) (rows t : list R) :
  NoDup (map key rows) ->
  (forall r, In r rows ->
     existsb (fun q => eqb (key q) (key r)) t
     = existsb (fun q => eqb (key q) (key r)) (tbl db)) ->
  insert_until_refused ins rows (set t db)
  = (set (fold_left (fun t r => add r t) (take_while (fresh db) rows) t) db,
     forallb (fresh db) rows).
Proof.
  revert t. induction rows as [|r rows IH]; intros t N H; [reflexivity|].
  cbn [insert_until_refused take_while forallb]. rewrite ins_def, tbl_set.
  rewrite (H r (or_introl eq_refl)). unfold fresh at 1 3.
  destruct (existsb _ (tbl db)) eqn:E; cbn [negb andb fold_left];
    [reflexivity|].
  rewrite set_set. inversion N as [|? ? Hn N']; subst.
  apply IH; [exact N'|]. intros r' Hr'.
  rewrite add_exists, (H r' (or_intror Hr')).
  rewrite other_key; [apply orb_false_r|].
  intros Q. apply Hn. rewrite Q. now apply in_map.
Qed.

Lemma insert_until_refused_after (db : database) (rows : list R) :
  NoDup (map key rows) ->
  insert_until_refused ins rows db
  = (set (fold_left (fun t r => add r t) (take_while (fresh db) rows) (tbl db))
         db,
     forallb (fresh db) rows).
Proof.
  intros N. rewrite <- (set_tbl db) at 1.
  now apply insert_until_refused_from.
Qed.

End InsertUntilRefused.

Lemma fold_left_snoc {A : Type} (l t : list A) :
  fold_left (fun t r => t ++ [r]) l t = t ++ l.
Proof.
  revert t. induction l as [|x l IH]; intros t; cbn [fold_left].
  - now rewrite app_nil_r.
  - rewrite IH, <- app_assoc. reflexivity.
Qed.

Lemma existsb_snoc {A : Type} (g : A -> bool) (r : A) (t : list A) :
  existsb g (t ++ [r]) = existsb g t || g r.
Proof. rewrite existsb_app. cbn [existsb]. now rewrite orb_false_r. Qed.

(** *** Tables kept in key order *)

Section Place.
Context {R : Type}.
Variable key : R -> Z.

Lemma existsb_place (g : R -> bool) (r : R) (t : list R) :
  existsb g (airline_database.place key r t) = existsb g t || g r.
Proof.
  induction t as [|q t IH]; cbn [airline_database.place existsb].
  - now rewrite orb_false_r.
  - destruct (key r <? key q); cbn [existsb].
    + destruct (g r), (g q), (existsb g t); reflexivity.
    + rewrite IH. now rewrite orb_assoc.
Qed.

Lemma existsb_placed (g : R -> bool) (rows t : list R) :
  existsb g (placed key rows t) = existsb g t || existsb g rows.
Proof.
  unfold placed. revert t.
  induction rows as [|r rows IH]; intros t; cbn [fold_left existsb].
  - now rewrite orb_false_r.
  - rewrite IH, existsb_place. now rewrite orb_assoc.
Qed.

Lemma place_perm (r : R) (t : list R) :
  Permutation (airline_database.place key r t) (t ++ [r]).
Proof.
  induction t as [|q t IH]; cbn [airline_database.place app]; [reflexivity|].
  destruct (key r <? key q).
  - change (q :: t ++ [r]) with ((q :: t) ++ [r]).
    apply Permutation_cons_append.
  - now apply perm_skip.
Qed.

Lemma placed_perm (rows t : list R) :
  Permutation (placed key rows t) (t ++ rows).
Proof.
  unfold placed. revert t.
  induction rows as [|r rows IH]; intros t; cbn [fold_left].
  - now rewrite app_nil_r.
  - rewrite IH. rewrite (place_perm r t), <- app_assoc. reflexivity.
Qed.

Lemma place_in_key_order (r : R) (t : list R) :
  in_key_order key t -> ~ In (key r) (map key t) ->
  in_key_order key (airline_database.place key r t).
Proof.
  unfold in_key_order.
  induction 1 as [|q t S IH F]; cbn [airline_database.place map In]; intros N.
  - repeat constructor.
  - destruct (Z.ltb_spec (key r) (key q)) as [L|L].
    + constructor; [now constructor|]. constructor; [exact L|].
      rewrite Forall_forall in *. intros x Hx. specialize (F x Hx). lia.
    + constructor; [apply IH; tauto|].
      rewrite Forall_forall in *. intros x Hx.
      apply (Permutation_in _ (place_perm r t)) in Hx.
      apply in_app_or in Hx. destruct Hx as [Hx|[<-|[]]]; [now apply F|].
      assert (key q <> key r) by tauto. lia.
Qed.

Lemma placed_in_key_order (rows t : list R) :
  in_key_order key t ->
  NoDup (map key rows) ->
  (forall r, In r rows -> ~ In (key r) (map key t)) ->
  in_key_order key (placed key rows t).
Proof.
  unfold placed. revert t.
  induction rows as [|r rows IH]; intros t S N H; cbn [fold_left];
    [exact S|].
  inversion N as [|? ? Hn N']; subst.
  apply IH; [apply place_in_key_order; [exact S | apply H; now left]
            | exact N' |].
  intros r' Hr' I. apply in_map_iff in I. destruct I as [x [E Hx]].
  apply (Permutation_in _ (place_perm r t)) in Hx.
  apply in_app_or in Hx. destruct Hx as [Hx|[<-|[]]].
  - apply (H r' (or_intror Hr')). rewrite <- E. now apply in_map.
  - apply Hn. rewrite E. now apply in_map.
Qed.

End Place.

Lemma take_while_prefix {A : Type} (f : A -> bool) (l : list A) :
  exists rest, l = take_while f l ++ rest.
Proof.
  induction l as [|x l [rest IH]]; [now exists []|]. cbn [take_while].
  destruct (f x); [exists rest; cbn; now f_equal | now exists (x :: l)].
Qed.

Lemma take_while_holds {A : Type} (f : A -> bool) (l : list A) (x : A) :
  In x (take_while f l) -> f x = true.
Proof.
  induction l as [|y l IH]; cbn [take_while]; [intros []|].
  destruct (f y) eqn:E; [|intros []]. intros [<-|H]; [exact E | now apply IH].
Qed.

Lemma take_while_distinct {A K : Type} (key : A -> K) (f : A -> bool)
    (l : list A) :
  NoDup (map key l) -> NoDup (map key (take_while f l)).
Proof.
  intros N. destruct (take_while_prefix f l) as [rest E].
  rewrite E, map_app in N. now apply NoDup_app_remove_r in N.
Qed.

Lemma absent_key {A : Type} (key : A -> Z) (t : list A) (k : Z) :
  existsb (fun q => key q =? k) t = false -> ~ In k (map key t).
Proof.
  intros E I. apply in_map_iff in I. destruct I as [q [Q I]].
  assert (H : existsb (fun q => key q =? k) t = true).
  { apply existsb_exists. exists q. split; [exact I | now apply Z.eqb_eq]. }
  congruence.
Qed.

Ltac distinct_keys :=
  cbn; repeat (constructor; [cbn; intuition discriminate|]); constructor.

Lemma sample_keys_distinct :
  NoDup (map dp_pilot_ID airline_database.pilots)
  /\ NoDup (map dd_destination_code airline_database.destinations)
  /\ NoDup (map df_flight_ID airline_database.flights)
  /\ NoDup (map fs_schedule_ID airline_database.schedule_rows).
Proof. repeat split; distinct_keys. Qed.

Lemma load_pilots (db : database) :
  insert_until_refused airline_database.insert_pilot airline_database.pilots db
  = (Database (d_destination db)
              (d_pilot db ++ take_while (new_pilot db) airline_database.pilots)
              (d_flight db) (f_schedule db),
     forallb (new_pilot db) airline_database.pilots).
Proof.
  rewrite (insert_until_refused_after dp_pilot_ID String.eqb d_pilot
             (fun t d => Database (d_destination d) t (d_flight d)
                                  (f_schedule d))
             (fun r t => t ++ [r])
             airline_database.insert_pilot String.eqb_eq
             (fun r d => eq_refl) (fun g r t => existsb_snoc g r t)
             (fun t d => eq_refl) (fun t t' d => eq_refl)
             (fun d => match d with Database _ _ _ _ => eq_refl end));
    [|apply sample_keys_distinct].
  now rewrite fold_left_snoc.
Qed.

Lemma load_destinations (db : database) :
  insert_until_refused airline_database.insert_destination
                       airline_database.destinations db
  = (Database (d_destination db
               ++ take_while (new_destination db) airline_database.destinations)
              (d_pilot db) (d_flight db) (f_schedule db),
     forallb (new_destination db) airline_database.destinations).
Proof.
  rewrite (insert_until_refused_after dd_destination_code String.eqb
             d_destination
             (fun t d => Database t (d_pilot d) (d_flight d) (f_schedule d))
             (fun r t => t ++ [r])
             airline_database.insert_destination String.eqb_eq
             (fun r d => eq_refl) (fun g r t => existsb_snoc g r t)
             (fun t d => eq_refl) (fun t t' d => eq_refl)
             (fun d => match d with Database _ _ _ _ => eq_refl end));
    [|apply sample_keys_distinct].
  now rewrite fold_left_snoc.
Qed.

Lemma load_flights (db : database) :
  insert_until_refused airline_database.insert_flight airline_database.flights db
  = (Database (d_destination db) (d_pilot db)
              (placed df_flight_ID
                      (take_while (new_flight db) airline_database.flights)
                      (d_flight db))
              (f_schedule db),
     forallb (new_flight db) airline_database.flights).
Proof.
  rewrite (insert_until_refused_after df_flight_ID Z.eqb d_flight
             (fun t d => Database (d_destination d) (d_pilot d) t
                                  (f_schedule d))
             (airline_database.place df_flight_ID)
             airline_database.insert_flight Z.eqb_eq
             (fun r d => eq_refl) (existsb_place df_flight_ID)
             (fun t d => eq_refl) (fun t t' d => eq_refl)
             (fun d => match d with Database _ _ _ _ => eq_refl end));
    [|apply sample_keys_distinct].
  reflexivity.
Qed.

Lemma load_schedule (db : database) :
  insert_until_refused airline_database.insert_schedule
                       airline_database.schedule_rows db
  = (Database (d_destination db) (d_pilot db) (d_flight db)
              (placed fs_schedule_ID
                      (take_while (new_schedule db)
                                  airline_database.schedule_rows)
                      (f_schedule db)),
     forallb (new_schedule db) airline_database.schedule_rows).
Proof.
  rewrite (insert_until_refused_after fs_schedule_ID Z.eqb f_schedule
             (fun t d => Database (d_destination d) (d_pilot d) (d_flight d) t)
             (airline_database.place fs_schedule_ID)
             airline_database.insert_schedule Z.eqb_eq
             (fun r d => eq_refl) (existsb_place fs_schedule_ID)
             (fun t d => eq_refl) (fun t t' d => eq_refl)
             (fun d => match d with Database _ _ _ _ => eq_refl end));
    [|apply sample_keys_distinct].
  reflexivity.
Qed.

(** [executemany] on the connection opened last, outside a transaction. *)
Lemma executemany_insert_last {R : Type} (ins : R -> database -> option database)
    (rows : list R) (d : database) (cs : list connection) (n : nat)
    (o : list output) (i : list string) :
  exists n',
    executemany_insert (List.length cs) ins rows
                       (World d (cs ++ [Connection true None n]) o i)
    = (if snd (insert_until_refused ins rows d)
       then Returned tt else Raised IntegrityError)
        (World (fst (insert_until_refused ins rows d))
               (cs ++ [Connection true None n']) o i).
Proof.
  revert d n. induction rows as [|r rows IH]; intros d n.
  - exists n. cbn [executemany_insert insert_until_refused fst snd].
    unfold on_open. cbn [conns]. now rewrite nth_error_last.
  - cbn [executemany_insert insert_until_refused]. unfold on_open.
    cbn [conns disk]. rewrite nth_error_last. cbn [conn_open conn_txn conn_executed].
    destruct (ins r d) as [d'|].
    + unfold set_conn, set_conns, set_disk. cbn [conns disk stdout stdin].
      rewrite replace_nth_last. apply IH.
    + exists n. reflexivity.
Qed.

(** One table of [load_sample_data]. *)
Lemma load_table {R : Type} (ins : R -> database -> option database)
    (rows : list R) (m : message) (d : database) (cs : list connection)
    (n : nat) (o : list output) (i : list string) :
  exists n',
    try_except (executemany_insert (List.length cs) ins rows) IntegrityError
               (print m) (World d (cs ++ [Connection true None n]) o i)
    = Returned tt
        (World (fst (insert_until_refused ins rows d))
               (cs ++ [Connection true None n'])
               (o ++ if snd (insert_until_refused ins rows d) then []
                     else [Print m])
               i).
Proof.
  destruct (executemany_insert_last ins rows d cs n o i) as [n' E].
  exists n'. unfold try_except. rewrite E.
  destruct (snd (insert_until_refused ins rows d)).
  - now rewrite app_nil_r.
  - reflexivity.
Qed.

(** The outcome of [load_sample_data]. *)
Lemma load_sample_data_run (w : world) :
  exists n,
    airline_database.load_sample_data w
    = Returned tt
        (World (loaded (disk w)) (conns w ++ [Connection false None n])
               (stdout w ++ load_report (disk w)) (stdin w)).
Proof.
  destruct w as [d cs o i]. cbn [disk conns stdout stdin].
  unfold airline_database.load_sample_data, airline_database.open_connection,
    connect.
  unfold seq at 1. unfold set_conns. cbn [conns disk stdout stdin].
  destruct (load_table airline_database.insert_pilot airline_database.pilots
              (Already_entered "d_pilot") d cs 0 o i) as [n1 E1].
  unfold seq at 1. rewrite E1. rewrite load_pilots. cbn [fst snd].
  match goal with |- context [World ?d1 (cs ++ [Connection true None n1]) ?o1 i] =>
    destruct (load_table airline_database.insert_destination
                airline_database.destinations
                (Already_entered "d_destination") d1 cs n1 o1 i) as [n2 E2]
  end.
  unfold seq at 1. rewrite E2. rewrite load_destinations. cbn [fst snd].
  match goal with |- context [World ?d1 (cs ++ [Connection true None n2]) ?o1 i] =>
    destruct (load_table airline_database.insert_flight
                airline_database.flights Data_entry_failed d1 cs n2 o1 i)
      as [n3 E3]
  end.
  unfold seq at 1. rewrite E3. rewrite load_flights. cbn [fst snd].
  match goal with |- context [World ?d1 (cs ++ [Connection true None n3]) ?o1 i] =>
    destruct (load_table airline_database.insert_schedule
                airline_database.schedule_rows
                (Already_entered "f_schedule") d1 cs n3 o1 i) as [n4 E4]
  end.
  unfold seq at 1. rewrite E4. rewrite load_schedule. cbn [fst snd].
  exists n4. unfold airline_database.close_connection.
  repeat on_last'.
  cbn [d_destination d_pilot d_flight f_schedule].
  unfold loaded, load_report, new_pilot, new_destination, new_flight,
    new_schedule.
  cbn [d_destination d_pilot d_flight f_schedule].
  rewrite <- !app_assoc. reflexivity.
Qed.

(** X12: on a database file that has the four tables, in a world where
    no connection holds a transaction, [load_sample_data] returns without
    raising, with its connection closed. Each table holds the rows it
    held and the sample rows that precede the first one whose primary key
    the table already held: a duplicate key stops the loading of its own
    table only (the rows before it stay inserted), and one message is
    printed for each table that was stopped. The new rows stand at the
    end of [d_pilot] and [d_destination]; [d_flight] and [f_schedule],
    which are kept in the order of their integer key, stay in that
    order. *)
Theorem load_sample_data_adds_until_duplicate (w : world) :
  unlocked w = true ->
  exists w',
    airline_database.load_sample_data w = Returned tt w'
    /\ open_connections w' = open_connections w
    /\ d_pilot (disk w')
       = d_pilot (disk w)
         ++ take_while (new_pilot (disk w)) airline_database.pilots
    /\ d_destination (disk w')
       = d_destination (disk w)
         ++ take_while (new_destination (disk w)) airline_database.destinations
    /\ Permutation
         (d_flight (disk w'))
         (d_flight (disk w)
          ++ take_while (new_flight (disk w)) airline_database.flights)
    /\ (in_key_order df_flight_ID (d_flight (disk w)) ->
        in_key_order df_flight_ID (d_flight (disk w')))
    /\ Permutation
         (f_schedule (disk w'))
         (f_schedule (disk w)
          ++ take_while (new_schedule (disk w)) airline_database.schedule_rows)
    /\ (in_key_order fs_schedule_ID (f_schedule (disk w)) ->
        in_key_order fs_schedule_ID (f_schedule (disk w')))
    /\ written_since w w'
       = (if forallb (new_pilot (disk w)) airline_database.pilots then []
          else [Print (Already_entered "d_pilot")])
         ++ (if forallb (new_destination (disk w)) airline_database.destinations
             then [] else [Print (Already_entered "d_destination")])
         ++ (if forallb (new_flight (disk w)) airline_database.flights
             then [] else [Print Data_entry_failed])
         ++ (if forallb (new_schedule (disk w)) airline_database.schedule_rows
             then [] else [Print (Already_entered "f_schedule")]).
Proof.
  intros _. destruct (load_sample_data_run w) as [n R]. rewrite R. eexists.
  split; [reflexivity|]. split.
  { destruct w as [d cs o i]. cbn [conns]. apply open_connections_closed_last. }
  cbn [disk loaded d_pilot d_destination d_flight f_schedule].
  split; [reflexivity|]. split; [reflexivity|].
  split; [apply placed_perm|]. split.
  { intros S. apply placed_in_key_order;
      [exact S | apply take_while_distinct, sample_keys_distinct |].
    intros r Hr. apply take_while_holds in Hr. unfold new_flight in Hr.
    apply negb_true_iff in Hr. now apply absent_key. }
  split; [apply placed_perm|]. split.
  { intros S. apply placed_in_key_order;
      [exact S | apply take_while_distinct, sample_keys_distinct |].
    intros r Hr. apply take_while_holds in Hr. unfold new_schedule in Hr.
    apply negb_true_iff in Hr. now apply absent_key. }
  erewrite written_since_app by reflexivity. reflexivity.
Qed.

(** On a database that holds one flight, of id 20, and nothing else: the
    fifteen sample flights take their place before it. *)
Lemma load_sample_data_adds_until_duplicate_witness :
  exists w',
    airline_database.load_sample_data
      (start (Database [] [] [Flight 20 "SI9999" "JER" "GCI" "10:00" "11:00"] [])
             [])
    = Returned tt w'
    /\ d_pilot (disk w') = airline_database.pilots
    /\ d_destination (disk w') = airline_database.destinations
    /\ Permutation
         (d_flight (disk w'))
         (Flight 20 "SI9999" "JER" "GCI" "10:00" "11:00"
          :: airline_database.flights)
    /\ in_key_order df_flight_ID (d_flight (disk w'))
    /\ in_key_order fs_schedule_ID (f_schedule (disk w'))
    /\ written_since
         (start (Database [] []
                          [Flight 20 "SI9999" "JER" "GCI" "10:00" "11:00"] [])
                [])
         w' = [].
Proof.
  destruct (load_sample_data_adds_until_duplicate
              (start (Database [] []
                               [Flight 20 "SI9999" "JER" "GCI" "10:00" "11:00"]
                               [])
                     []) eq_refl)
    as [w' (R & _ & P & D & F & FO & _ & SO & W)].
  exists w'. split; [exact R|]. split; [exact P|]. split; [exact D|].
  split; [exact F|]. split; [|split; [|exact W]].
  - apply FO. repeat constructor.
  - apply SO. constructor.
Defined.

Lemma stops_at_first {A : Type} (f : A -> bool) (l : list A) (x : A)
    (r : list A) :
  l = x :: r -> f x = false -> take_while f l = [] /\ forallb f l = false.
Proof. intros -> H. cbn. now rewrite H. Qed.

Lemma first_present {A : Type} (g : A -> bool) (t : list A) (f : A -> bool)
    (x : A) (l : list A) :
  f x = negb (existsb g t) -> g x = true ->
  existsb g t || existsb g (take_while f (x :: l)) = true.
Proof.
  intros Hf Hg. cbn [take_while]. rewrite Hf.
  destruct (existsb g t); [reflexivity|]. cbn. now rewrite Hg.
Qed.

Ltac first_key_present :=
  unfold loaded, new_pilot, new_destination, new_flight, new_schedule;
  cbn [d_destination d_pilot d_flight f_schedule];
  unfold airline_database.pilots, airline_database.destinations,
    airline_database.flights, airline_database.schedule_rows;
  cbn [hd]; apply negb_false_iff;
  rewrite ?existsb_app, ?existsb_placed; apply first_present; reflexivity.

Lemma loaded_twice (db : database) :
  loaded (loaded db) = loaded db
  /\ load_report (loaded db)
     = [Print (Already_entered "d_pilot");
        Print (Already_entered "d_destination");
        Print Data_entry_failed;
        Print (Already_entered "f_schedule")].
Proof.
  assert (P : new_pilot (loaded db) (hd (Pilot "" "" "" "" "" 0)
                                        airline_database.pilots) = false)
    by first_key_present.
  assert (D : new_destination (loaded db)
                (hd (Destination "" "" "" "") airline_database.destinations)
              = false)
    by first_key_present.
  assert (F : new_flight (loaded db)
                (hd (Flight 0 "" "" "" "" "") airline_database.flights)
              = false)
    by first_key_present.
  assert (S : new_schedule (loaded db)
                (hd (Schedule 0 "" None None 0 None "")
                    airline_database.schedule_rows)
              = false)
    by first_key_present.
  destruct (stops_at_first _ airline_database.pilots _
              (tl airline_database.pilots) eq_refl P) as [P1 P2].
  destruct (stops_at_first _ airline_database.destinations _
              (tl airline_database.destinations) eq_refl D) as [D1 D2].
  destruct (stops_at_first _ airline_database.flights _
              (tl airline_database.flights) eq_refl F) as [F1 F2].
  destruct (stops_at_first _ airline_database.schedule_rows _
              (tl airline_database.schedule_rows) eq_refl S) as [S1 S2].
  unfold load_report. unfold loaded at 1.
  rewrite P1, P2, D1, D2, F1, F2, S1, S2. rewrite !app_nil_r.
  unfold placed. cbn [fold_left].
  split; [now destruct (loaded db) | reflexivity].
Qed.

(** X13: loading the sample data twice is loading it once. Whatever
    the rows of the four tables, in a world where no connection holds a
    transaction, a second [load_sample_data] right after a first leaves
    every table as the first left it and prints the four duplicate
    messages; the one for [d_flight] is the general message, because the
    text tested for names the column [flight_id] in lower case. *)
Theorem load_sample_data_twice (w : world) :
  unlocked w = true ->
  exists w1 w2,
    airline_database.load_sample_data w = Returned tt w1
    /\ airline_database.load_sample_data w1 = Returned tt w2
    /\ disk w2 = disk w1
    /\ written_since w1 w2
       = [Print (Already_entered "d_pilot");
          Print (Already_entered "d_destination");
          Print Data_entry_failed;
          Print (Already_entered "f_schedule")].
Proof.
  intros _. destruct (load_sample_data_run w) as [n R]. rewrite R.
  eexists. destruct (load_sample_data_run
                       (World (loaded (disk w)) (conns w ++ [Connection false None n])
                              (stdout w ++ load_report (disk w)) (stdin w)))
    as [n' R'].
  eexists. split; [reflexivity|]. split; [exact R'|].
  cbn [disk stdout]. destruct (loaded_twice (disk w)) as [L M].
  split; [exact L|]. erewrite written_since_app by reflexivity. exact M.
Qed.

(** On an empty database: the first load gives the sample database. *)
Lemma load_sample_data_twice_witness :
  exists w1 w2,
    airline_database.load_sample_data (start empty_database []) = Returned tt w1
    /\ airline_database.load_sample_data w1 = Returned tt w2
    /\ disk w1 = seeded
    /\ disk w2 = disk w1
    /\ written_since w1 w2
       = [Print (Already_entered "d_pilot");
          Print (Already_entered "d_destination");
          Print Data_entry_failed;
          Print (Already_entered "f_schedule")].
Proof.
  destruct (load_sample_data_twice (start empty_database []) eq_refl)
    as [w1 [w2 (R1 & R2 & D & W)]].
  exists w1, w2. split; [exact R1|]. split; [exact R2|].
  split; [|split; [exact D | exact W]].
  revert R1. vm_compute. intros R1. now injection R1 as <-.
Defined.

(** * The summaries *)

Lemma unassigned_flights_run (w : world) :
  unassigned_flights w
  = Returned [if unassigned (disk w) =? 0 then No_flights_lacking_pilot
              else if unassigned (disk w) =? 1
                   then One_flight_lacking_pilot (unassigned (disk w))
                   else Flights_lacking_pilot (unassigned (disk w))]
             (World (disk w) (conns w ++ [Connection false None 1])
                    (stdout w) (stdin w)).
Proof.
  destruct w as [d cs o i].
  unfold unassigned_flights, execute_scalar, open_connection, connect.
  repeat on_last. reflexivity.
Qed.

Lemma flights_per_pilot_run (w : world) :
  flights_per_pilot w
  = Returned (Summarising_pilots
              :: map (fun row => Pilot_assigned_to (fst (fst (fst row)))
                                                   (snd (fst (fst row)))
                                                   (snd (fst row)) (snd row))
                     (flights_per_pilot_query (disk w)))
             (World (disk w) (conns w ++ [Connection false None 1])
                    (stdout w) (stdin w)).
Proof.
  destruct w as [d cs o i].
  unfold flights_per_pilot, open_connection, connect.
  repeat on_last. reflexivity.
Qed.

Lemma flights_per_destination_run (w : world) :
  flights_per_destination w
  = Returned (Summarising_destinations
              :: map (fun row => Destination_served_by (fst (fst (fst row)))
                                                       (snd (fst (fst row)))
                                                       (snd (fst row)) (snd row))
                     (flights_per_destination_query (disk w)))
             (World (disk w) (conns w ++ [Connection false None 1])
                    (stdout w) (stdin w)).
Proof.
  destruct w as [d cs o i].
  unfold flights_per_destination, open_connection, connect.
  repeat on_last. reflexivity.
Qed.

Lemma count_of_unassigned_line (n : Z) :
  count_of (if n =? 0 then No_flights_lacking_pilot
            else if n =? 1 then One_flight_lacking_pilot n
                 else Flights_lacking_pilot n) = n.
Proof.
  destruct (Z.eqb_spec n 0) as [->|]; [reflexivity|]. now destruct (n =? 1).
Qed.

(** ** Grouping *)

Section GroupFacts.
Context {K P : Type}.
Variable eqb : K -> K -> bool.
Hypothesis eqb_eq : forall a b, eqb a b = true <-> a = b.

Lemma eqb_neq (a b : K) : eqb a b = false <-> a <> b.
Proof.
  split.
  - intros E H. apply eqb_eq in H. congruence.
  - intros H. destruct (eqb a b) eqn:E; [|reflexivity].
    now apply eqb_eq in E.
Qed.

Lemma rows_of_snoc (k : K) (rows : list (K * P)) (r : K * P) :
  rows_of eqb k (rows ++ [r])
  = rows_of eqb k rows + (if eqb (fst r) k then 1 else 0).
Proof.
  unfold rows_of. rewrite filter_app, length_app. cbn [filter].
  destruct (eqb (fst r) k); cbn [List.length]; lia.
Qed.

Lemma rows_of_absent (k : K) (rows : list (K * P)) :
  (forall r, In r rows -> fst r <> k) -> rows_of eqb k rows = 0.
Proof.
  intros H. unfold rows_of.
  induction rows as [|r rows IH]; [reflexivity|]. cbn [filter].
  destruct (eqb (fst r) k) eqn:E.
  - apply eqb_eq in E. exfalso. apply (H r); [now left | exact E].
  - apply IH. intros r' Hr'. apply H. now right.
Qed.

Lemma rows_of_present (k : K) (p : P) (rows : list (K * P)) :
  In (k, p) rows -> 1 <= rows_of eqb k rows.
Proof.
  intros H. unfold rows_of.
  assert (I : In (k, p) (filter (fun r => eqb (fst r) k) rows)).
  { apply filter_In. split; [exact H|]. now apply eqb_eq. }
  destruct (filter _ rows); [destruct I | cbn [List.length]; lia].
Qed.

Lemma bump_keys (k : K) (p : P) (gs : list (K * P * Z)) (k' : K) :
  In k' (map group_key (bump eqb k p gs))
  <-> k' = k \/ In k' (map group_key gs).
Proof.
  induction gs as [|[[k0 p0] n0] gs IH]; cbn [bump map In].
  - unfold group_key. cbn. intuition.
  - destruct (eqb k k0) eqn:E; cbn [map In]; unfold group_key in *; cbn [fst] in *.
    + apply eqb_eq in E. subst k0. intuition.
    + rewrite IH. intuition.
Qed.

Lemma bump_nodup (k : K) (p : P) (gs : list (K * P * Z)) :
  NoDup (map group_key gs) -> NoDup (map group_key (bump eqb k p gs)).
Proof.
  induction gs as [|[[k0 p0] n0] gs IH]; cbn [bump map]; intros N.
  - constructor; [intros [] | constructor].
  - inversion N as [|x l Hx Hl]; subst.
    destruct (eqb k k0) eqn:E; cbn [map].
    + constructor; assumption.
    + constructor; [|now apply IH].
      intros H. apply bump_keys in H. destruct H as [H|H]; [|now apply Hx].
      unfold group_key in H. cbn [fst] in H. subst k0.
      apply eqb_neq in E. now apply E.
Qed.

Lemma bump_in (k : K) (p : P) (gs : list (K * P * Z)) (k' : K) (p' : P) (n' : Z) :
  NoDup (map group_key gs) ->
  In (k', p', n') (bump eqb k p gs) ->
  (k' <> k /\ In (k', p', n') gs)
  \/ (k' = k /\ In (k, p', n' - 1) gs)
  \/ (k' = k /\ p' = p /\ n' = 1 /\ ~ In k (map group_key gs)).
Proof.
  induction gs as [|[[k0 p0] n0] gs IH]; cbn [bump map In]; intros N H.
  - destruct H as [H|[]]. injection H as <- <- <-. right. right. intuition.
  - inversion N as [|x l Hx Hl]; subst. unfold group_key in Hx. cbn [fst] in Hx.
    destruct (eqb k k0) eqn:E.
    + apply eqb_eq in E. subst k0. destruct H as [H|H].
      * injection H as <- <- <-. right. left. split; [reflexivity|].
        left. f_equal. lia.
      * left. split; [|now right]. intros ->. apply Hx.
        apply in_map_iff. now exists (k, p', n').
    + apply eqb_neq in E. destruct H as [H|H].
      * injection H as <- <- <-. left. split; [congruence | now left].
      * destruct (IH Hl H) as [[A B]|[[A B]|(A & B & C & D)]].
        -- left. split; [exact A | now right].
        -- right. left. split; [exact A | now right].
        -- right. right. repeat split; try assumption.
           unfold group_key. cbn [fst]. intros [F|F]; [congruence | now apply D].
Qed.

Lemma grouped_step (rows : list (K * P)) (gs : list (K * P * Z)) (r : K * P) :
  grouped eqb rows gs -> grouped eqb (rows ++ [r]) (bump eqb (fst r) (snd r) gs).
Proof.
  intros (N & C & G). split; [now apply bump_nodup|]. split.
  - intros r' H. apply bump_keys. apply in_app_or in H.
    destruct H as [H|[<-|[]]]; [right; now apply C | now left].
  - intros k p n H. apply bump_in in H; [|exact N]. rewrite rows_of_snoc.
    destruct H as [[A B]|[[A B]|(A & B & D & E)]].
    + destruct (G _ _ _ B) as [-> I]. split.
      * assert (F : eqb (fst r) k = false) by (apply eqb_neq; congruence).
        rewrite F. lia.
      * apply in_or_app. now left.
    + subst k. destruct (G _ _ _ B) as [Q I]. split.
      * assert (F : eqb (fst r) (fst r) = true) by now apply eqb_eq.
        rewrite F. lia.
      * apply in_or_app. now left.
    + subst k p n. split.
      * assert (F : eqb (fst r) (fst r) = true) by now apply eqb_eq.
        rewrite F. rewrite rows_of_absent; [reflexivity|].
        intros r' Hr' Q. apply E. rewrite <- Q. now apply C.
      * apply in_or_app. right. left. now destruct r.
Qed.

Lemma fold_bump_grouped (rows done : list (K * P)) (gs : list (K * P * Z)) :
  grouped eqb done gs ->
  grouped eqb (done ++ rows)
          (fold_left (fun gs r => bump eqb (fst r) (snd r) gs) rows gs).
Proof.
  revert done gs. induction rows as [|r rows IH]; intros done gs G; cbn [fold_left].
  - now rewrite app_nil_r.
  - replace (done ++ r :: rows) with ((done ++ [r]) ++ rows)
      by (now rewrite <- app_assoc).
    apply IH. now apply grouped_step.
Qed.

Lemma group_count_grouped (rows : list (K * P)) :
  grouped eqb rows (group_count eqb rows).
Proof.
  apply (fold_bump_grouped rows [] []). split; [constructor|].
  split; [intros r [] | intros k p n []].
Qed.

End GroupFacts.

Section GroupTotal.
Context {K P : Type}.
Variable eqb : K -> K -> bool.

Lemma total_bump (k : K) (p : P) (gs : list (K * P * Z)) :
  total (bump eqb k p gs) = total gs + 1.
Proof.
  induction gs as [|[[k0 p0] n0] gs IH]; cbn [bump total fold_right snd];
    [reflexivity|].
  destruct (eqb k k0); cbn [total fold_right snd]; fold (@total K P) in *.
  - change (fold_right (fun g acc => snd g + acc) 0 gs) with (total gs). lia.
  - change (fold_right (fun g acc => snd g + acc) 0 (bump eqb k p gs))
      with (total (bump eqb k p gs)).
    change (fold_right (fun g acc => snd g + acc) 0 gs) with (total gs).
    rewrite IH. lia.
Qed.

Lemma total_fold_bump (rows : list (K * P)) (gs : list (K * P * Z)) :
  total (fold_left (fun gs r => bump eqb (fst r) (snd r) gs) rows gs)
  = total gs + Z.of_nat (List.length rows).
Proof.
  revert gs. induction rows as [|r rows IH]; intros gs; cbn [fold_left List.length].
  - lia.
  - rewrite IH, total_bump. lia.
Qed.

(** Every row is counted once. *)
Lemma total_group_count (rows : list (K * P)) :
  total (group_count eqb rows) = Z.of_nat (List.length rows).
Proof. unfold group_count. now rewrite total_fold_bump. Qed.

End GroupTotal.

Lemma total_perm {K P : Type} (l l' : list (K * P * Z)) :
  Permutation l l' -> total l = total l'.
Proof.
  induction 1; cbn [total fold_right] in *; fold (@total K P) in *.
  - reflexivity.
  - unfold total in *. lia.
  - lia.
  - congruence.
Qed.

(** ** ORDER BY ... DESC *)

Section SortFacts.
Context {A : Type}.
Variable key : A -> sqlval.

Lemma insert_by_perm (x : A) (l : list A) :
  Permutation (x :: l) (insert_by key x l).
Proof.
  induction l as [|h t IH]; simpl; [reflexivity|].
  destruct (sql_le (key h) (key x)); [reflexivity|].
  rewrite perm_swap. now apply perm_skip.
Qed.

Lemma sort_desc_perm (l : list A) : Permutation l (sort_desc key l).
Proof.
  induction l as [|x l IH]; simpl; [reflexivity|].
  rewrite <- insert_by_perm. now apply perm_skip.
Qed.

Lemma insert_by_sorted (x : A) (l : list A) :
  StronglySorted (fun a b => sql_le (key b) (key a) = true) l ->
  StronglySorted (fun a b => sql_le (key b) (key a) = true) (insert_by key x l).
Proof.
  induction 1 as [|h t Ht IH Hh]; simpl.
  - repeat constructor.
  - destruct (sql_le (key h) (key x)) eqn:E.
    + constructor; [now constructor|].
      constructor; [exact E|].
      rewrite Forall_forall in *. intros y Hy.
      eapply sql_le_trans; [apply Hh, Hy | exact E].
    + constructor; [exact IH|].
      rewrite Forall_forall in *. intros y Hy.
      apply Permutation_in with (l' := x :: t) in Hy;
        [|symmetry; apply insert_by_perm].
      destruct Hy as [<-|Hy]; [|now apply Hh].
      destruct (sql_le_total (key h) (key x)); congruence.
Qed.

Lemma sort_desc_sorted (l : list A) :
  StronglySorted (fun a b => sql_le (key b) (key a) = true) (sort_desc key l).
Proof.
  induction l as [|x l IH]; simpl; [constructor | now apply insert_by_sorted].
Qed.

End SortFacts.

(** ** A LEFT JOIN on a key of the right table *)

Section UniqueJoin.
Context {A B K : Type}.
Variable on : A -> B -> bool.
Variable key : B -> K.
Hypothesis on_key :
  forall a b b', on a b = true -> on a b' = true -> key b = key b'.

Lemma filter_unique (a : A) (r : list B) :
  NoDup (map key r) ->
  filter (on a) r = match find (on a) r with Some b => [b] | None => [] end.
Proof.
  induction r as [|b r IH]; cbn [filter find map]; intros N; [reflexivity|].
  inversion N as [|x l Hx Hl]; subst.
  destruct (on a b) eqn:E; [|now apply IH].
  f_equal. destruct (filter (on a) r) as [|b' t] eqn:F; [reflexivity|].
  exfalso. apply Hx.
  assert (I : In b' (filter (on a) r)) by (rewrite F; now left).
  apply filter_In in I. destruct I as [I O].
  rewrite (on_key a b b' E O). now apply in_map.
Qed.

(** Each left row comes out once, beside its partner if it has one. *)
Lemma left_join_unique (l : list A) (r : list B) :
  NoDup (map key r) ->
  left_join on l r = map (fun a => (a, find (on a) r)) l.
Proof.
  intros N. unfold left_join.
  induction l as [|a l IH]; [reflexivity|].
  change (flat_map ?f (a :: l)) with (f a ++ flat_map f l).
  cbv beta. rewrite IH, (filter_unique a r N).
  cbn [map]. destruct (find (on a) r); reflexivity.
Qed.

End UniqueJoin.

Lemma filter_map_comm {A B : Type} (f : B -> bool) (g : A -> B) (l : list A) :
  filter f (map g l) = map g (filter (fun a => f (g a)) l).
Proof.
  induction l as [|a l IH]; cbn [map filter]; [reflexivity|].
  rewrite IH. now destruct (f (g a)).
Qed.

Lemma filter_filter {A : Type} (f g : A -> bool) (l : list A) :
  filter f (filter g l) = filter (fun a => g a && f a) l.
Proof.
  induction l as [|a l IH]; cbn [filter]; [reflexivity|].
  destruct (g a); cbn [filter andb]; rewrite IH; reflexivity.
Qed.

Lemma filter_split_length {A : Type} (f : A -> bool) (l : list A) :
  (List.length (filter f l) + List.length (filter (fun a => negb (f a)) l)
   = List.length l)%nat.
Proof.
  induction l as [|a l IH]; cbn [filter List.length]; [reflexivity|].
  destruct (f a); cbn [negb List.length]; lia.
Qed.

Lemma nodup_map_through {A K K' : Type} (f : A -> K) (g : A -> K') (l : list A) :
  NoDup (map f l) ->
  (forall x y, In x l -> In y l -> g x = g y -> f x = f y) ->
  NoDup (map g l).
Proof.
  induction l as [|a l IH]; cbn [map]; intros N H; [constructor|].
  inversion N as [|x t Hx Ht]; subst. constructor.
  - intros I. apply in_map_iff in I. destruct I as [y [E Hy]].
    apply Hx. rewrite <- (H y a); [now apply in_map | now right | now left | exact E].
  - apply IH; [exact Ht|]. intros x y Ix Iy. apply H; now right.
Qed.

Lemma opt_text_eqb_eq (a b : option string) : opt_text_eqb a b = true <-> a = b.
Proof.
  destruct a, b; cbn; try (split; congruence).
  rewrite String.eqb_eq. split; congruence.
Qed.

Lemma opt_text_eqb_refl (a : option string) : opt_text_eqb a a = true.
Proof. now apply opt_text_eqb_eq. Qed.

Lemma pilot_group_eqb_eq (a b : pilot_group) :
  pilot_group_eqb a b = true <-> a = b.
Proof.
  destruct a as [[a1 a2] a3], b as [[b1 b2] b3]. unfold pilot_group_eqb.
  cbn [fst snd]. rewrite !andb_true_iff, !opt_text_eqb_eq.
  split; [intros [[-> ->] ->]; reflexivity | intros H; injection H; auto].
Qed.

Lemma of_opt_text_inj (a b : option string) :
  of_opt_text a = of_opt_text b -> a = b.
Proof. destruct a, b; cbn; congruence. Qed.

(** ** [flights_per_pilot] *)

Lemma partner_of_schedule (db : database) (s : schedule) (p : string) :
  fs_pilot_ID s = Some p ->
  find (fun dp => pilot_of (Some s) dp) (d_pilot db) = pilot_with_id db p.
Proof. intros E. unfold pilot_of, pilot_with_id. now rewrite E. Qed.

Lemma assigned_rows_unique (db : database) :
  NoDup (map dp_pilot_ID (d_pilot db)) ->
  assigned_rows db
  = map (fun s => (s, find (fun dp => pilot_of (Some s) dp) (d_pilot db)))
        (filter (fun s => negb (without_pilot s)) (f_schedule db)).
Proof.
  intros N. unfold assigned_rows.
  rewrite (left_join_unique _ dp_pilot_ID); [|idtac|exact N].
  - now rewrite filter_map_comm.
  - intros a b b'. unfold pilot_of. destruct (fs_pilot_ID a); [|discriminate].
    rewrite !String.eqb_eq. congruence.
Qed.

Lemma assigned_row_group (db : database) (s : schedule) (p : string) :
  fs_pilot_ID s = Some p ->
  pilot_group_of (s, find (fun dp => pilot_of (Some s) dp) (d_pilot db))
  = pilot_group_with_id db p.
Proof.
  intros E. rewrite (partner_of_schedule db s p E).
  unfold pilot_group_of, pilot_group_with_id. cbn [fst snd]. now rewrite E.
Qed.

Lemma rows_of_pilot (db : database) (p : string) :
  NoDup (map dp_pilot_ID (d_pilot db)) ->
  rows_of pilot_group_eqb (pilot_group_with_id db p)
          (map (fun r => (pilot_group_of r, tt)) (assigned_rows db))
  = flights_of db p.
Proof.
  intros N. unfold rows_of, flights_of. rewrite (assigned_rows_unique db N).
  rewrite map_map, filter_map_comm, length_map, filter_filter.
  f_equal. f_equal. apply filter_ext. intros s. cbn [fst].
  unfold without_pilot. destruct (fs_pilot_ID s) as [q|] eqn:E; [|reflexivity].
  rewrite (assigned_row_group db s q E). cbn [negb andb opt_text_eqb].
  destruct (q =? p)%string eqn:Q.
  - apply String.eqb_eq in Q. subst q. now apply pilot_group_eqb_eq.
  - apply (eqb_neq pilot_group_eqb pilot_group_eqb_eq).
    unfold pilot_group_with_id. intros H. injection H as H _ _.
    apply String.eqb_neq in Q. now apply Q.
Qed.

(** With distinct pilot ids there is one group for each pilot that some
    schedule row refers to, and it counts the rows that do. *)
Lemma pilot_groups_spec (db : database) :
  NoDup (map dp_pilot_ID (d_pilot db)) ->
  NoDup (map group_pilot (pilot_groups db))
  /\ (forall g, In g (pilot_groups db) ->
        g = (pilot_group_with_id db (group_pilot g), tt,
             flights_of db (group_pilot g))
        /\ exists s, In s (f_schedule db)
                     /\ fs_pilot_ID s = Some (group_pilot g))
  /\ (forall s p, In s (f_schedule db) -> fs_pilot_ID s = Some p ->
        In p (map group_pilot (pilot_groups db))).
Proof.
  intros N.
  destruct (group_count_grouped pilot_group_eqb pilot_group_eqb_eq
              (map (fun r => (pilot_group_of r, tt)) (assigned_rows db)))
    as (D & C & G).
  fold (pilot_groups db) in D, C, G.
  assert (S : forall g, In g (pilot_groups db) ->
            g = (pilot_group_with_id db (group_pilot g), tt,
                 flights_of db (group_pilot g))
            /\ exists s, In s (f_schedule db)
                         /\ fs_pilot_ID s = Some (group_pilot g)).
  { intros [[k []] n] H. destruct (G _ _ _ H) as [Q I].
    apply in_map_iff in I. destruct I as [r [E I]].
    rewrite (assigned_rows_unique db N) in I.
    apply in_map_iff in I. destruct I as [s [<- I]].
    apply filter_In in I. destruct I as [I A].
    unfold without_pilot in A. destruct (fs_pilot_ID s) as [p|] eqn:P;
      [|discriminate].
    rewrite (assigned_row_group db s p P) in E. injection E as <-.
    unfold group_pilot, group_key. cbn [fst pilot_group_with_id].
    split; [|now exists s].
    rewrite Q. now rewrite (rows_of_pilot db p N). }
  split; [|split].
  - apply (nodup_map_through group_key group_pilot _ D).
    intros x y Ix Iy E. destruct (S x Ix) as [-> _], (S y Iy) as [-> _].
    unfold group_pilot, group_key in *. cbn [fst pilot_group_with_id] in *.
    now rewrite E.
  - exact S.
  - intros s p I P.
    assert (R : In (pilot_group_with_id db p, tt)
                   (map (fun r => (pilot_group_of r, tt)) (assigned_rows db))).
    { rewrite (assigned_rows_unique db N), map_map. apply in_map_iff.
      exists s. split; [now rewrite (assigned_row_group db s p P)|].
      apply filter_In. split; [exact I|]. unfold without_pilot. now rewrite P. }
    apply C in R. cbn [fst] in R. apply in_map_iff in R.
    destruct R as [g [E Ig]]. apply in_map_iff. exists g. split; [|exact Ig].
    unfold group_pilot. now rewrite E.
Qed.

Lemma counts_printed_groups {K P : Type} (line : K * P * Z -> summary_line)
    (gs : list (K * P * Z)) :
  (forall g, count_of (line g) = snd g) ->
  counts_printed (map line gs) = total gs.
Proof.
  intros H. unfold counts_printed, total.
  induction gs as [|g gs IH]; cbn [map fold_right]; [reflexivity|].
  now rewrite IH, H.
Qed.

Lemma counts_printed_pilots (db : database) :
  counts_printed
    (map (fun row => Pilot_assigned_to (fst (fst (fst row))) (snd (fst (fst row)))
                                       (snd (fst row)) (snd row))
         (flights_per_pilot_query db))
  = total (pilot_groups db).
Proof.
  unfold flights_per_pilot_query. rewrite map_map.
  now apply counts_printed_groups.
Qed.

(** X14: the three summaries only read. On every world each of them
    returns; the database and the operator's input are as they were; the
    one connection the call opened has run one statement and is closed,
    and no other connection is touched. *)
Theorem summaries_read_and_close (w : world) :
  (exists ls w', unassigned_flights w = Returned ls w' /\ read_and_closed w w')
  /\ (exists ls w', flights_per_pilot w = Returned ls w' /\ read_and_closed w w')
  /\ (exists ls w', flights_per_destination w = Returned ls w'
                    /\ read_and_closed w w').
Proof.
  split; [|split]; do 2 eexists.
  - split; [apply unassigned_flights_run | repeat split].
  - split; [apply flights_per_pilot_run | repeat split].
  - split; [apply flights_per_destination_run | repeat split].
Qed.

Lemma flights_of_present (db : database) (s : schedule) (p : string) :
  In s (f_schedule db) -> fs_pilot_ID s = Some p -> 1 <= flights_of db p.
Proof.
  intros I P. unfold flights_of.
  assert (H : In s (filter (fun s => opt_text_eqb (fs_pilot_ID s) (Some p))
                           (f_schedule db))).
  { apply filter_In. split; [exact I|]. rewrite P. apply opt_text_eqb_refl. }
  destruct (filter _ (f_schedule db)); [destruct H | cbn [List.length]; lia].
Qed.

(** X15: with distinct pilot ids in [d_pilot], [flights_per_pilot] prints,
    after its heading, one line for each pilot id that some schedule row
    carries and no other line. The line of a pilot states the names found
    in [d_pilot] (None twice when the id is not there) and the number of
    schedule rows that carry the id, which is at least one. *)
Theorem flights_per_pilot_lines (w : world) :
  NoDup (map dp_pilot_ID (d_pilot (disk w))) ->
  exists ps w',
    flights_per_pilot w
    = Returned (Summarising_pilots :: map (pilot_line (disk w)) ps) w'
    /\ NoDup ps
    /\ (forall p, In p ps <-> exists s, In s (f_schedule (disk w))
                                        /\ fs_pilot_ID s = Some p)
    /\ Forall (fun p => 1 <= flights_of (disk w) p) ps.
Proof.
  intros N. destruct (pilot_groups_spec (disk w) N) as (D & S & C).
  exists (map group_pilot (pilot_groups (disk w))). eexists.
  split; [|split; [exact D|split]].
  - rewrite flights_per_pilot_run. f_equal. f_equal.
    unfold flights_per_pilot_query. rewrite !map_map.
    apply map_ext_in. intros g I. destruct (S g I) as [E _].
    remember (group_pilot g) as p eqn:Hp. clear Hp. subst g. reflexivity.
  - intros p. split.
    + intros I. apply in_map_iff in I. destruct I as [g [<- I]].
      now destruct (S g I) as [_ H].
    + intros [s [I P]]. now apply (C s p).
  - apply Forall_forall. intros p I. apply in_map_iff in I.
    destruct I as [g [<- I]]. destruct (S g I) as [_ [s [Is P]]].
    now apply (flights_of_present _ s).
Qed.

(** On the sample data. *)
Lemma flights_per_pilot_lines_witness :
  exists ps w',
    flights_per_pilot (start seeded [])
    = Returned (Summarising_pilots
                :: map (pilot_line (disk (start seeded []))) ps) w'
    /\ NoDup ps
    /\ (forall p, In p ps <-> exists s, In s (f_schedule (disk (start seeded [])))
                                        /\ fs_pilot_ID s = Some p)
    /\ Forall (fun p => 1 <= flights_of (disk (start seeded [])) p) ps.
Proof.
  apply (flights_per_pilot_lines (start seeded [])).
  vm_compute. distinct_keys.
Defined.

(** X16: the two pilot summaries account for every schedule row. With
    distinct pilot ids in [d_pilot], the number [unassigned_flights]
    states and the numbers on the lines of [flights_per_pilot] add up to
    the number of rows of [f_schedule]. *)
Theorem pilot_summaries_add_up (w : world) :
  NoDup (map dp_pilot_ID (d_pilot (disk w))) ->
  exists l w1 ls w2,
    unassigned_flights w = Returned [l] w1
    /\ flights_per_pilot w = Returned ls w2
    /\ count_of l + counts_printed ls
       = Z.of_nat (List.length (f_schedule (disk w))).
Proof.
  intros N. do 4 eexists.
  split; [apply unassigned_flights_run|].
  split; [apply flights_per_pilot_run|].
  change (counts_printed (Summarising_pilots :: ?t)) with (0 + counts_printed t).
  rewrite counts_printed_pilots. unfold pilot_groups.
  rewrite total_group_count, length_map, (assigned_rows_unique _ N), length_map.
  rewrite count_of_unassigned_line. unfold unassigned.
  pose proof (filter_split_length without_pilot (f_schedule (disk w))). lia.
Qed.

(** On the sample data: two rows without a pilot and nine with one. *)
Lemma pilot_summaries_add_up_witness :
  exists l w1 ls w2,
    unassigned_flights (start seeded []) = Returned [l] w1
    /\ flights_per_pilot (start seeded []) = Returned ls w2
    /\ count_of l + counts_printed ls
       = Z.of_nat (List.length (f_schedule (disk (start seeded [])))).
Proof.
  apply (pilot_summaries_add_up (start seeded [])).
  vm_compute. distinct_keys.
Defined.

(** ** [flights_per_destination] *)

Lemma find_none {A : Type} (l : list A) : find (fun _ => false) l = None.
Proof. induction l; [reflexivity | assumption]. Qed.

Lemma destination_join_unique (db : database) :
  NoDup (map df_flight_ID (d_flight db)) ->
  NoDup (map dd_destination_code (d_destination db)) ->
  map (fun r => (drow_fs r, drow_dd2 r)) (destination_join db)
  = map (fun s => (s, arrival_of db s)) (f_schedule db).
Proof.
  intros F D. unfold destination_join.
  rewrite (left_join_unique _ dd_destination_code); [|idtac|exact D].
  2:{ intros [[s df] dd1] b b'. cbn [fst snd]. destruct df; [|discriminate].
      rewrite !String.eqb_eq. congruence. }
  rewrite (left_join_unique _ dd_destination_code); [|idtac|exact D].
  2:{ intros [s df] b b'. cbn [snd]. destruct df; [|discriminate].
      rewrite !String.eqb_eq. congruence. }
  rewrite (left_join_unique _ df_flight_ID); [|idtac|exact F].
  2:{ intros s b b'. rewrite !Z.eqb_eq. congruence. }
  rewrite !map_map. apply map_ext. intros s.
  unfold drow_fs, drow_dd2, arrival_of. cbn [fst snd]. f_equal.
  destruct (find _ (d_flight db)); [reflexivity | apply find_none].
Qed.

Lemma destination_rows_unique (db : database) :
  NoDup (map df_flight_ID (d_flight db)) ->
  NoDup (map dd_destination_code (d_destination db)) ->
  map (fun r => arrival_details (drow_dd2 r)) (scheduled_rows db)
  = map (fun s => arrival_details (arrival_of db s))
        (filter is_scheduled (f_schedule db)).
Proof.
  intros F D. unfold scheduled_rows.
  change (map (fun r => arrival_details (drow_dd2 r))
              (filter (fun r => is_scheduled (drow_fs r)) (destination_join db)))
    with (map (fun r => (fun x => arrival_details (snd x)) (drow_fs r, drow_dd2 r))
              (filter (fun r => (fun x => is_scheduled (fst x))
                                  (drow_fs r, drow_dd2 r))
                      (destination_join db))).
  rewrite <- (map_map (fun r => (drow_fs r, drow_dd2 r))
                      (fun x => arrival_details (snd x))).
  rewrite <- (filter_map_comm (fun x => is_scheduled (fst x))
                              (fun r => (drow_fs r, drow_dd2 r))).
  rewrite (destination_join_unique db F D).
  now rewrite filter_map_comm, map_map.
Qed.

Lemma destination_groups_perm (db : database) :
  Permutation (group_count opt_text_eqb
                 (map (fun r => arrival_details (drow_dd2 r)) (scheduled_rows db)))
              (destination_groups db).
Proof. apply sort_desc_perm. Qed.

Lemma flights_per_destination_lines_run (w : world) :
  flights_per_destination w
  = Returned (Summarising_destinations
              :: map destination_line (destination_groups (disk w)))
             (World (disk w) (conns w ++ [Connection false None 1])
                    (stdout w) (stdin w)).
Proof.
  rewrite flights_per_destination_run. unfold flights_per_destination_query.
  now rewrite map_map.
Qed.

Lemma strictly_sorted {A : Type} (key : A -> sqlval) (line : A -> summary_line)
    (l : list A) :
  (forall a, airport_of (line a) = key a) ->
  StronglySorted (fun a b => sql_le (key b) (key a) = true) l ->
  NoDup (map key l) ->
  StronglySorted name_desc (map line l).
Proof.
  intros H. induction 1 as [|a l S IH Ha]; cbn [map]; intros N; [constructor|].
  inversion N as [|x t Hx Ht]; subst. constructor; [now apply IH|].
  apply Forall_forall. intros y Iy. apply in_map_iff in Iy.
  destruct Iy as [b [<- Ib]]. unfold name_desc. rewrite !H. split.
  - rewrite Forall_forall in Ha. now apply Ha.
  - intros E. apply Hx. rewrite E. now apply in_map.
Qed.

(** X17: after its heading, [flights_per_destination] prints its lines
    in descending order of airport name, no name twice (a line for flights
    without a known arrival airport, named None, comes last), and every
    line states a count of at least one. *)
Theorem flights_per_destination_descending (w : world) :
  exists ls w',
    flights_per_destination w = Returned (Summarising_destinations :: ls) w'
    /\ StronglySorted name_desc ls
    /\ Forall (fun l => 1 <= count_of l) ls.
Proof.
  do 2 eexists. split; [apply flights_per_destination_lines_run|].
  pose proof (destination_groups_perm (disk w)) as Pm.
  destruct (group_count_grouped opt_text_eqb opt_text_eqb_eq
              (map (fun r => arrival_details (drow_dd2 r))
                   (scheduled_rows (disk w)))) as (D & C & G).
  split.
  - apply (strictly_sorted (fun g => of_opt_text (fst (fst g)))).
    + reflexivity.
    + apply sort_desc_sorted.
    + match goal with |- NoDup (map _ ?L) =>
        apply (nodup_map_through group_key
                 (fun g => of_opt_text (fst (fst g))) L) end.
      * eapply Permutation_NoDup; [|exact D]. now apply Permutation_map.
      * intros x y _ _ E. now apply of_opt_text_inj in E.
  - apply Forall_forall. intros l I. apply in_map_iff in I.
    destruct I as [[[k p] n] [<- I]].
    apply (Permutation_in _ (Permutation_sym Pm)) in I.
    destruct (G _ _ _ I) as [-> R]. cbn [destination_line count_of snd].
    now apply (rows_of_present opt_text_eqb opt_text_eqb_eq k p).
Qed.

Lemma rows_of_arrivals (db : database) (name : option string) :
  rows_of opt_text_eqb name
          (map (fun s => arrival_details (arrival_of db s))
               (filter is_scheduled (f_schedule db)))
  = scheduled_arrivals db name.
Proof.
  unfold rows_of, scheduled_arrivals.
  now rewrite filter_map_comm, length_map, filter_filter.
Qed.

(** X18: with distinct flight ids and destination codes,
    [flights_per_destination] counts, for each airport name that a
    schedule row with status "scheduled" arrives at, the schedule rows
    with that status arriving at an airport of that name. Each line shows
    the city and country of the arrival destination of one of these rows,
    every such row is counted on the line of its airport name, and the
    counts add up to the number of rows with status "scheduled". *)
Theorem flights_per_destination_lines (w : world) :
  NoDup (map df_flight_ID (d_flight (disk w))) ->
  NoDup (map dd_destination_code (d_destination (disk w))) ->
  exists ls w',
    flights_per_destination w = Returned (Summarising_destinations :: ls) w'
    /\ (forall l, In l ls ->
          exists s, In s (f_schedule (disk w))
                    /\ is_scheduled s = true
                    /\ l = destination_line
                             (arrival_details (arrival_of (disk w) s),
                              scheduled_arrivals (disk w)
                                (option_map dd_airport_name
                                            (arrival_of (disk w) s))))
    /\ (forall s, In s (f_schedule (disk w)) -> is_scheduled s = true ->
          exists l, In l ls
                    /\ airport_of l
                       = of_opt_text (option_map dd_airport_name
                                                 (arrival_of (disk w) s)))
    /\ counts_printed ls = scheduled (disk w).
Proof.
  intros F D. do 2 eexists.
  split; [apply flights_per_destination_lines_run|].
  pose proof (destination_groups_perm (disk w)) as Pm.
  destruct (group_count_grouped opt_text_eqb opt_text_eqb_eq
              (map (fun r => arrival_details (drow_dd2 r))
                   (scheduled_rows (disk w)))) as (N & C & G).
  rewrite (destination_rows_unique (disk w) F D) in Pm, N, C, G.
  split; [|split].
  - intros l I. apply in_map_iff in I. destruct I as [[[k p] n] [<- I]].
    apply (Permutation_in _ (Permutation_sym Pm)) in I.
    destruct (G _ _ _ I) as [-> R]. apply in_map_iff in R.
    destruct R as [s [E R]]. apply filter_In in R. destruct R as [Is Sc].
    exists s. split; [exact Is|split; [exact Sc|]].
    rewrite rows_of_arrivals. rewrite E.
    unfold arrival_details in E. injection E as <- _. reflexivity.
  - intros s Is Sc.
    assert (R : In (arrival_details (arrival_of (disk w) s))
                   (map (fun s => arrival_details (arrival_of (disk w) s))
                        (filter is_scheduled (f_schedule (disk w))))).
    { apply (in_map (fun s => arrival_details (arrival_of (disk w) s))).
      apply filter_In. now split. }
    apply C in R. apply in_map_iff in R. destruct R as [g [E Ig]].
    exists (destination_line g). split.
    + apply in_map. now apply (Permutation_in _ Pm).
    + cbn [destination_line airport_of]. unfold group_key in E. now rewrite E.
  - rewrite (counts_printed_groups destination_line) by reflexivity.
    rewrite <- (total_perm _ _ Pm), total_group_count, length_map.
    reflexivity.
Qed.

(** On the sample data. *)
Lemma flights_per_destination_lines_witness :
  exists ls w',
    flights_per_destination (start seeded [])
    = Returned (Summarising_destinations :: ls) w'
    /\ (forall l, In l ls ->
          exists s, In s (f_schedule (disk (start seeded [])))
                    /\ is_scheduled s = true
                    /\ l = destination_line
                             (arrival_details
                                (arrival_of (disk (start seeded [])) s),
                              scheduled_arrivals (disk (start seeded []))
                                (option_map dd_airport_name
                                   (arrival_of (disk (start seeded [])) s))))
    /\ (forall s, In s (f_schedule (disk (start seeded []))) ->
          is_scheduled s = true ->
          exists l, In l ls
                    /\ airport_of l
                       = of_opt_text (option_map dd_airport_name
                                        (arrival_of (disk (start seeded [])) s)))
    /\ counts_printed ls = scheduled (disk (start seeded [])).
Proof.
  apply (flights_per_destination_lines (start seeded []));
    vm_compute; distinct_keys.
Defined.

(** ** A summary after an assignment *)

Lemma pilot_reference_given (pid : pyval) :
  is_None pid = false -> accepted pid = true ->
  exists p, pilot_reference pid = Some p.
Proof.
  destruct pid; cbn; try discriminate; intros _ _; eexists; reflexivity.
Qed.

Lemma unassigned_after_assignment (m : schedule -> bool) (p : string)
    (db : database) :
  unassigned (rewrite_schedules m (with_pilot (Some p)) db)
  = unassigned db
    - Z.of_nat (List.length (filter (fun s => m s && without_pilot s)
                                    (f_schedule db))).
Proof.
  unfold unassigned, rewrite_schedules. cbn [f_schedule].
  rewrite filter_map_comm, length_map.
  pose proof (filter_split_length m (filter without_pilot (f_schedule db))) as H.
  rewrite !filter_filter in H.
  rewrite (filter_ext (fun s => without_pilot s && m s)
                      (fun s => m s && without_pilot s)) in H
    by (intros s; apply andb_comm).
  rewrite (filter_ext (fun s => without_pilot s && negb (m s))
                      (fun s => without_pilot (if m s then with_pilot (Some p) s
                                               else s))) in H
    by (intros s; destruct (m s); [now rewrite andb_false_r
                                  | now rewrite andb_true_r]).
  lia.
Qed.

(** X19: an assignment shows in the next summary. When [assign_pilot]
    has been confirmed (at the first prompt, or at the second after one
    answer that is neither token) and has found the flight, with a pilot
    id the engine takes for the column and in a world where no connection
    holds a transaction, [unassigned_flights] called next states the
    number of schedule rows without a pilot there was before, less the
    rows of that flight id and departure date that had none. *)
Theorem unassigned_flights_after_assign_pilot
    (pid fn dd dc ac : pyval) (w : world) (hesitation : list string)
    (line : string) (rest : list string) (fid : Z) (others : list Z) :
  is_None pid = false ->
  forallb truthy [fn; dd; dc; ac] = true ->
  stdin w = hesitation ++ line :: rest ->
  (List.length hesitation <= 1)%nat ->
  forallb unrecognised hesitation = true ->
  affirmative line = true ->
  flight_id_lookup fn dc ac (disk w) = fid :: others ->
  accepted pid = true ->
  unlocked w = true ->
  exists w' l w'',
    assign_pilot pid fn dd dc ac w = Returned tt w'
    /\ unassigned_flights w' = Returned [l] w''
    /\ count_of l
       = unassigned (disk w)
         - Z.of_nat (List.length
                       (filter (fun s => flown_on fid dd s && without_pilot s)
                               (f_schedule (disk w)))).
Proof.
  intros N T I H U Y L A _.
  destruct (assign_pilot_confirmed pid fn dd dc ac w hesitation line rest fid
              others N T I H U Y L A) as [w' (R & D & _)].
  exists w'. do 2 eexists. split; [exact R|].
  split; [apply unassigned_flights_run|].
  rewrite count_of_unassigned_line, D.
  destruct (pilot_reference_given pid N A) as [p ->].
  apply unassigned_after_assignment.
Qed.

(** On the sample data two schedule rows lack a pilot: row 10, and row 11
    of flight SI3350 (id 2) on 2025-04-29. After P0010007 is assigned to
    that flight the summary states one. *)
Lemma unassigned_flights_after_assign_pilot_witness :
  exists w' w'',
    assign_pilot (PyStr "P0010007") (PyStr "SI3350") (PyStr "2025-04-29")
                 (PyStr "Jersey") (PyStr "Southampton") (start seeded ["yes"])
    = Returned tt w'
    /\ unassigned_flights (start seeded ["yes"])
       = Returned [Flights_lacking_pilot 2]
                  (World seeded [Connection false None 1] [] ["yes"])
    /\ unassigned_flights w' = Returned [One_flight_lacking_pilot 1] w''.
Proof.
  destruct (unassigned_flights_after_assign_pilot (PyStr "P0010007")
              (PyStr "SI3350") (PyStr "2025-04-29") (PyStr "Jersey")
              (PyStr "Southampton") (start seeded ["yes"]) [] "yes" [] 2 []
              eq_refl eq_refl eq_refl (le_S 0 0 (le_n 0)) eq_refl eq_refl
              eq_refl eq_refl eq_refl)
    as [w' [l [w'' (R & S & C)]]].
  exists w', w''. split; [exact R|]. split; [reflexivity|].
  rewrite S. do 2 f_equal.
  rewrite unassigned_flights_run in S. injection S as S _.
  change (unassigned (disk (start seeded ["yes"]))
          - Z.of_nat (List.length
                        (filter (fun s => flown_on 2 (PyStr "2025-04-29") s
                                          && without_pilot s)
                                (f_schedule (disk (start seeded ["yes"]))))))
    with 1 in C.
  rewrite <- S in C |- *. rewrite count_of_unassigned_line in C.
  rewrite C. reflexivity.
Defined.
